(** * Badfish: a shallow embedding of the control logic of [badfish.py]

    The development follows the Python source function by function.
    Python values that the code only passes around (JSON documents, the
    interfaces mapping, boot devices) are data; every network call is a
    step in a small state-and-exception monad whose state records the
    replies still to come and the requests already issued. *)

From Stdlib Require Import ZArith Ascii String.
From stdpp Require Import base tactics option list numbers strings gmap sorting.

Local Open Scope Z_scope.

(** ** Python strings *)

Module PyStr.

(** [s.split(sep)] for a one-character separator: never empty, the pieces
    between consecutive separators, empty pieces kept. *)
Fixpoint split (sep : ascii) (s : string) : list string :=
  match s with
  | EmptyString => [EmptyString]
  | String c s' =>
      if Ascii.eqb c sep then EmptyString :: split sep s'
      else match split sep s' with
           | piece :: rest => String c piece :: rest
           | [] => [String c EmptyString]
           end
  end.

(** [sep.join(parts)]. *)
Fixpoint join (sep : string) (parts : list string) : string :=
  match parts with
  | [] => EmptyString
  | [p] => p
  | p :: rest => p +:+ sep +:+ join sep rest
  end.

(** [c.lower()] on one ASCII character; other bytes are left alone. *)
Definition lower_ascii (c : ascii) : ascii :=
  let n := nat_of_ascii c in
  if ((65 <=? n)%nat && (n <=? 90)%nat)%bool then ascii_of_nat (n + 32) else c.

(** [s.lower()]. *)
Fixpoint lower (s : string) : string :=
  match s with
  | EmptyString => EmptyString
  | String c s' => String (lower_ascii c) (lower s')
  end.

(** [s.startswith(p)]. *)
Fixpoint startswith (p s : string) : bool :=
  match p, s with
  | EmptyString, _ => true
  | String a p', String b s' => Ascii.eqb a b && startswith p' s'
  | String _ _, EmptyString => false
  end.

(** [needle in s] for strings. *)
Fixpoint contains (needle s : string) : bool :=
  startswith needle s ||
  match s with
  | EmptyString => false
  | String _ s' => contains needle s'
  end.

(** Truth value of a string: empty is false. *)
Definition truthy (s : string) : bool :=
  match s with EmptyString => false | String _ _ => true end.

Definition is_digit (c : ascii) : bool :=
  let n := nat_of_ascii c in ((48 <=? n)%nat && (n <=? 57)%nat)%bool.

End PyStr.

(** ** Exceptions and results *)

(** The exception classes that the modelled code can raise.  Only
    [BadfishException] is the program's own; the others are Python's. *)
Inductive exn :=
  | BadfishException
  | IndexError
  | KeyError
  | TypeError
  | ValueError
  | AttributeError.

Global Instance exn_eq_dec : EqDecision exn.
Proof. solve_decision. Defined.

Inductive result (A : Type) :=
  | Ok (a : A)
  | Raise (e : exn).
Arguments Ok {A} a.
Arguments Raise {A} e.

(** ** Hierarchical lookup of the interfaces template *)

(** [l[-k]] for [k >= 1]: the k-th element from the end. *)
Definition index_from_end {A} (l : list A) (k : nat) : result A :=
  if (k <=? length l)%nat then
    match l !! (length l - k)%nat with
    | Some x => Ok x
    | None => Raise IndexError
    end
  else Raise IndexError.

(** [re.compile("b0[0-9]").match(s)]: the pattern is anchored at the start
    of [s] only. *)
Definition b_pattern_match (s : string) : bool :=
  match s with
  | String c0 (String c1 (String c2 _)) =>
      Ascii.eqb c0 "b"%char && Ascii.eqb c1 "0"%char && PyStr.is_digit c2
  | _ => false
  end.

(** [prefix.pop()] on a list known to be non-empty when it is called. *)
Definition pop {A} (l : list A) : list A := removelast l.

Definition interfaces_key (prefix : list string) (host_model : string) : string :=
  PyStr.join "_" prefix +:+ "_" +:+ host_model +:+ "_interfaces".

(** The body of the [for _ in range(len_prefix)] loop.  The second
    component lists the keys passed to [definitions.get], oldest first. *)
Fixpoint interfaces_loop (n : nat) (definitions : gmap string string)
    (prefix : list string) (host_model : string) (tried : list string)
  : result (list string) * list string :=
  match n with
  | O => (Raise BadfishException, tried)
  | S n' =>
      let key := interfaces_key prefix host_model in
      match definitions !! key with
      | Some interfaces_string =>
          if PyStr.truthy interfaces_string
          then (Ok (PyStr.split "," interfaces_string), tried ++ [key])
          else interfaces_loop n' definitions (pop prefix) host_model (tried ++ [key])
      | None => interfaces_loop n' definitions (pop prefix) host_model (tried ++ [key])
      end
  end.

(** [self.host.split(".")[0].split("-")]: the dash-separated components of
    the short host name. *)
Definition host_components (host : string) : list string :=
  PyStr.split "-" (List.hd EmptyString (PyStr.split "." host)).

(** [Badfish.get_interfaces_by_type], with the mapping read from the yaml
    file as an argument; its values are the comma-separated device names
    of the interfaces file. *)
Definition get_interfaces_by_type (host : string) (host_type : string)
    (definitions : gmap string string) : result (list string) * list string :=
  let host_name_split := host_components host in
  match index_from_end host_name_split 1 with
  | Raise e => (Raise e, [])
  | Ok host_model =>
  match index_from_end host_name_split 2 with
  | Raise e => (Raise e, [])
  | Ok host_blade =>
  match index_from_end host_name_split 3 with
  | Raise e => (Raise e, [])
  | Ok uloc =>
  match index_from_end host_name_split 4 with
  | Raise e => (Raise e, [])
  | Ok rack =>
      let prefix := [host_type; rack; uloc] in
      let host_model :=
        if b_pattern_match host_blade
        then host_model +:+ "_" +:+ host_blade else host_model in
      interfaces_loop (length prefix) definitions prefix host_model []
  end end end end.

(** First key of [keys] whose value is present and non-empty, with the
    keys looked up on the way. *)
Fixpoint resolve_keys (keys : list string) (definitions : gmap string string)
    (tried : list string) : result (list string) * list string :=
  match keys with
  | [] => (Raise BadfishException, tried)
  | key :: rest =>
      match definitions !! key with
      | Some v =>
          if PyStr.truthy v then (Ok (PyStr.split "," v), tried ++ [key])
          else resolve_keys rest definitions (tried ++ [key])
      | None => resolve_keys rest definitions (tried ++ [key])
      end
  end.

(** The model component of the key: the blade is appended when it matches
    the blade pattern. *)
Definition model_component (blade model : string) : string :=
  if b_pattern_match blade then model +:+ "_" +:+ blade else model.

(** The keys the loop builds: the prefix loses its last component at each
    round, the model component stays. *)
Definition fallback_keys (host_type rack uloc blade model : string) : list string :=
  let m := model_component blade model in
  [ host_type +:+ "_" +:+ rack +:+ "_" +:+ uloc +:+ "_" +:+ m +:+ "_interfaces";
    host_type +:+ "_" +:+ rack +:+ "_" +:+ m +:+ "_interfaces";
    host_type +:+ "_" +:+ m +:+ "_interfaces" ].

(** The lookup as the specification words it: four keys, the blade dropped
    first, then the unit location, then the rack; the first key present in
    the mapping gives the device list. *)
Definition spec_fallback_keys (host_type rack uloc blade model : string) : list string :=
  [ host_type +:+ "_" +:+ rack +:+ "_" +:+ uloc +:+ "_" +:+ model +:+ "_" +:+ blade +:+ "_interfaces";
    host_type +:+ "_" +:+ rack +:+ "_" +:+ uloc +:+ "_" +:+ model +:+ "_interfaces";
    host_type +:+ "_" +:+ rack +:+ "_" +:+ model +:+ "_interfaces";
    host_type +:+ "_" +:+ model +:+ "_interfaces" ].

Fixpoint spec_resolve_keys (keys : list string) (definitions : gmap string string)
    (tried : list string) : result (list string) * list string :=
  match keys with
  | [] => (Raise BadfishException, tried)
  | key :: rest =>
      match definitions !! key with
      | Some v => (Ok (PyStr.split "," v), tried ++ [key])
      | None => spec_resolve_keys rest definitions (tried ++ [key])
      end
  end.

Definition spec_get_interfaces_by_type (host_type rack uloc blade model : string)
    (definitions : gmap string string) : result (list string) * list string :=
  spec_resolve_keys (spec_fallback_keys host_type rack uloc blade model) definitions [].

(** A mapping that only has the key without the blade. *)
Definition bladeless_only : gmap string string :=
  {[ "foreman_rack1_u2_640_interfaces" := "NIC.Slot.4-1,NIC.Integrated.1-1" ]}.

(** ** Boot-order reconciliation *)

(** One entry of the controller's boot-sequence list. *)
Record BootDevice := {
  Name : string;
  Index : Z;
  Enabled : bool;
}.

Global Instance BootDevice_eq_dec : EqDecision BootDevice.
Proof. solve_decision. Defined.

(** [device["Index"] = i]: the dictionary is updated in place, the other
    entries stay. *)
Definition set_Index (device : BootDevice) (i : Z) : BootDevice :=
  {| Name := Name device; Index := i; Enabled := Enabled device |}.

(** [valid_devices = [device for device in interfaces if device in devices]]
    where [devices] are the names of the live boot devices. *)
Definition valid_devices (interfaces : list string) (boot_devices : list BootDevice)
  : list string :=
  filter (λ device, device ∈ Name <$> boot_devices) interfaces.

(** The inner loop [for device in ordered_devices], left at the first
    device of that name.  The flag tells whether an index was written. *)
Fixpoint assign_index (interface : string) (i : Z) (ordered_devices : list BootDevice)
  : list BootDevice * bool :=
  match ordered_devices with
  | [] => ([], false)
  | device :: rest =>
      if decide (interface = Name device) then
        if decide (Index device ≠ i) then (set_Index device i :: rest, true)
        else (device :: rest, false)
      else
        let '(rest', changed) := assign_index interface i rest in
        (device :: rest', changed)
  end.

(** The outer loop [for i, interface in enumerate(valid_devices)], entered
    at position [i] with the current value of [change]. *)
Fixpoint assign_indices (valid : list string) (i : Z)
    (ordered_devices : list BootDevice) (change : bool) : list BootDevice * bool :=
  match valid with
  | [] => (ordered_devices, change)
  | interface :: rest =>
      let '(ordered_devices', changed) := assign_index interface i ordered_devices in
      assign_indices rest (i + 1) ordered_devices' (change || changed)
  end.

(** The computation of [Badfish.change_boot_order] between the two network
    phases: from the template and [self.boot_devices] to the device list
    after the loop and the [change] flag.  [ordered_devices] is a shallow
    copy, so the dictionaries it updates are those of [self.boot_devices]:
    the list returned is also the new value of [self.boot_devices]. *)
Definition change_boot_order (interfaces : list string) (boot_devices : list BootDevice)
  : list BootDevice * bool :=
  assign_indices (valid_devices interfaces boot_devices) 0 boot_devices false.

(** What [change_boot_order] does with the outcome: a PATCH of the whole
    list when [change] is set, nothing otherwise. *)
Definition boot_order_patch (interfaces : list string) (boot_devices : list BootDevice)
  : option (list BootDevice) :=
  let '(ordered_devices, change) := change_boot_order interfaces boot_devices in
  if change then Some ordered_devices else None.

(** Position of the first device called [name], the one the inner loop
    stops at. *)
Fixpoint first_named (name : string) (devices : list BootDevice) : option nat :=
  match devices with
  | [] => None
  | device :: rest =>
      if decide (name = Name device) then Some O else S <$> first_named name rest
  end.

(** The device at position [p] is one the loop assigns an index to: it is
    the first device carrying some name of the template. *)
Definition reordered (interfaces : list string) (boot_devices : list BootDevice)
    (p : nat) : Prop :=
  ∃ name, name ∈ interfaces ∧ first_named name boot_devices = Some p.

Definition nic (name : string) (i : Z) : BootDevice :=
  {| Name := name; Index := i; Enabled := true |}.

(** ** Decoded JSON documents *)

(** What [json.loads] returns.  A dictionary is kept as its items; a key
    is looked up at its first item. *)
#[warnings="-register-all"]
Inductive json :=
  | JNull
  | JBool (b : bool)
  | JNum (n : Z)   (* no modelled path looks inside a number *)
  | JStr (s : string)
  | JArr (items : list json)
  | JObj (fields : list (string * json)).

Module Py.

(** Truth value of a decoded value, as [if v:] and [not v] take it. *)
Definition truthy (v : json) : bool :=
  match v with
  | JNull => false
  | JBool b => b
  | JNum n => negb (n =? 0)
  | JStr s => PyStr.truthy s
  | JArr items => match items with [] => false | _ => true end
  | JObj fields => match fields with [] => false | _ => true end
  end.

Fixpoint lookup_field (key : string) (fields : list (string * json)) : option json :=
  match fields with
  | [] => None
  | (k, v) :: rest => if decide (key = k) then Some v else lookup_field key rest
  end.

(** [v == s] for a string [s]. *)
Definition eq_str (v : json) (s : string) : bool :=
  match v with JStr s' => bool_decide (s' = s) | _ => false end.

(** [data[key]] with a string key. *)
Definition getitem (data : json) (key : string) : result json :=
  match data with
  | JObj fields =>
      match lookup_field key fields with
      | Some v => Ok v
      | None => Raise KeyError
      end
  | _ => Raise TypeError
  end.

(** [data[n]] with an integer index that is not negative. *)
Definition getitem_nat (data : json) (n : nat) : result json :=
  match data with
  | JArr items =>
      match items !! n with
      | Some v => Ok v
      | None => Raise IndexError
      end
  | JStr s =>
      match String.get n s with
      | Some c => Ok (JStr (String c EmptyString))
      | None => Raise IndexError
      end
  | JObj _ => Raise KeyError
  | _ => Raise TypeError
  end.

(** [data.get(key)]: only dictionaries have the method; a missing key
    gives [None], which is [JNull] here. *)
Definition get (data : json) (key : string) : result json :=
  match data with
  | JObj fields => Ok (default JNull (lookup_field key fields))
  | _ => Raise AttributeError
  end.

(** [key in data] for a string [key]. *)
Definition contains (key : string) (data : json) : result bool :=
  match data with
  | JObj fields => Ok (bool_decide (is_Some (lookup_field key fields)))
  | JArr items => Ok (existsb (λ v, eq_str v key) items)
  | JStr s => Ok (PyStr.contains key s)
  | _ => Raise TypeError
  end.

(** The values [for x in data] goes through. *)
Definition iter (data : json) : result (list json) :=
  match data with
  | JArr items => Ok items
  | JObj fields => Ok ((λ kv, JStr kv.1) <$> fields)
  | JStr s => Ok ((λ c, JStr (String c EmptyString)) <$> list_ascii_of_string s)
  | _ => Raise TypeError
  end.

(** [v.lower()]: a string method. *)
Definition lower (v : json) : result string :=
  match v with
  | JStr s => Ok (PyStr.lower s)
  | _ => Raise AttributeError
  end.

End Py.

(** ** The request layer *)

(** A response as the callers use it: the status and the body decoded by
    [json.loads], [None] when the body is not JSON. *)
Record Response := {
  status : Z;
  payload : option json;
}.

Inductive Request :=
  | GET (uri : string) (_continue : bool)
  | POST (uri : string) (body : json).

(** The controller side of a session and the session's history.
    [get_replies k] is the outcome of the k-th GET that reaches the
    controller, [None] when the transport raised (timeout, connection
    error); [post_replies] likewise for [post_request].  [requests] lists
    the requests sent so far, oldest first. *)
Record World := {
  get_replies : nat → option Response;
  post_replies : nat → option Response;
  gets : nat;
  posts : nat;
  requests : list Request;
}.

Definition log_get (uri : string) (_continue : bool) (w : World) : World :=
  {| get_replies := get_replies w; post_replies := post_replies w;
     gets := S (gets w); posts := posts w;
     requests := requests w ++ [GET uri _continue] |}.

Definition log_post (uri : string) (body : json) (w : World) : World :=
  {| get_replies := get_replies w; post_replies := post_replies w;
     gets := gets w; posts := S (posts w);
     requests := requests w ++ [POST uri body] |}.

(** Computations that talk to the controller and may raise. *)
Definition M (A : Type) : Type := World → result A * World.

Global Instance M_ret : MRet M := λ A a w, (Ok a, w).
Global Instance M_bind : MBind M := λ A B k m w,
  match m w with
  | (Ok a, w') => k a w'
  | (Raise e, w') => (Raise e, w')
  end.
Definition raise {A} (e : exn) : M A := λ w, (Raise e, w).
Definition lift {A} (r : result A) : M A := λ w, (r, w).

(** The body of [Badfish.get_request]: the call as it reaches the
    controller.  The method is decorated with a memo, which is
    [Memo.get_request] below; the methods written over the body in this
    part are the methods on the runs where every call reaches the
    controller, and the properties stated of them are those that do not
    rest on the answer to a repeated call. *)
Definition get_request (uri : string) (_continue : bool) : M (option Response) :=
  λ w,
    match get_replies w (gets w) with
    | Some _response => (Ok (Some _response), log_get uri _continue w)
    | None =>
        if _continue then (Ok None, log_get uri _continue w)
        else (Raise BadfishException, log_get uri _continue w)
    end.

(** [Badfish.post_request]. *)
Definition post_request (uri : string) (body : json) : M Response :=
  λ w,
    match post_replies w (posts w) with
    | Some _response => (Ok _response, log_post uri body w)
    | None => (Raise BadfishException, log_post uri body w)
    end.

(** The fields of a session that the modelled methods read. *)
Record Badfish := {
  host : string;
  retries : Z;
  system_resource : string;
  manager_resource : string;
}.

Definition host_uri (self : Badfish) : string := "https://" +:+ host self.

(** [Badfish.error_handler]: every path ends in [raise]. *)
Definition error_handler (_response : Response) : M unit :=
  match payload _response with
  | None => raise BadfishException
  | Some data =>
      has_error ← lift (Py.contains "error" data);
      if has_error : bool then
        error ← lift (Py.getitem data "error");
        info ← lift (Py.getitem error "@Message.ExtendedInfo");
        first ← lift (Py.getitem_nat info 0);
        detail_message ← lift (Py.getitem first "Message");
        raise BadfishException
      else raise BadfishException
  end.

Global Instance result_ret : MRet result := λ A a, Ok a.
Global Instance result_bind : MBind result := λ A B k r,
  match r with
  | Ok a => k a
  | Raise e => Raise e
  end.

(** [json.loads] on the body of a response. *)
Definition loads (_response : Response) : result json :=
  match payload _response with
  | Some data => Ok data
  | None => Raise ValueError
  end.

Definition system_uri (self : Badfish) : string :=
  host_uri self +:+ system_resource self.

(** ** Power state *)

(** What [Badfish.get_power_state] makes of the reply to its request. *)
Definition read_power_state (_response : option Response) : result json :=
  match _response with
  | None => Ok (JStr "Down")
  | Some _response =>
      if status _response =? 200 then
        data ← loads _response;
        power_state ← Py.get data "PowerState";
        if negb (Py.truthy power_state) then Raise BadfishException
        else Py.getitem data "PowerState"
      else Ok (JStr "Down")
  end.

(** [Badfish.get_power_state]. *)
Definition get_power_state (self : Badfish) : M json :=
  _response ← get_request (system_uri self) true;
  lift (read_power_state _response).

(** The state a poll compares: [current_state.lower()]. *)
Definition observed (_response : option Response) : result string :=
  current_state ← read_power_state _response;
  Py.lower current_state.

Definition reset_uri (self : Badfish) : string :=
  host_uri self +:+ system_resource self +:+ "/Actions/ComputerSystem.Reset".

Definition reset_payload (reset_type : string) : json :=
  JObj [("ResetType", JStr reset_type)].

(** [Badfish.send_reset]. *)
Definition send_reset (self : Badfish) (reset_type : string) : M unit :=
  _response ← post_request (reset_uri self) (reset_payload reset_type);
  let status_code := status _response in
  if (status_code =? 200) || (status_code =? 204) then mret ()
  else if status_code =? 409 then mret ()
  else error_handler _response.

(** [Badfish.set_power_state].  The value is [None] for the bare [return]. *)
Definition set_power_state (self : Badfish) (state : string) : M (option json) :=
  if negb (bool_decide (PyStr.lower state ∈ ["on"; "off"])) then raise BadfishException
  else
    _response ← get_request (system_uri self) true;
    match _response with
    | None =>
        if bool_decide (PyStr.lower state = "off") then mret None
        else raise AttributeError
    | Some _response =>
        if status _response =? 200 then
          data ← lift (loads _response);
          power_state ← lift (Py.get data "PowerState");
          if negb (Py.truthy power_state) then raise BadfishException
          else
            (if bool_decide (PyStr.lower state = "off") then send_reset self "ForceOff"
             else if bool_decide (PyStr.lower state = "on") then send_reset self "On"
             else mret ());;
            prior ← lift (Py.getitem data "PowerState");
            mret (Some prior)
        else raise BadfishException
    end.

(** The test of a poll: [desired_state] for the lowered current state,
    [==] when [equals] is set and [!=] otherwise. *)
Definition wanted (state : string) (equals : bool) (current : string) : bool :=
  if equals then bool_decide (current = PyStr.lower state)
  else negb (bool_decide (current = PyStr.lower state)).

(** The loop of [Badfish.polling_host_state] with [n] rounds left. *)
Fixpoint polling_loop (self : Badfish) (state : string) (equals : bool) (n : nat)
  : M bool :=
  match n with
  | O => mret false
  | S n' =>
      current_state ← get_power_state self;
      current ← lift (Py.lower current_state);
      let desired_state := wanted state equals current in
      if desired_state then mret true
      else polling_loop self state equals n'
  end.

(** [Badfish.polling_host_state]; [range] of a negative number is empty. *)
Definition polling_host_state (self : Badfish) (state : string) (equals : bool) : M bool :=
  polling_loop self state equals (Z.to_nat (retries self)).

(** What [Badfish.get_reset_types] makes of the reply to its request. *)
Definition read_reset_types (endpoint : string) (_response : option Response)
  : result json :=
  match _response with
  | None => Ok (JArr [])
  | Some _response =>
      data ← loads _response;
      has_actions ← Py.contains "Actions" data;
      if negb has_actions then Ok (JArr [])
      else
        actions ← Py.getitem data "Actions";
        reset ← Py.get actions endpoint;
        if Py.truthy reset
        then Py.get reset "ResetType@Redfish.AllowableValues"
        else Ok (JArr [])
  end.

(** [Badfish.get_reset_types]. *)
Definition get_reset_types (self : Badfish) (manager : bool) : M json :=
  let resource := if manager then manager_resource self else system_resource self in
  let endpoint := if manager then "#Manager.Reset" else "#ComputerSystem.Reset" in
  _response ← get_request (host_uri self +:+ resource) false;
  lift (read_reset_types endpoint _response).

(** [for rt in _reset_types: if "restart" in rt.lower(): reset_type = rt];
    the loop has no [break]. *)
Fixpoint scan_reset_types (items : list json) (reset_type : string) : result string :=
  match items with
  | [] => Ok reset_type
  | JStr rt :: rest =>
      if PyStr.contains "restart" (PyStr.lower rt) then scan_reset_types rest rt
      else scan_reset_types rest reset_type
  | _ :: _ => Raise AttributeError
  end.

(** The choice of the reset type at the head of [reboot_server] (with
    [preferred = "GracefulRestart"]) and of [reset_idrac]. *)
Definition select_reset_type (preferred : string) (_reset_types : json) : result string :=
  listed ← Py.contains preferred _reset_types;
  if negb listed then
    items ← Py.iter _reset_types;
    scan_reset_types items preferred
  else Ok preferred.

(** [Badfish.reboot_server]. *)
Definition reboot_server (self : Badfish) (graceful : bool) : M bool :=
  _reset_types ← get_reset_types self false;
  reset_type ← lift (select_reset_type "GracefulRestart" _reset_types);
  power_state ← get_power_state self;
  current ← lift (Py.lower power_state);
  if bool_decide (current = "on") then
    (if graceful then
       send_reset self reset_type;;
       host_down ← polling_host_state self "Off" true;
       if negb host_down then send_reset self "ForceOff" else mret ()
     else send_reset self "ForceOff");;
    host_not_down ← polling_host_state self "Down" false;
    (if host_not_down : bool then send_reset self "On" else mret ());;
    mret true
  else if bool_decide (current = "off") then
    send_reset self "On";;
    mret true
  else mret true.

(** ** Job status *)

Definition job_uri (self : Badfish) (_job_id : string) : string :=
  host_uri self +:+ manager_resource self +:+ "/Jobs/" +:+ _job_id.

(** ** BIOS boot mode *)

(** [Badfish.get_bios_boot_mode]. *)
Definition get_bios_boot_mode (self : Badfish) : M json :=
  _response ← get_request (host_uri self +:+ system_resource self +:+ "/Bios") false;
  match _response with
  | None => raise AttributeError
  | Some _response =>
      match payload _response with
      | None => raise BadfishException
      | Some data =>
          match (attributes ← Py.getitem data "Attributes";
                 Py.getitem attributes "BootMode") with
          | Ok bios_boot_mode => mret bios_boot_mode
          | Raise KeyError => mret (JStr "Bios")
          | Raise e => raise e
          end
      end
  end.

(** [Badfish.get_boot_seq]. *)
Definition get_boot_seq (self : Badfish) : M string :=
  bios_boot_mode ← get_bios_boot_mode self;
  if Py.eq_str bios_boot_mode "Uefi" then mret "UefiBootSeq" else mret "BootSeq".

(** The reset type carried by a request, if it is a reset. *)
Definition reset_of (request : Request) : option string :=
  match request with
  | POST _ (JObj [(key, JStr reset_type)]) =>
      if decide (key = "ResetType") then Some reset_type else None
  | _ => None
  end.

(** The reset types that a run has posted, oldest first. *)
Definition resets_sent (w : World) : list string := omap reset_of (requests w).

(** The member [BootMode] of the member [Attributes] of a document, when
    the document has one. *)
Definition boot_mode_field (data : json) : option json :=
  match data with
  | JObj fields =>
      match Py.lookup_field "Attributes" fields with
      | Some (JObj attributes) => Py.lookup_field "BootMode" attributes
      | _ => None
      end
  | _ => None
  end.

(** A BIOS document without the boot-mode attribute: an object whose
    [Attributes] member is missing, or is an object without [BootMode]. *)
Definition lacks_boot_mode (data : json) : Prop :=
  ∃ fields, data = JObj fields ∧
    (Py.lookup_field "Attributes" fields = None ∨
     ∃ attributes, Py.lookup_field "Attributes" fields = Some (JObj attributes) ∧
                   Py.lookup_field "BootMode" attributes = None).

(** The world after [n] further tolerant requests of [uri]. *)
Definition polled (uri : string) (n : nat) (w : World) : World :=
  Nat.iter n (log_get uri true) w.

(** Replies as [get_job_status] sorts them. *)
Definition job_scheduled (reply : option Response) : Prop :=
  ∃ r fields, reply = Some r ∧ status r = 200 ∧ payload r = Some (JObj fields) ∧
    Py.lookup_field "Message" fields = Some (JStr "Task successfully scheduled.").

Definition job_pending (reply : option Response) : Prop :=
  reply = None ∨
  ∃ r fields message, reply = Some r ∧ status r = 200 ∧
    payload r = Some (JObj fields) ∧
    Py.lookup_field "Message" fields = Some message ∧
    message ≠ JStr "Task successfully scheduled.".

Definition job_rejected (reply : option Response) : Prop :=
  ∃ r, reply = Some r ∧ status r ≠ 200.

(** A reply to a reset that [send_reset] takes without raising. *)
Definition accepted (reply : option Response) : Prop :=
  ∃ r, reply = Some r ∧ (status r = 200 ∨ status r = 204 ∨ status r = 409).

(** The test of the loop over the advertised reset types. *)
Definition is_restart (rt : string) : bool :=
  PyStr.contains "restart" (PyStr.lower rt).

(** The choice as the specification words it: the preferred type when it
    is advertised, else the first advertised type that names a restart. *)
Definition spec_select_reset_type (preferred : string) (types : list string) : string :=
  if bool_decide (preferred ∈ types) then preferred
  else default preferred (head (filter is_restart types)).

(** A computation only adds to the resets posted so far. *)
Definition grows {A} (m : M A) : Prop :=
  ∀ w, ∃ rest, resets_sent (m w).2 = resets_sent w ++ rest.

(** ** The orchestrator *)

(** [execute_badfish] around the body of its [try] block ([session]: the
    factory, the selected action, the PXE step): a BadfishException is
    turned into the outcome [False], any other exception leaves the
    coroutine. *)
Definition execute_badfish (session : M unit) (_host : string) : M (string * bool) :=
  λ w,
    match session w with
    | (Ok _, w') => (Ok (_host, true), w')
    | (Raise BadfishException, w') => (Ok (_host, false), w')
    | (Raise e, w') => (Raise e, w')
    end.

(** The actions of the [elif] chain of [execute_badfish] whose methods are
    modelled above. *)
Inductive Action :=
  | power_state
  | power_on
  | power_off
  | power_cycle
  | reboot_only.

Definition run_action (badfish : Badfish) (action : Action) : M unit :=
  match action with
  | power_state => get_power_state badfish;; mret ()
  | power_on => set_power_state badfish "on";; mret ()
  | power_off => set_power_state badfish "off";; mret ()
  | power_cycle => reboot_server badfish false;; mret ()
  | reboot_only => reboot_server badfish true;; mret ()
  end.

(** One entry of the host list: the address, what the session runs, and
    the controller behind the address. *)
Record Task := {
  task_host : string;
  task_session : M unit;
  task_world : World;
}.

(** An element of the list that [asyncio.gather(..., return_exceptions=True)]
    returns: the tuple returned by the coroutine, or the exception it
    raised. *)
Inductive Entry :=
  | Returned (_host : string) (success : bool)
  | Exception (e : exn).

Definition task_entry (t : Task) : Entry :=
  match (execute_badfish (task_session t) (task_host t) (task_world t)).1 with
  | Ok (_host, success) => Returned _host success
  | Raise e => Exception e
  end.

(** [gather] keeps one slot per awaitable, in the order given; a coroutine
    that finishes fills its own slot. *)
Definition finish (tasks : list Task) (slots : list (option Entry)) (i : nat)
  : list (option Entry) :=
  match tasks !! i with
  | Some t => <[i := Some (task_entry t)]> slots
  | None => slots
  end.

(** The slots after the coroutines have finished in the order [finished]. *)
Definition gather (tasks : list Task) (finished : list nat) : list (option Entry) :=
  foldl (finish tasks) (replicate (length tasks) None) finished.

(** The loop of [main] over [results]: [len(res)] raises on an exception
    object. *)
Fixpoint report (results : list Entry) (all_ok : bool) : result bool :=
  match results with
  | [] => Ok all_ok
  | Returned _ ok :: rest => if ok then report rest all_ok else report rest false
  | Exception _ :: _ => Raise TypeError
  end.

(** How the body of the [try] block of a task ends. *)
Definition session_outcome (t : Task) : result unit :=
  (task_session t (task_world t)).1.

(** ** Concurrency permits *)

Module Pool.

(** The part of a session that the permits concern: the value of
    [self.semaphore] and the number of requests inside
    [async with self.semaphore]. *)
Record Session := {
  semaphore : nat;
  in_flight : nat;
}.

(** [Badfish.__init__]: [self.semaphore = asyncio.Semaphore(50)]. *)
Definition init : Session := {| semaphore := 50; in_flight := 0 |}.

(** [main] starts one coroutine per host and each of them builds its own
    [Badfish] object. *)
Definition start (hosts : nat) : list Session := replicate hosts init.

Definition enter (s : Session) : Session :=
  {| semaphore := semaphore s - 1; in_flight := S (in_flight s) |}.

Definition leave (s : Session) : Session :=
  {| semaphore := S (semaphore s); in_flight := in_flight s - 1 |}.

(** One step of the event loop: some session enters its semaphore, which
    needs a permit of that session, or leaves it. *)
Inductive step : list Session → list Session → Prop :=
  | step_enter run i s :
      run !! i = Some s → (0 < semaphore s)%nat →
      step run (<[i := enter s]> run)
  | step_leave run i s :
      run !! i = Some s → (0 < in_flight s)%nat →
      step run (<[i := leave s]> run).

Definition reachable (hosts : nat) (run : list Session) : Prop :=
  rtc step (start hosts) run.

(** Requests in flight across the whole run. *)
Definition total_in_flight (run : list Session) : nat :=
  sum_list (in_flight <$> run).

(** A session with one request in flight. *)
Definition busy : Session := enter init.

(** The permits left and the requests in flight make up the pool. *)
Definition balanced (s : Session) : Prop := (semaphore s + in_flight s = 50)%nat.

End Pool.

(** ** Sample sessions and controllers *)

(** A controller that answers the calls in the order of the scripts and
    times out afterwards. *)
Definition scripted (get_script post_script : list (option Response)) : World :=
  {| get_replies k := default None (get_script !! k);
     post_replies k := default None (post_script !! k);
     gets := O; posts := O; requests := [] |}.

Definition reply (code : Z) (data : json) : option Response :=
  Some {| status := code; payload := Some data |}.

Definition no_content : option Response :=
  Some {| status := 204; payload := None |}.

Definition timeout : option Response := None.

Definition r640 : Badfish :=
  {| host := "rack1-u2-b03-640.example.com";
     retries := 3;
     system_resource := "/redfish/v1/Systems/System.Embedded.1";
     manager_resource := "/redfish/v1/Managers/iDRAC.Embedded.1" |}.

Definition power (state : string) : option Response :=
  reply 200 (JObj [("Id", JStr "System.Embedded.1"); ("PowerState", JStr state)]).

Definition bios_without_boot_mode : World :=
  scripted
    [reply 200 (JObj [("Attributes", JObj [("SysProfile", JStr "PerfOptimized")])])] [].

Definition bios_null_attributes : World :=
  scripted [reply 200 (JObj [("Attributes", JNull)])] [].

Definition job_message (message : string) : option Response :=
  reply 200 (JObj [("Id", JStr "JID_471269252011"); ("Message", JStr message)]).

Definition not_found : option Response :=
  Some {| status := 404; payload := None |}.

Definition system_document (state : string) (reset_types : list string)
  : option Response :=
  reply 200 (JObj
    [ ("Id", JStr "System.Embedded.1");
      ("PowerState", JStr state);
      ("Actions", JObj
         [ ("#ComputerSystem.Reset", JObj
              [ ("target", JStr "/redfish/v1/Systems/System.Embedded.1/Actions/ComputerSystem.Reset");
                ("ResetType@Redfish.AllowableValues", JArr (JStr <$> reset_types)) ]) ]) ]).

Definition two_restarts : list string :=
  ["On"; "ForceOff"; "ForceRestart"; "PowerCycleRestart"; "Nmi"].

Definition graceful_types : list string :=
  ["On"; "ForceOff"; "ForceRestart"; "GracefulRestart"; "GracefulShutdown"; "Nmi"].

(** Two restart types advertised, none of them GracefulRestart; the host
    is reported On at every read. *)
Definition reboot_two_restarts : World :=
  scripted
    [ system_document "On" two_restarts; power "On";
      power "On"; power "On"; power "On"; power "On" ]
    [ no_content; no_content; no_content ].

(** The body of the [try] block for [--power-on] once the factory has
    returned the session object. *)
Definition power_on_session (self : Badfish) : M unit :=
  run_action self power_on.

Definition session_of (name : string) : Badfish :=
  {| host := name; retries := 3;
     system_resource := "/redfish/v1/Systems/System.Embedded.1";
     manager_resource := "/redfish/v1/Managers/iDRAC.Embedded.1" |}.

(** Three hosts to power on; the controller of the second one does not
    answer the request for the system resource. *)
Definition three_hosts : list Task :=
  [ {| task_host := "rack1-u1-b01-640";
       task_session := power_on_session (session_of "rack1-u1-b01-640");
       task_world := scripted [power "Off"] [no_content] |};
    {| task_host := "rack1-u2-b02-640";
       task_session := power_on_session (session_of "rack1-u2-b02-640");
       task_world := scripted [timeout] [no_content] |};
    {| task_host := "rack1-u3-b03-640";
       task_session := power_on_session (session_of "rack1-u3-b03-640");
       task_world := scripted [power "Off"] [no_content] |} ].

(** The same hosts; the second controller rejects the reset, which the
    session reports as a BadfishException. *)
Definition three_hosts_rejected : list Task :=
  [ {| task_host := "rack1-u1-b01-640";
       task_session := power_on_session (session_of "rack1-u1-b01-640");
       task_world := scripted [power "Off"] [no_content] |};
    {| task_host := "rack1-u2-b02-640";
       task_session := power_on_session (session_of "rack1-u2-b02-640");
       task_world := scripted [power "Off"] [timeout] |};
    {| task_host := "rack1-u3-b03-640";
       task_session := power_on_session (session_of "rack1-u3-b03-640");
       task_world := scripted [power "Off"] [no_content] |} ].

(** Sample device lists. *)
Definition three_devices : list BootDevice :=
  [ nic "NIC.Integrated.1-1-1" 0; nic "NIC.Slot.4-1-1" 1; nic "HardDisk.List.1-1" 2 ].

Definition repeated_template : list string :=
  ["NIC.Slot.4-1-1"; "NIC.Slot.4-1-1"].

Definition swapped_devices : list BootDevice :=
  [ nic "NIC.Slot.4-1-1" 1; nic "NIC.Integrated.1-1-1" 0; nic "HardDisk.List.1-1" 2 ].

(** ** Host types and the check of the boot order *)

(** The host type of a key of the interfaces file: [line.split("_")[0]]. *)
Definition key_host_type (line : string) : string :=
  List.hd EmptyString (PyStr.split "_" line).

(** [Badfish.get_host_types_from_yaml], with the mapping read from the yaml
    file as an argument: the set of the host types of the keys, sorted. *)
Definition get_host_types_from_yaml (definitions : gmap string string) : list string :=
  let host_types : gset string :=
    list_to_set (key_host_type <$> (map_to_list definitions).*1) in
  merge_sort String.le (elements host_types).

(** [l[i]] for a Python integer [i]: a negative index counts from the
    end. *)
Definition py_index {A} (l : list A) (i : Z) : result A :=
  let n := Z.of_nat (length l) in
  if (0 <=? i) && (i <? n) then
    match l !! Z.to_nat i with Some x => Ok x | None => Raise IndexError end
  else if (- n <=? i) && (i <? 0) then
    match l !! Z.to_nat (n + i) with Some x => Ok x | None => Raise IndexError end
  else Raise IndexError.

(** [sorted(devices, key=lambda x: x["Index"])]: the sort is stable, a
    device stays in front of the later devices of the same index. *)
Fixpoint insert_by_index (device : BootDevice) (sorted : list BootDevice)
  : list BootDevice :=
  match sorted with
  | [] => [device]
  | other :: rest =>
      if Index other <? Index device then other :: insert_by_index device rest
      else device :: other :: rest
  end.

Definition sorted_by_index (devices : list BootDevice) : list BootDevice :=
  foldr insert_by_index [] devices.

(** A device carries the name that the template has at the device's
    index. *)
Definition in_place (interfaces : list string) (d : BootDevice) : Prop :=
  py_index interfaces (Index d) = Ok (Name d).

(** The inner loop of [Badfish.get_host_type] over the sorted devices:
    [match] stays true as long as every device is called as the template
    says at its index. *)
Fixpoint match_loop (interfaces : list string) (devices : list BootDevice)
  : result bool :=
  match devices with
  | [] => Ok true
  | device :: rest =>
      match py_index interfaces (Index device) with
      | Raise e => Raise e
      | Ok name =>
          if decide (Name device = name) then match_loop interfaces rest
          else Ok false
      end
  end.

(** The check of one host type: the first [len(interfaces)] boot devices,
    sorted by index. *)
Definition boot_order_matches (interfaces : list string)
    (boot_devices : list BootDevice) : result bool :=
  match_loop interfaces (sorted_by_index (take (length interfaces) boot_devices)).

(** The loop of [Badfish.get_host_type] over the host types. *)
Fixpoint host_type_loop (host : string) (definitions : gmap string string)
    (boot_devices : list BootDevice) (host_types : list string)
  : result (option string) :=
  match host_types with
  | [] => Ok None
  | host_type :: rest =>
      match (get_interfaces_by_type host host_type definitions).1 with
      | Raise e => Raise e
      | Ok interfaces =>
          match boot_order_matches interfaces boot_devices with
          | Raise e => Raise e
          | Ok true => Ok (Some host_type)
          | Ok false => host_type_loop host definitions boot_devices rest
          end
      end
  end.

(** [Badfish.get_host_type] once [self.boot_devices] is loaded, for a
    given interfaces file. *)
Definition get_host_type (host : string) (definitions : gmap string string)
    (boot_devices : list BootDevice) : result (option string) :=
  host_type_loop host definitions boot_devices (get_host_types_from_yaml definitions).

(** [Badfish.get_host_type_boot_device], for a given interfaces file:
    [interfaces[0]]. *)
Definition get_host_type_boot_device (host host_type : string)
    (definitions : gmap string string) : result string :=
  match (get_interfaces_by_type host host_type definitions).1 with
  | Raise e => Raise e
  | Ok interfaces => py_index interfaces 0
  end.

(** An interfaces file with two host types for the model 640. *)
Definition two_types : gmap string string :=
  {[ "foreman_rack1_640_b03_interfaces" := "NIC.Integrated.1-1-1,NIC.Slot.4-1-1";
     "director_640_b03_interfaces" := "NIC.Slot.4-1-1,NIC.Integrated.1-1-1" ]}.

(** ** Resets of the controller and of the BIOS, discovery *)

Definition manager_reset_uri (self : Badfish) : string :=
  host_uri self +:+ manager_resource self +:+ "/Actions/Manager.Reset/".

(** [Badfish.reset_idrac]. *)
Definition reset_idrac (self : Badfish) : M bool :=
  _reset_types ← get_reset_types self true;
  reset_type ← lift (select_reset_type "ForceRestart" _reset_types);
  _response ← post_request (manager_reset_uri self) (reset_payload reset_type);
  if status _response =? 204 then mret true
  else raise BadfishException.

Definition bios_reset_uri (self : Badfish) : string :=
  host_uri self +:+ system_resource self +:+ "/Bios/Actions/Bios.ResetBios/".

(** [Badfish.reset_bios]; the payload is the empty dictionary. *)
Definition reset_bios (self : Badfish) : M bool :=
  _response ← post_request (bios_reset_uri self) (JObj []);
  let status_code := status _response in
  if (status_code =? 200) || (status_code =? 204) then mret true
  else raise BadfishException.

(** [self.root_uri]. *)
Definition root_uri (self : Badfish) : string := host_uri self +:+ "/redfish/v1".

(** [Badfish.validate_credentials]. *)
Definition validate_credentials (self : Badfish) : M unit :=
  response ← get_request (root_uri self +:+ "/Systems") false;
  match response with
  | None => raise AttributeError
  | Some response =>
      if status response =? 401 then raise BadfishException
      else if negb ((status response =? 200) || (status response =? 201))
      then raise BadfishException
      else mret ()
  end.

(** [prefix + v] for a string [prefix]: only a string can be added. *)
Definition str_add (prefix : string) (v : json) : result string :=
  match v with
  | JStr s => Ok (prefix +:+ s)
  | _ => Raise TypeError
  end.

(** [for member in data["Members"]: return member["@odata.id"]]; the value
    is [None] when the loop has nothing to go through. *)
Definition first_member_id (data : json) : result json :=
  members ← Py.getitem data "Members";
  items ← Py.iter members;
  match items with
  | member :: _ => Py.getitem member "@odata.id"
  | [] => Ok JNull
  end.

(** The [try] block of [find_systems_resource] that reads the message and
    the resolution of an error document; it catches IndexError, TypeError
    and AttributeError. *)
Definition read_error_info (data : json) : result unit :=
  let field (name : string) : result json :=
    error ← Py.get data "error";
    info ← Py.get error "@Message.ExtendedInfo";
    first ← Py.getitem_nat info 0;
    Py.get first name in
  match (msg ← field "Message"; resolution ← field "Resolution"; Ok ()) with
  | Ok _ => Ok ()
  | Raise IndexError | Raise TypeError | Raise AttributeError => Ok ()
  | Raise e => Raise e
  end.

(** [Badfish.find_systems_resource]. *)
Definition find_systems_resource (self : Badfish) : M json :=
  response ← get_request (root_uri self) false;
  match response with
  | None => raise BadfishException
  | Some response =>
      if status response =? 401 then raise BadfishException
      else
        data ← lift (loads response);
        has_systems ← lift (Py.contains "Systems" data);
        if negb has_systems then raise BadfishException
        else
          link ← lift (Py.getitem data "Systems");
          systems ← lift (Py.getitem link "@odata.id");
          uri ← lift (str_add (host_uri self) systems);
          _response ← get_request uri false;
          match _response with
          | None => raise AttributeError
          | Some _response =>
              if status _response =? 401 then raise BadfishException
              else
                data ← lift (loads _response);
                members ← lift (Py.get data "Members");
                if Py.truthy members then lift (first_member_id data)
                else
                  lift (read_error_info data);;
                  raise BadfishException
          end
  end.

(** [Badfish.find_managers_resource]; the value is [None] where the method
    ends without [return]. *)
Definition find_managers_resource (self : Badfish) : M json :=
  response ← get_request (root_uri self) false;
  match response with
  | None => mret JNull
  | Some response =>
      data ← lift (loads response);
      has_managers ← lift (Py.contains "Managers" data);
      if negb has_managers then raise BadfishException
      else
        link ← lift (Py.getitem data "Managers");
        managers ← lift (Py.getitem link "@odata.id");
        uri ← lift (str_add (host_uri self) managers);
        response ← get_request uri false;
        match response with
        | None => mret JNull
        | Some response =>
            data ← lift (loads response);
            members ← lift (Py.get data "Members");
            if Py.truthy members then lift (first_member_id data)
            else raise BadfishException
        end
  end.

(** The service root and a collection, as a controller sends them. *)
Definition service_root : option Response :=
  reply 200 (JObj
    [ ("Systems", JObj [("@odata.id", JStr "/redfish/v1/Systems")]);
      ("Managers", JObj [("@odata.id", JStr "/redfish/v1/Managers")]) ]).

Definition collection (members : list string) : option Response :=
  reply 200 (JObj
    [ ("Members", JArr ((λ m, JObj [("@odata.id", JStr m)]) <$> members));
      ("Members@odata.count", JNum (Z.of_nat (length members))) ]).

(** The controller stops answering after the reset types were read. *)
Definition reboot_unreachable : World :=
  scripted [ system_document "On" graceful_types; timeout ] [].

(** The host is off when the reboot starts. *)
Definition reboot_from_off : World :=
  scripted [ system_document "Off" graceful_types; power "Off" ] [ no_content ].

(** A forced reboot of a host that is on. *)
Definition reboot_not_graceful : World :=
  scripted
    [ system_document "On" graceful_types; power "On"; power "Off" ]
    [ no_content; no_content ].

(** A reply whose Actions member has a non-empty entry for [endpoint]
    that does not list the allowable reset types. *)
Definition reset_without_values (endpoint : string) (reply : option Response) : Prop :=
  ∃ r fields actions reset,
    reply = Some r ∧ payload r = Some (JObj fields) ∧
    Py.lookup_field "Actions" fields = Some (JObj actions) ∧
    Py.lookup_field endpoint actions = Some (JObj reset) ∧
    reset ≠ [] ∧
    Py.lookup_field "ResetType@Redfish.AllowableValues" reset = None.

(** A resource whose reset action only names its target. *)
Definition target_only (endpoint target : string) : option Response :=
  reply 200 (JObj
    [ ("Id", JStr "iDRAC.Embedded.1");
      ("Actions", JObj [ (endpoint, JObj [ ("target", JStr target) ]) ]) ]).

(** The manager resource with the reset types it advertises. *)
Definition manager_document (reset_types : list string) : option Response :=
  reply 200 (JObj
    [ ("Id", JStr "iDRAC.Embedded.1");
      ("Actions", JObj
         [ ("#Manager.Reset", JObj
              [ ("target", JStr "/redfish/v1/Managers/iDRAC.Embedded.1/Actions/Manager.Reset");
                ("ResetType@Redfish.AllowableValues", JArr (JStr <$> reset_types)) ]) ]) ]).

(** A collection without members that carries an error document. *)
Definition empty_collection (info : json) : option Response :=
  reply 200 (JObj
    [ ("Members", JArr []);
      ("error", JObj [ ("@Message.ExtendedInfo", info) ]) ]).

(** The Bios resource of a host in the boot mode [mode]. *)
Definition bios_in_mode (mode : string) : World :=
  scripted
    [reply 200 (JObj [("Attributes", JObj [("BootMode", JStr mode);
                                           ("SysProfile", JStr "PerfOptimized")])])] [].

(** ** The job queue *)

(** [s.strip(c)] for a set of one character. *)
Fixpoint lstrip (c : ascii) (s : string) : string :=
  match s with
  | EmptyString => EmptyString
  | String a s' => if Ascii.eqb a c then lstrip c s' else s
  end.

Fixpoint rstrip (c : ascii) (s : string) : string :=
  match s with
  | EmptyString => EmptyString
  | String a s' =>
      match rstrip c s' with
      | EmptyString => if Ascii.eqb a c then EmptyString else String a EmptyString
      | rest => String a rest
      end
  end.

Definition strip (c : ascii) (s : string) : string := rstrip c (lstrip c s).

(** The pattern [[JR]ID_.+?\d+] of [get_job_queue], on text whose
    characters are below U+0100: [.] is any character but the newline and
    [\d] is one of 0 to 9. *)
Module PyRe.

Definition is_newline (c : ascii) : bool := Ascii.eqb c "010".

(** [\d+] and what follows it: the longest run of digits in front. *)
Fixpoint digits (s : string) : string * string :=
  match s with
  | EmptyString => (EmptyString, EmptyString)
  | String c s' =>
      if PyStr.is_digit c then
        let '(run, rest) := digits s' in (String c run, rest)
      else (EmptyString, s)
  end.

(** The rest of [.+?] after its first character, then [\d+]: the lazy
    part stops in front of the first digit and cannot pass a newline. *)
Fixpoint lazy_digits (s : string) : option (string * string) :=
  match s with
  | EmptyString => None
  | String c s' =>
      if PyStr.is_digit c then Some (digits s)
      else if is_newline c then None
      else match lazy_digits s' with
           | Some (found, rest) => Some (String c found, rest)
           | None => None
           end
  end.

(** A match that starts at the first character of [s]: the text matched
    and the text behind it. *)
Definition match_here (s : string) : option (string * string) :=
  match s with
  | String c0 (String i (String d (String u (String c1 s')))) =>
      if (Ascii.eqb c0 "J" || Ascii.eqb c0 "R") &&
         Ascii.eqb i "I" && Ascii.eqb d "D" && Ascii.eqb u "_" &&
         negb (is_newline c1) then
        match lazy_digits s' with
        | Some (found, rest) =>
            Some (String c0 (String i (String d (String u (String c1 found)))), rest)
        | None => None
        end
      else None
  | _ => None
  end.

(** [re.findall]: the matches from left to right, each search starting
    where the match before it ended.  [n] bounds the positions tried. *)
Fixpoint findall_from (n : nat) (s : string) : list string :=
  match n with
  | O => []
  | S n' =>
      match s with
      | EmptyString => []
      | String _ s' =>
          match match_here s with
          | Some (found, rest) => found :: findall_from n' rest
          | None => findall_from n' s'
          end
      end
  end.

Definition findall (data : string) : list string :=
  findall_from (String.length data) data.

End PyRe.

(** The list that [get_job_queue] makes of the body of the reply. *)
Definition job_ids (data : string) : list string :=
  (λ job, strip "'" (strip "034" (strip "}" job))) <$> PyRe.findall data.

Definition jobs_uri (self : Badfish) : string :=
  host_uri self +:+ manager_resource self +:+ "/Jobs".

(** [Badfish.get_job_queue]; [text] gives the body of a reply as
    [_response.text("utf-8", "ignore")] does. *)
Definition get_job_queue (text : Response → string) (self : Badfish) : M (list string) :=
  _response ← get_request (jobs_uri self) false;
  match _response with
  | None => raise AttributeError
  | Some _response => mret (job_ids (text _response))
  end.

(** [Badfish.check_supported_idrac_version]. *)
Definition check_supported_idrac_version (self : Badfish) : M bool :=
  _response ← get_request
    (root_uri self +:+ "/Dell/Managers/iDRAC.Embedded.1/DellJobService/") false;
  match _response with
  | None => raise AttributeError
  | Some _response =>
      if negb (status _response =? 200) then mret false else mret true
  end.

Definition delete_job_queue_uri (self : Badfish) : string :=
  root_uri self +:+
  "/Dell/Managers/iDRAC.Embedded.1/DellJobService/Actions/DellJobService.DeleteJobQueue".

(** [Badfish.delete_job_queue_dell]. *)
Definition delete_job_queue_dell (self : Badfish) (force : bool) : M unit :=
  let job_id := if force then "JID_CLEARALL" +:+ "_FORCE" else "JID_CLEARALL" in
  response ← post_request (delete_job_queue_uri self) (JObj [("JobID", JStr job_id)]);
  if status response =? 200 then mret ()
  else
    data ← lift (loads response);
    error ← lift (Py.get data "error");
    (if Py.truthy error then
       error ← lift (Py.getitem data "error");
       info ← lift (Py.get error "@Message.ExtendedInfo");
       if Py.truthy info then
         error ← lift (Py.getitem data "error");
         lift (Py.get error "@Message.ExtendedInfo");;
         mret ()
       else mret ()
     else mret ());;
    raise BadfishException.

(** [Badfish.create_job]; [expected] is [None] when the caller leaves it
    out. *)
Definition create_job (_url : string) (_payload : json) (expected : option (list Z))
  : M unit :=
  let expected :=
    match expected with
    | Some (code :: codes) => code :: codes
    | _ => [200; 204]
    end in
  _response ← post_request _url _payload;
  let status_code := status _response in
  if bool_decide (status_code ∈ expected) then mret ()
  else error_handler _response.

(** [Badfish.create_bios_config_job]: it has no [return], so its value is
    [None]. *)
Definition create_bios_config_job (self : Badfish) (uri : string) : M unit :=
  create_job (jobs_uri self)
    (JObj [("TargetSettingsURI", JStr ("/redfish/v1" +:+ uri))]) None.

(** ** PATCH and DELETE *)

(** The session with the two other verbs: [world] is the GET and POST
    side; [patch_replies k] and [delete_replies k] are the outcomes of the
    k-th call of [patch_request] and of [delete_request], [None] when the
    transport raised; [patched] and [deleted] list the calls made. *)
Record Wire := {
  world : World;
  patch_replies : nat → option Response;
  delete_replies : nat → option Response;
  patched : list (string * json * bool);
  deleted : list string;
}.

Definition set_world (w : World) (s : Wire) : Wire :=
  {| world := w; patch_replies := patch_replies s; delete_replies := delete_replies s;
     patched := patched s; deleted := deleted s |}.

Definition log_patch (uri : string) (body : json) (_continue : bool) (s : Wire) : Wire :=
  {| world := world s; patch_replies := patch_replies s;
     delete_replies := delete_replies s;
     patched := patched s ++ [(uri, body, _continue)]; deleted := deleted s |}.

Definition log_delete (uri : string) (s : Wire) : Wire :=
  {| world := world s; patch_replies := patch_replies s;
     delete_replies := delete_replies s;
     patched := patched s; deleted := deleted s ++ [uri] |}.

Definition W (A : Type) : Type := Wire → result A * Wire.

Global Instance W_ret : MRet W := λ A a s, (Ok a, s).
Global Instance W_bind : MBind W := λ A B k m s,
  match m s with
  | (Ok a, s') => k a s'
  | (Raise e, s') => (Raise e, s')
  end.

(** A method of the GET and POST side run inside the wider session. *)
Definition via_world {A} (m : M A) : W A :=
  λ s, let '(r, w') := m (world s) in (r, set_world w' s).

Definition W_raise {A} (e : exn) : W A := λ s, (Raise e, s).

(** [Badfish.patch_request]. *)
Definition patch_request (uri : string) (body : json) (_continue : bool)
  : W (option Response) :=
  λ s,
    match patch_replies s (length (patched s)) with
    | Some _response => (Ok (Some _response), log_patch uri body _continue s)
    | None =>
        if _continue then (Ok None, log_patch uri body _continue s)
        else (Raise BadfishException, log_patch uri body _continue s)
    end.

(** [Badfish.delete_request]. *)
Definition delete_request (uri : string) : W Response :=
  λ s,
    match delete_replies s (length (deleted s)) with
    | Some _response => (Ok _response, log_delete uri s)
    | None => (Raise BadfishException, log_delete uri s)
    end.

Definition boot_sources_settings_uri (self : Badfish) : string :=
  host_uri self +:+ (system_resource self +:+ "/BootSources/Settings").

Definition boot_seq_payload (_boot_seq : string) (ordered_devices : json) : json :=
  JObj [("Attributes", JObj [(_boot_seq, ordered_devices)])].

(** The loop of [Badfish.patch_boot_seq] with [n] rounds left. *)
Fixpoint patch_loop (url : string) (body : json) (n : nat)
    (response : option Response) (_status_code : Z) : W (option Response * Z) :=
  match n with
  | O => mret (response, _status_code)
  | S n' =>
      if negb (_status_code =? 200) then
        response ← patch_request url body true;
        match response with
        | Some _response => patch_loop url body n' (Some _response) (status _response)
        | None => patch_loop url body n' None _status_code
        end
      else mret (response, _status_code)
  end.

(** [Badfish.patch_boot_seq]. *)
Definition patch_boot_seq (self : Badfish) (ordered_devices : json) : W unit :=
  _boot_seq ← via_world (get_boot_seq self);
  let url := boot_sources_settings_uri self in
  let body := boot_seq_payload _boot_seq ordered_devices in
  last ← patch_loop url body (Z.to_nat (retries self)) None 400;
  if last.2 =? 200 then mret ()
  else
    match last.1 with
    | Some response => via_world (error_handler response)
    | None => mret ()
    end.

(** [Badfish.delete_job_queue_force]: the handler only logs and raises
    again. *)
Definition delete_job_queue_force (self : Badfish) : W Response :=
  delete_request (jobs_uri self +:+ "/JID_CLEARALL_FORCE").

(** The loop of [Badfish.clear_job_list]. *)
Fixpoint clear_job_loop (_url : string) (_job_queue : list string) (failed : bool)
  : W bool :=
  match _job_queue with
  | [] => mret failed
  | _job :: rest =>
      let job := strip "'" _job in
      let url := PyStr.join "/" [_url; job] in
      response ← delete_request url;
      if negb (status response =? 200) then clear_job_loop _url rest true
      else clear_job_loop _url rest failed
  end.

(** [Badfish.clear_job_list]. *)
Definition clear_job_list (self : Badfish) (_job_queue : list string) : W unit :=
  failed ← clear_job_loop (jobs_uri self) _job_queue false;
  if negb failed then mret () else W_raise BadfishException.

(** [Badfish.clear_job_queue]. *)
Definition clear_job_queue (text : Response → string) (self : Badfish) (force : bool)
  : W unit :=
  _job_queue ← via_world (get_job_queue text self);
  if match _job_queue with [] => false | _ => true end || force then
    supported ← via_world (check_supported_idrac_version self);
    if supported : bool then via_world (delete_job_queue_dell self force)
    else
      λ s,
        match (_response ← delete_job_queue_force self;
               if status _response =? 400 then clear_job_list self _job_queue
               else mret ()) s with
        | (Raise BadfishException, s') => clear_job_list self _job_queue s'
        | outcome => outcome
        end
  else mret ().

(** [s[n:]] for a string. *)
Fixpoint string_from (n : nat) (s : string) : string :=
  match n, s with
  | S n', String _ s' => string_from n' s'
  | _, _ => s
  end.

(** [self.bios_uri] as [init] sets it. *)
Definition bios_uri (self : Badfish) : string :=
  string_from (String.length "/redfish/v1") (system_resource self) +:+ "/Bios/Settings".

Definition one_time_boot_payload (device : string) : json :=
  JObj [("Attributes", JObj [("OneTimeBootMode", JStr "OneTimeBootSeq");
                             ("OneTimeBootSeqDev", JStr device)])].

(** The loop of [Badfish.send_one_time_boot] over the values of [i] still
    to come. *)
Fixpoint one_time_boot_loop (text : Response → string) (self : Badfish)
    (_url : string) (_payload : json) (rounds : list Z) (_first_reset : bool) : W unit :=
  match rounds with
  | [] => mret ()
  | i :: rounds' =>
      _response ← patch_request _url _payload false;
      match _response with
      | None => W_raise AttributeError
      | Some _response =>
          let status_code := status _response in
          if status_code =? 200 then mret ()
          else if (status_code =? 503) && negb (i - 1 =? retries self) then
            one_time_boot_loop text self _url _payload rounds' _first_reset
          else if status_code =? 400 then
            clear_job_queue text self false;;
            (if negb _first_reset then
               via_world (reset_idrac self);;
               via_world (polling_host_state self "On" true);;
               mret ()
             else mret ());;
            one_time_boot_loop text self _url _payload rounds' true
          else
            via_world (error_handler _response);;
            one_time_boot_loop text self _url _payload rounds' _first_reset
      end
  end.

(** [range(n)]. *)
Definition range (n : Z) : list Z := Z.of_nat <$> seq 0 (Z.to_nat n).

(** [Badfish.send_one_time_boot]. *)
Definition send_one_time_boot (text : Response → string) (self : Badfish)
    (device : string) : W unit :=
  one_time_boot_loop text self (root_uri self +:+ bios_uri self)
    (one_time_boot_payload device) (range (retries self)) false.

(** [Badfish.set_next_boot_pxe]. *)
Definition set_next_boot_pxe (self : Badfish) : W unit :=
  _response ← patch_request (system_uri self)
    (JObj [("Boot", JObj [("BootSourceOverrideTarget", JStr "Pxe");
                          ("BootSourceOverrideEnabled", JStr "Once")])]) false;
  match _response with
  | None => W_raise AttributeError
  | Some _response =>
      if status _response =? 200 then mret ()
      else via_world (error_handler _response)
  end.

(** A session that starts with the given scripts. *)
Definition wired (w : World) (patch_script delete_script : list (option Response)) : Wire :=
  {| world := w;
     patch_replies k := default None (patch_script !! k);
     delete_replies k := default None (delete_script !! k);
     patched := []; deleted := [] |}.

Definition answer (code : Z) : option Response :=
  Some {| status := code; payload := Some (JObj []) |}.

(** The session after [n] further calls of [patch_request]. *)
Definition patches (uri : string) (body : json) (_continue : bool) (n : nat) (s : Wire)
  : Wire :=
  Nat.iter n (log_patch uri body _continue) s.

(** The session after calls of [delete_request] for [uris], in order. *)
Definition deletions (uris : list string) (s : Wire) : Wire :=
  foldl (λ s uri, log_delete uri s) s uris.

(** The address [clear_job_list] deletes for an entry of the queue. *)
Definition job_address (self : Badfish) (_job : string) : string :=
  jobs_uri self +:+ "/" +:+ strip "'" _job.

(** All characters of a string pass a test. *)
Fixpoint all_chars (test : ascii → bool) (s : string) : bool :=
  match s with
  | EmptyString => true
  | String c s' => test c && all_chars test s'
  end.

(** A job identifier as the pattern takes it: J or R, then [ID_], then
    at least one character, no newline inside, a digit at the end. *)
Definition job_id_shape (found : string) : Prop :=
  ∃ c0 c1 tail d,
    found = String c0 ("ID_" +:+ String c1 (tail +:+ String d "")) ∧
    (c0 = "J" ∨ c0 = "R")%char ∧
    PyStr.is_digit d = true ∧
    all_chars (λ c, negb (PyRe.is_newline c)) (String c1 tail) = true.

(** ** The memo in front of [get_request] *)

(** [get_request] above is the body of the method.  The method itself is
    the body under [@alru_cache(maxsize=64)]: a call whose arguments were
    seen before is answered from the memo and does not reach the
    controller.  This module has the decorated method and the methods
    that ask for the same address more than once, for one session alone
    in the process. *)
Module Memo.

(** The arguments of a call, and an entry of the memo: the arguments and
    how the call ended. *)
Definition Key : Type := string * bool.
Definition Slot : Type := Key * result (option Response).

Definition maxsize : nat := 64.

(** The controller side and the memo, most recently used entry first. *)
Record State := {
  behind : World;
  cache : list Slot;
}.

Fixpoint lookup (key : Key) (slots : list Slot) : option (result (option Response)) :=
  match slots with
  | [] => None
  | (k, outcome) :: rest => if decide (k = key) then Some outcome else lookup key rest
  end.

Definition forget (key : Key) (slots : list Slot) : list Slot :=
  filter (λ slot, slot.1 ≠ key) slots.

(** A call answered from the memo: the entry becomes the most recent
    one. *)
Definition hit (key : Key) (outcome : result (option Response)) (s : State) : State :=
  {| behind := behind s; cache := (key, outcome) :: forget key (cache s) |}.

(** A call that runs the body: its outcome becomes the most recent entry
    and the least recent one is dropped beyond [maxsize]. *)
Definition miss (key : Key) (s : State) : result (option Response) * State :=
  let '(outcome, w') := get_request key.1 key.2 (behind s) in
  (outcome, {| behind := w'; cache := take maxsize ((key, outcome) :: forget key (cache s)) |}).

Definition C (A : Type) : Type := State → result A * State.

Global Instance C_ret : MRet C := λ A a s, (Ok a, s).
Global Instance C_bind : MBind C := λ A B k m s,
  match m s with
  | (Ok a, s') => k a s'
  | (Raise e, s') => (Raise e, s')
  end.

(** A value or an exception that needs no request. *)
Definition of_result {A} (r : result A) : C A := λ s, (r, s).

(** A method that is not decorated, run on the controller side. *)
Definition on_wire {A} (m : M A) : C A :=
  λ s, let '(r, w') := m (behind s) in (r, {| behind := w'; cache := cache s |}).

(** A session that has not asked for anything yet. *)
Definition fresh (w : World) : State := {| behind := w; cache := [] |}.

Section Decorated.

(** The option [cache_exceptions] of the decorator: whether a call that
    raised is answered from the memo as well.  It is set by default in
    the releases that have it; later releases never keep an exception. *)
Variable cache_exceptions : bool.

(** [Badfish.get_request], decorated. *)
Definition get_request (uri : string) (_continue : bool) : C (option Response) :=
  λ s,
    let key := (uri, _continue) in
    match lookup key (cache s) with
    | Some (Ok _response) => (Ok _response, hit key (Ok _response) s)
    | Some (Raise e) =>
        if cache_exceptions then (Raise e, hit key (Raise e) s) else miss key s
    | None => miss key s
    end.

(** [Badfish.get_power_state]. *)
Definition get_power_state (self : Badfish) : C json :=
  _response ← get_request (system_uri self) true;
  of_result (read_power_state _response).

(** The loop of [Badfish.polling_host_state] with [n] rounds left. *)
Fixpoint polling_loop (self : Badfish) (state : string) (equals : bool) (n : nat)
  : C bool :=
  match n with
  | O => mret false
  | S n' =>
      current_state ← get_power_state self;
      current ← of_result (Py.lower current_state);
      let desired_state := wanted state equals current in
      if desired_state then mret true
      else polling_loop self state equals n'
  end.

(** [Badfish.polling_host_state]. *)
Definition polling_host_state (self : Badfish) (state : string) (equals : bool) : C bool :=
  polling_loop self state equals (Z.to_nat (retries self)).

(** The loop of [Badfish.get_job_status] with [n] rounds left. *)
Fixpoint job_status_loop (uri : string) (n : nat) : C unit :=
  match n with
  | O => of_result (Raise BadfishException)
  | S n' =>
      _response ← get_request uri true;
      match _response with
      | None => job_status_loop uri n'
      | Some _response =>
          (if status _response =? 200 then mret ()
           else on_wire (error_handler _response));;
          data ← of_result (loads _response);
          message ← of_result (Py.getitem data "Message");
          if Py.eq_str message "Task successfully scheduled." then mret ()
          else job_status_loop uri n'
      end
  end.

(** [Badfish.get_job_status]. *)
Definition get_job_status (self : Badfish) (_job_id : string) : C unit :=
  job_status_loop (job_uri self _job_id) (Z.to_nat (retries self)).

(** [Badfish.get_reset_types]. *)
Definition get_reset_types (self : Badfish) (manager : bool) : C json :=
  let resource := if manager then manager_resource self else system_resource self in
  let endpoint := if manager then "#Manager.Reset" else "#ComputerSystem.Reset" in
  _response ← get_request (host_uri self +:+ resource) false;
  of_result (read_reset_types endpoint _response).

(** [Badfish.reboot_server]. *)
Definition reboot_server (self : Badfish) (graceful : bool) : C bool :=
  _reset_types ← get_reset_types self false;
  reset_type ← of_result (select_reset_type "GracefulRestart" _reset_types);
  power_state ← get_power_state self;
  current ← of_result (Py.lower power_state);
  if bool_decide (current = "on") then
    (if graceful then
       on_wire (send_reset self reset_type);;
       host_down ← polling_host_state self "Off" true;
       if negb host_down then on_wire (send_reset self "ForceOff") else mret ()
     else on_wire (send_reset self "ForceOff"));;
    host_not_down ← polling_host_state self "Down" false;
    (if host_not_down : bool then on_wire (send_reset self "On") else mret ());;
    mret true
  else if bool_decide (current = "off") then
    on_wire (send_reset self "On");;
    mret true
  else mret true.

End Decorated.

(** The memo answers the next call for [key] with [_response]. *)
Definition settled (key : Key) (_response : option Response) (s : State) : Prop :=
  ∃ rest, cache s = (key, Ok _response) :: rest.

End Memo.

(** The job is scheduled at the second request. *)
Definition job_scheduled_second : World :=
  scripted [ job_message "Task is scheduling.";
             job_message "Task successfully scheduled." ] [].

(** The host is on at the first read and off from the first poll on;
    every reset is accepted. *)
Definition reboot_goes_off : World :=
  scripted
    [ system_document "On" graceful_types; power "On";
      power "Off"; power "Off"; power "Off"; power "On" ]
    [ no_content; no_content; no_content ].

(** The host is on, then off. *)
Definition power_goes_off : World := scripted [ power "On"; power "Off" ] [].

(* ================================================================== *)
(** * Properties *)
(* ================================================================== *)

Section InterfacesLookup.

Example get_interfaces_by_type_full :
  get_interfaces_by_type "rack1-u2-b03-640.example.com" "foreman"
    {[ "foreman_rack1_u2_640_b03_interfaces" := "NIC.Slot.4-1,NIC.Integrated.1-1" ]}
  = (Ok ["NIC.Slot.4-1"; "NIC.Integrated.1-1"],
     ["foreman_rack1_u2_640_b03_interfaces"]).
Proof. vm_compute. reflexivity. Qed.

Lemma string_app_assoc (a b c : string) : (a +:+ b) +:+ c = a +:+ (b +:+ c).
Proof.
  induction a as [|x a IH]; [reflexivity|].
  change (String x ((a +:+ b) +:+ c) = String x (a +:+ (b +:+ c))).
  by rewrite IH.
Qed.

Lemma index_from_end_app4 {A} (pre : list A) (a b c d : A) :
  index_from_end (pre ++ [a; b; c; d]) 1 = Ok d ∧
  index_from_end (pre ++ [a; b; c; d]) 2 = Ok c ∧
  index_from_end (pre ++ [a; b; c; d]) 3 = Ok b ∧
  index_from_end (pre ++ [a; b; c; d]) 4 = Ok a.
Proof.
  unfold index_from_end. rewrite length_app. simpl length.
  repeat split.
  all: match goal with
       | |- (if (?k <=? ?n)%nat then _ else _) = _ =>
           replace (k <=? n)%nat with true by (symmetry; apply Nat.leb_le; lia)
       end.
  all: rewrite lookup_app_r by lia.
  - by replace (length pre + 4 - 1 - length pre)%nat with 3%nat by lia.
  - by replace (length pre + 4 - 2 - length pre)%nat with 2%nat by lia.
  - by replace (length pre + 4 - 3 - length pre)%nat with 1%nat by lia.
  - by replace (length pre + 4 - 4 - length pre)%nat with 0%nat by lia.
Qed.

Lemma interfaces_loop_three definitions host_type rack uloc m :
  interfaces_loop 3 definitions [host_type; rack; uloc] m [] =
  resolve_keys
    [ host_type +:+ "_" +:+ rack +:+ "_" +:+ uloc +:+ "_" +:+ m +:+ "_interfaces";
      host_type +:+ "_" +:+ rack +:+ "_" +:+ m +:+ "_interfaces";
      host_type +:+ "_" +:+ m +:+ "_interfaces" ] definitions [].
Proof.
  cbn [interfaces_loop resolve_keys pop removelast].
  unfold interfaces_key. cbn [PyStr.join].
  rewrite !string_app_assoc.
  repeat (destruct (definitions !! _) as [v|]; [destruct (PyStr.truthy v); [reflexivity|] |]);
    reflexivity.
Qed.

(** C1, as amended.  For a host whose short name ends in the components
    rack, unit location, blade, model, [get_interfaces_by_type] looks up
    exactly the three keys type_rack_uloc_M, type_rack_M, type_M (each
    suffixed _interfaces) in that order, where M is model_blade when the
    blade starts with b0 and a digit and model otherwise; it returns the
    comma-separated devices of the first key whose value is present and
    non-empty, and raises BadfishException when there is none. *)
Theorem get_interfaces_by_type_fallback
    (host host_type : string) (definitions : gmap string string)
    (pre : list string) (rack uloc blade model : string)
    (Hhost : host_components host = pre ++ [rack; uloc; blade; model]) :
  get_interfaces_by_type host host_type definitions =
  resolve_keys (fallback_keys host_type rack uloc blade model) definitions [].
Proof.
  unfold get_interfaces_by_type. fold (host_components host). rewrite Hhost.
  destruct (index_from_end_app4 pre rack uloc blade model) as (-> & -> & -> & ->).
  cbn [length]. fold (model_component blade model).
  apply interfaces_loop_three.
Qed.

Lemma get_interfaces_by_type_fallback_witness :
  host_components "rack1-u2-b03-640.example.com" = [] ++ ["rack1"; "u2"; "b03"; "640"] ∧
  get_interfaces_by_type "rack1-u2-b03-640.example.com" "foreman"
    {[ "foreman_rack1_640_b03_interfaces" := "NIC.Slot.4-1,NIC.Integrated.1-1" ]}
  = (Ok ["NIC.Slot.4-1"; "NIC.Integrated.1-1"],
     [ "foreman_rack1_u2_640_b03_interfaces"; "foreman_rack1_640_b03_interfaces" ]).
Proof.
  split; [reflexivity|].
  rewrite (get_interfaces_by_type_fallback _ _ _ [] "rack1" "u2" "b03" "640");
    [vm_compute; reflexivity | reflexivity].
Defined.

(** C1, as stated, fails: with only the key without blade present, the
    specification's order finds it at the second attempt, while the code
    never builds that key and raises after three lookups. *)
Lemma get_interfaces_by_type_not_spec_order :
  host_components "rack1-u2-b03-640" = ["rack1"; "u2"; "b03"; "640"] ∧
  spec_get_interfaces_by_type "foreman" "rack1" "u2" "b03" "640" bladeless_only
  = (Ok ["NIC.Slot.4-1"; "NIC.Integrated.1-1"],
     [ "foreman_rack1_u2_640_b03_interfaces"; "foreman_rack1_u2_640_interfaces" ]) ∧
  get_interfaces_by_type "rack1-u2-b03-640" "foreman" bladeless_only
  = (Raise BadfishException,
     [ "foreman_rack1_u2_640_b03_interfaces"; "foreman_rack1_640_b03_interfaces";
       "foreman_640_b03_interfaces" ]) ∧
  get_interfaces_by_type "rack1-u2-b03-640" "foreman" bladeless_only
  ≠ spec_get_interfaces_by_type "foreman" "rack1" "u2" "b03" "640" bladeless_only.
Proof. vm_compute. repeat split; discriminate. Qed.

End InterfacesLookup.

Section BootOrder.

Implicit Types (interfaces valid : list string) (devices : list BootDevice).

Lemma first_named_Some name devices p :
  first_named name devices = Some p →
  ∃ d, devices !! p = Some d ∧ Name d = name.
Proof.
  revert p. induction devices as [|d ds IH]; intros p; simpl; [done|].
  destruct (decide (name = Name d)) as [->|Hne].
  - intros [= <-]. by exists d.
  - destruct (first_named name ds) as [q|] eqn:Hq; simpl; [|done].
    intros [= <-]. destruct (IH q eq_refl) as (d' & ? & ?). by exists d'.
Qed.

Lemma first_named_inj name1 name2 devices p :
  first_named name1 devices = Some p →
  first_named name2 devices = Some p →
  name1 = name2.
Proof.
  intros (d1 & H1 & <-)%first_named_Some (d2 & H2 & <-)%first_named_Some.
  congruence.
Qed.

Lemma first_named_is_Some name devices :
  name ∈ Name <$> devices → is_Some (first_named name devices).
Proof.
  induction devices as [|d ds IH]; simpl.
  - by intros ?%elem_of_nil.
  - intros [->|Hin]%elem_of_cons.
    + rewrite decide_True by done. by eexists.
    + destruct (decide (name = Name d)); [by eexists|].
      destruct (IH Hin) as [q ->]. by eexists.
Qed.

Lemma first_named_elem_of name devices p :
  first_named name devices = Some p → name ∈ Name <$> devices.
Proof.
  intros (d & Hd & <-)%first_named_Some.
  apply list_elem_of_fmap. exists d. split; [done|].
  by eapply list_elem_of_lookup_2.
Qed.

Lemma first_named_names name devices1 devices2 :
  Name <$> devices1 = Name <$> devices2 →
  first_named name devices1 = first_named name devices2.
Proof.
  revert devices2. induction devices1 as [|d ds IH]; intros [|d' ds']; simpl; try done.
  intros [= Hd Hds]. rewrite Hd, (IH ds' Hds). done.
Qed.

Lemma assign_index_names interface i devices :
  Name <$> (assign_index interface i devices).1 = Name <$> devices.
Proof.
  induction devices as [|d ds IH]; simpl; [done|].
  destruct (decide (interface = Name d)).
  - by destruct (decide (Index d ≠ i)).
  - destruct (assign_index interface i ds) as [ds' c]; csimpl in *. by f_equal.
Qed.

(** After the inner loop the first device of that name has index [i] and
    every other position holds the device it held before. *)
Lemma assign_index_lookup interface i devices p d' :
  (assign_index interface i devices).1 !! p = Some d' →
  ∃ d, devices !! p = Some d ∧ Name d' = Name d ∧
       ((first_named interface devices = Some p ∧ Index d' = i) ∨
        (first_named interface devices ≠ Some p ∧ d' = d)).
Proof.
  revert p. induction devices as [|d ds IH]; intros p; simpl; [done|].
  destruct (decide (interface = Name d)) as [->|Hne].
  - destruct (decide (Index d ≠ i)) as [Hi|Hi]; simpl.
    + destruct p as [|p]; simpl.
      * intros [= <-]. exists d. split_and!; [done..|]. by left.
      * intros Hp. exists d'. split_and!; [done..|]. by right.
    + apply dec_stable in Hi. destruct p as [|p]; simpl.
      * intros [= <-]. exists d. split_and!; [done..|]. by left.
      * intros Hp. exists d'. split_and!; [done..|]. by right.
  - destruct (assign_index interface i ds) as [ds' c] eqn:Hrec; simpl in *.
    destruct p as [|p]; simpl.
    + intros [= <-]. exists d. split_and!; [done..|]. right. split; [|done].
      by destruct (first_named interface ds).
    + intros Hp. destruct (IH p Hp) as (d0 & Hd0 & Hname & Hcase).
      exists d0. split_and!; [done..|].
      destruct Hcase as [[Hf Hi]|[Hf ->]].
      * left. by rewrite Hf.
      * right. split; [|done]. destruct (first_named interface ds); naive_solver.
Qed.

Lemma assign_index_noop interface i devices :
  (∀ p, first_named interface devices = Some p →
        ∃ d, devices !! p = Some d ∧ Index d = i) →
  assign_index interface i devices = (devices, false).
Proof.
  induction devices as [|d ds IH]; simpl; [done|]. intros H.
  destruct (decide (interface = Name d)) as [->|Hne].
  - destruct (H O eq_refl) as (d0 & [= <-] & Hi).
    by rewrite decide_False by (intros ?; done).
  - rewrite IH; [done|]. intros p Hp.
    destruct (H (S p)) as (d0 & Hd0 & Hi); [by rewrite Hp|]. by exists d0.
Qed.

Lemma assign_indices_names valid i devices change :
  Name <$> (assign_indices valid i devices change).1 = Name <$> devices.
Proof.
  revert i devices change. induction valid as [|x xs IH]; intros i devices change; simpl; [done|].
  destruct (assign_index x i devices) as [devices1 c] eqn:H1.
  rewrite IH. by rewrite <-(assign_index_names x i devices), H1.
Qed.

(** After the outer loop a position either keeps its index, and then no
    valid name stops at it, or carries [i + j] for some position [j] of a
    valid name that stops at it. *)
Lemma assign_indices_lookup valid i devices change p d' :
  (assign_indices valid i devices change).1 !! p = Some d' →
  ∃ d, devices !! p = Some d ∧ Name d' = Name d ∧
       ((Index d' = Index d ∧
         ∀ name, name ∈ valid → first_named name devices ≠ Some p) ∨
        (∃ (j : nat) name, valid !! j = Some name ∧
           first_named name devices = Some p ∧ Index d' = i + Z.of_nat j)).
Proof.
  revert i devices change.
  induction valid as [|x xs IH]; intros i devices change; simpl.
  - intros Hp. exists d'. split_and!; [done..|]. left. split; [done|].
    by intros name ?%elem_of_nil.
  - destruct (assign_index x i devices) as [devices1 c] eqn:H1. intros Hp.
    destruct (IH _ _ _ Hp) as (d1 & Hd1 & Hname1 & Hcase).
    assert (Hnames : Name <$> devices1 = Name <$> devices)
      by (by rewrite <-(assign_index_names x i devices), H1).
    pose proof (assign_index_lookup x i devices p d1) as Hstep.
    rewrite H1 in Hstep. destruct (Hstep Hd1) as (d & Hd & Hname & Hx).
    exists d. split_and!; [done | congruence |].
    destruct Hcase as [[Hidx Hnone]|(j & name & Hj & Hf & Hidx)].
    + destruct Hx as [[Hf Hi]|[Hf ->]].
      * right. exists O, x. split_and!; [done..|]. rewrite Hidx, Hi. simpl. lia.
      * left. split; [done|]. intros name [->|Hin]%elem_of_cons; [done|].
        rewrite <-(first_named_names name _ _ Hnames). by apply Hnone.
    + right. exists (S j), name. split_and!; [done| |].
      * by rewrite <-(first_named_names name _ _ Hnames).
      * rewrite Hidx. lia.
Qed.

Lemma assign_indices_noop valid i devices change :
  (∀ (j : nat) name p, valid !! j = Some name → first_named name devices = Some p →
        ∃ d, devices !! p = Some d ∧ Index d = i + Z.of_nat j) →
  assign_indices valid i devices change = (devices, change).
Proof.
  revert i change. induction valid as [|x xs IH]; intros i change H; simpl; [done|].
  rewrite assign_index_noop.
  - rewrite IH; [by rewrite orb_false_r|].
    intros j name p Hj Hp. destruct (H (S j) name p Hj Hp) as (d & ? & ?).
    exists d. split; [done|]. lia.
  - intros p Hp. destruct (H O x p eq_refl Hp) as (d & ? & ?).
    exists d. split; [done|]. simpl in *. lia.
Qed.

Lemma valid_devices_names interfaces devices1 devices2 :
  Name <$> devices1 = Name <$> devices2 →
  valid_devices interfaces devices1 = valid_devices interfaces devices2.
Proof. unfold valid_devices. by intros ->. Qed.

Lemma change_boot_order_names interfaces devices :
  Name <$> (change_boot_order interfaces devices).1 = Name <$> devices.
Proof. apply assign_indices_names. Qed.

Lemma elem_of_valid_devices name interfaces devices :
  name ∈ valid_devices interfaces devices ↔
  name ∈ interfaces ∧ name ∈ Name <$> devices.
Proof. unfold valid_devices. by rewrite list_elem_of_filter, (comm and). Qed.

(** C2, as amended.  For every live boot-device list with pairwise unique
    indices and every template: if every device that the loop does not
    assign (a device that is not the first one carrying a template name)
    has an index outside 0..k-1, k being the number of valid template
    entries, then the list after the reconciliation still has pairwise
    unique indices. *)
Theorem change_boot_order_unique_indices interfaces devices
    (Huniq : NoDup (Index <$> devices))
    (Hrest : ∀ p d, devices !! p = Some d →
               ¬ reordered interfaces devices p →
               ¬ (0 ≤ Index d < Z.of_nat (length (valid_devices interfaces devices)))) :
  NoDup (Index <$> (change_boot_order interfaces devices).1).
Proof.
  apply NoDup_alt. intros p q idx.
  rewrite !list_lookup_fmap.
  destruct ((change_boot_order interfaces devices).1 !! p) as [dp'|] eqn:Hp; [|done].
  destruct ((change_boot_order interfaces devices).1 !! q) as [dq'|] eqn:Hq; [|done].
  simpl. intros [= Hip] [= Hiq].
  destruct (assign_indices_lookup _ _ _ _ _ _ Hp) as (dp & Hdp & _ & Hcp).
  destruct (assign_indices_lookup _ _ _ _ _ _ Hq) as (dq & Hdq & _ & Hcq).
  assert (Hkept : ∀ r d (j : nat) name,
            devices !! r = Some d →
            (∀ name, name ∈ valid_devices interfaces devices →
                     first_named name devices ≠ Some r) →
            valid_devices interfaces devices !! j = Some name →
            Index d ≠ 0 + Z.of_nat j).
  { intros r d j name Hd Hnone Hj Heq.
    apply (Hrest r d Hd).
    - intros (name' & Hin & Hf). apply (Hnone name'); [|done].
      apply elem_of_valid_devices. split; [done|]. by eapply first_named_elem_of.
    - apply lookup_lt_Some in Hj. lia. }
  destruct Hcp as [[Hp0 Hpn]|(jp & np & Hjp & Hfp & Hp1)],
           Hcq as [[Hq0 Hqn]|(jq & nq & Hjq & Hfq & Hq1)].
  - apply (NoDup_lookup _ p q idx Huniq); rewrite list_lookup_fmap.
    + rewrite Hdp. simpl. congruence.
    + rewrite Hdq. simpl. congruence.
  - exfalso. apply (Hkept p dp jq nq Hdp Hpn Hjq). congruence.
  - exfalso. apply (Hkept q dq jp np Hdq Hqn Hjp). congruence.
  - assert (jp = jq) as -> by lia.
    assert (np = nq) as -> by congruence. congruence.
Qed.

Lemma change_boot_order_unique_indices_witness :
  NoDup (Index <$> swapped_devices) ∧
  NoDup (Index <$>
    (change_boot_order ["NIC.Slot.4-1-1"; "NIC.Integrated.1-1-1"] swapped_devices).1) ∧
  Index <$> (change_boot_order ["NIC.Slot.4-1-1"; "NIC.Integrated.1-1-1"] swapped_devices).1
  = [0; 1; 2].
Proof.
  assert (Huniq : NoDup (Index <$> swapped_devices)).
  { apply (bool_decide_unpack _). vm_compute. exact I. }
  split_and!; [exact Huniq | | vm_compute; reflexivity].
  apply change_boot_order_unique_indices; [exact Huniq|].
  intros p d Hp Hnot.
  destruct p as [|[|[|p]]]; simpl in Hp; [..|done].
  - exfalso. apply Hnot. exists "NIC.Slot.4-1-1". split; [|reflexivity].
    apply list_elem_of_here.
  - exfalso. apply Hnot. exists "NIC.Integrated.1-1-1". split; [|reflexivity].
    apply list_elem_of_further, list_elem_of_here.
  - injection Hp as <-. vm_compute. intros [_ H]. discriminate H.
Defined.

(** C2, as stated, fails: a template that names only the third device
    gives it index 0, which the first device already has. *)
Lemma change_boot_order_duplicates_index :
  NoDup (Index <$> three_devices) ∧
  Index <$> (change_boot_order ["HardDisk.List.1-1"] three_devices).1 = [0; 1; 0] ∧
  ¬ NoDup (Index <$> (change_boot_order ["HardDisk.List.1-1"] three_devices).1).
Proof.
  split_and!.
  - apply (bool_decide_unpack _). vm_compute. exact I.
  - vm_compute. reflexivity.
  - apply (bool_decide_unpack _). vm_compute. exact I.
Qed.

(** C4, as amended.  For every live device list and every template whose
    valid entries (the names that occur in the live list) are pairwise
    distinct: reconciling the reconciled list again changes no index, the
    change flag of the second run is false and no PATCH is issued. *)
Theorem change_boot_order_idempotent interfaces devices
    (Hdistinct : NoDup (valid_devices interfaces devices)) :
  change_boot_order interfaces (change_boot_order interfaces devices).1
    = ((change_boot_order interfaces devices).1, false) ∧
  boot_order_patch interfaces (change_boot_order interfaces devices).1 = None.
Proof.
  assert (Hfix : change_boot_order interfaces (change_boot_order interfaces devices).1
                 = ((change_boot_order interfaces devices).1, false)).
  { pose proof (change_boot_order_names interfaces devices) as Hnames.
    unfold change_boot_order at 1.
    rewrite (valid_devices_names _ _ _ Hnames).
    apply assign_indices_noop. intros j name p Hj Hf.
    destruct (first_named_Some _ _ _ Hf) as (d' & Hd' & Hname).
    exists d'. split; [done|].
    rewrite (first_named_names name _ _ Hnames) in Hf.
    destruct (assign_indices_lookup _ _ _ _ _ _ Hd')
      as (d & Hd & _ & [[_ Hnone]|(j' & name' & Hj' & Hf' & Hidx)]).
    - exfalso. apply (Hnone name); [|done]. by eapply list_elem_of_lookup_2.
    - assert (name' = name) as -> by (by eapply first_named_inj).
      by rewrite (NoDup_lookup _ j j' name Hdistinct Hj Hj'). }
  split; [exact Hfix|]. unfold boot_order_patch. by rewrite Hfix.
Qed.

Lemma change_boot_order_idempotent_witness :
  NoDup (valid_devices ["NIC.Slot.4-1-1"; "NIC.Integrated.1-1-1"; "NIC.Slot.9-1-1"]
           three_devices) ∧
  (change_boot_order ["NIC.Slot.4-1-1"; "NIC.Integrated.1-1-1"; "NIC.Slot.9-1-1"]
     three_devices).2 = true ∧
  boot_order_patch ["NIC.Slot.4-1-1"; "NIC.Integrated.1-1-1"; "NIC.Slot.9-1-1"]
    (change_boot_order ["NIC.Slot.4-1-1"; "NIC.Integrated.1-1-1"; "NIC.Slot.9-1-1"]
       three_devices).1 = None.
Proof.
  assert (Hd : NoDup (valid_devices
            ["NIC.Slot.4-1-1"; "NIC.Integrated.1-1-1"; "NIC.Slot.9-1-1"] three_devices)).
  { apply (bool_decide_unpack _). vm_compute. exact I. }
  split_and!; [exact Hd | vm_compute; reflexivity |].
  exact (proj2 (change_boot_order_idempotent _ _ Hd)).
Defined.

(** C4, as stated, fails: when the template repeats a name, the first run
    leaves the device at the position of the last repetition, and the
    second run finds it away from the first one, sets the change flag and
    issues a PATCH. *)
Lemma change_boot_order_repeated_name_not_idempotent :
  change_boot_order repeated_template [nic "NIC.Slot.4-1-1" 0]
    = ([nic "NIC.Slot.4-1-1" 1], true) ∧
  change_boot_order repeated_template (change_boot_order repeated_template [nic "NIC.Slot.4-1-1" 0]).1
    = ([nic "NIC.Slot.4-1-1" 1], true) ∧
  boot_order_patch repeated_template
    (change_boot_order repeated_template [nic "NIC.Slot.4-1-1" 0]).1
    = Some [nic "NIC.Slot.4-1-1" 1] ∧
  (change_boot_order repeated_template
     (change_boot_order repeated_template [nic "NIC.Slot.4-1-1" 0]).1).2 ≠ false.
Proof. vm_compute. done. Qed.

End BootOrder.

(** Unfolding of the monad operations. *)
Ltac munfold :=
  unfold mbind, mret, M_bind, M_ret, result_bind, result_ret, raise, lift in *.

Section BiosBootMode.

(** C10, as amended.  When the reply to the BIOS request carries a JSON
    object with no Attributes member, or with an Attributes object without
    BootMode, [get_bios_boot_mode] returns "Bios" and [get_boot_seq]
    returns "BootSeq"; the status of the reply is not looked at, so this
    holds in particular for status 200. *)
Theorem get_bios_boot_mode_assumes_bios
    (self : Badfish) (w : World) (r : Response) (data : json)
    (Hreply : get_replies w (gets w) = Some r)
    (Hbody : payload r = Some data)
    (Hlacks : lacks_boot_mode data) :
  (get_bios_boot_mode self w).1 = Ok (JStr "Bios") ∧
  (get_boot_seq self w).1 = Ok "BootSeq".
Proof.
  assert (H : (get_bios_boot_mode self w).1 = Ok (JStr "Bios")).
  { unfold get_bios_boot_mode, get_request. munfold.
    rewrite Hreply, Hbody.
    destruct Hlacks as (fields & -> & [Hnone|(attributes & Hattr & Hnone)]); simpl.
    - by rewrite Hnone.
    - rewrite Hattr. simpl. by rewrite Hnone. }
  split; [exact H|].
  unfold get_boot_seq. munfold.
  destruct (get_bios_boot_mode self w) as [[v|e] w']; simpl in H; by simplify_eq.
Qed.

Lemma get_bios_boot_mode_assumes_bios_witness :
  (get_bios_boot_mode r640 bios_without_boot_mode).1 = Ok (JStr "Bios") ∧
  (get_boot_seq r640 bios_without_boot_mode).1 = Ok "BootSeq".
Proof.
  eapply (get_bios_boot_mode_assumes_bios r640 bios_without_boot_mode);
    [reflexivity | reflexivity |].
  eexists. split; [reflexivity|]. right. eexists. split; reflexivity.
Defined.

(** C10, as stated, fails: a body whose Attributes member is null parses
    as JSON and has no Attributes.BootMode, but subscripting null raises a
    TypeError, which [except KeyError] does not catch. *)
Lemma get_bios_boot_mode_null_attributes :
  get_replies bios_null_attributes 0
    = Some {| status := 200; payload := Some (JObj [("Attributes", JNull)]) |} ∧
  boot_mode_field (JObj [("Attributes", JNull)]) = None ∧
  (get_bios_boot_mode r640 bios_null_attributes).1 = Raise TypeError ∧
  (get_boot_seq r640 bios_null_attributes).1 = Raise TypeError ∧
  (get_bios_boot_mode r640 bios_null_attributes).1 ≠ Ok (JStr "Bios").
Proof. vm_compute. done. Qed.

End BiosBootMode.

Section PowerState.

Lemma error_handler_raises (r : Response) (w : World) :
  ∃ e, error_handler r w = (Raise e, w).
Proof.
  unfold error_handler. munfold.
  destruct (payload r) as [data|]; [|by eexists].
  destruct (Py.contains "error" data) as [[|]|e]; try by eexists.
  destruct (Py.getitem data "error") as [v1|e]; [|by eexists].
  destruct (Py.getitem v1 "@Message.ExtendedInfo") as [v2|e]; [|by eexists].
  destruct (Py.getitem_nat v2 0) as [v3|e]; [|by eexists].
  destruct (Py.getitem v3 "Message") as [v4|e]; by eexists.
Qed.

Lemma accepted_dec (reply : option Response) : {accepted reply} + {¬ accepted reply}.
Proof.
  destruct reply as [r|]; [|right; by intros (r & ? & _)].
  destruct (decide (status r = 200 ∨ status r = 204 ∨ status r = 409)) as [H|H].
  - left. by exists r.
  - right. by intros (r' & [= <-] & ?).
Qed.

(** [send_reset] always posts exactly one request; it returns when the
    reply is accepted and raises otherwise. *)
Lemma send_reset_run (self : Badfish) (reset_type : string) (w : World) :
  let w' := log_post (reset_uri self) (reset_payload reset_type) w in
  (accepted (post_replies w (posts w)) → send_reset self reset_type w = (Ok (), w')) ∧
  (¬ accepted (post_replies w (posts w)) →
     ∃ e, send_reset self reset_type w = (Raise e, w')).
Proof.
  intros w'. unfold send_reset, post_request. munfold.
  destruct (post_replies w (posts w)) as [r|] eqn:Hr.
  - destruct (status r =? 200) eqn:H200; simpl.
    { split; [done|]. intros []. exists r. split; [done|]. left. lia. }
    destruct (status r =? 204) eqn:H204; simpl.
    { split; [done|]. intros []. exists r. split; [done|]. right. left. lia. }
    destruct (status r =? 409) eqn:H409; simpl.
    { split; [done|]. intros []. exists r. split; [done|]. right. right. lia. }
    split.
    + intros (r' & [= <-] & ?). lia.
    + intros _. apply error_handler_raises.
  - split; [by intros (r' & ? & _)|]. intros _. by eexists.
Qed.

(** C9.  Let [set_power_state] be called with a target that lowers to "on"
    or "off", and let the fetch of the system resource be answered with
    status 200 and an object holding a PowerState member [v].  Then any
    value the call returns is [v], the state read by that fetch; and when
    [v] is non-empty and the controller accepts the reset, the call does
    return [v], after one GET followed by one POST of the reset, so the
    state returned was read before the reset was issued. *)
Theorem set_power_state_returns_prior
    (self : Badfish) (state : string) (w : World)
    (r : Response) (fields : list (string * json)) (v : json)
    (Hstate : PyStr.lower state = "on" ∨ PyStr.lower state = "off")
    (Hreply : get_replies w (gets w) = Some r)
    (Hstatus : status r = 200)
    (Hbody : payload r = Some (JObj fields))
    (Hfield : Py.lookup_field "PowerState" fields = Some v) :
  (∀ out w', set_power_state self state w = (Ok out, w') → out = Some v) ∧
  (Py.truthy v = true → accepted (post_replies w (posts w)) →
   ∃ w', set_power_state self state w = (Ok (Some v), w') ∧
         requests w' = requests w ++
           [ GET (system_uri self) true;
             POST (reset_uri self)
               (reset_payload (if bool_decide (PyStr.lower state = "off")
                               then "ForceOff" else "On")) ]).
Proof.
  unfold set_power_state.
  rewrite bool_decide_true
    by (destruct Hstate as [-> | ->]; set_solver).
  cbn [negb]. unfold get_request, loads. munfold.
  rewrite Hreply, Hstatus, Hbody. cbn [Z.eqb Pos.eqb loads payload Py.get].
  rewrite Hfield. cbn [default from_option id Py.getitem]. rewrite Hfield.
  change (id v) with v.
  destruct (Py.truthy v) eqn:Hv; cbn [negb].
  2:{ split; [intros out w' [=] | done]. }
  set (w1 := log_get (system_uri self) true w).
  assert (Hposts : post_replies w1 (posts w1) = post_replies w (posts w)) by done.
  destruct (bool_decide (PyStr.lower state = "off")) eqn:Hoff.
  - destruct (send_reset_run self "ForceOff" w1) as [Hacc Hrej].
    split.
    + intros out w'. destruct (send_reset self "ForceOff" w1) as [[[]|e] w2]; by intros [= <- _].
    + intros _ Ha. rewrite Hacc by (by rewrite Hposts). eexists. split; [done|].
      simpl. by rewrite <-app_assoc.
  - rewrite bool_decide_true
      by (destruct Hstate as [-> | Hs]; [done | by apply bool_decide_eq_false in Hoff]).
    destruct (send_reset_run self "On" w1) as [Hacc Hrej].
    split.
    + intros out w'. destruct (send_reset self "On" w1) as [[[]|e] w2]; by intros [= <- _].
    + intros _ Ha. rewrite Hacc by (by rewrite Hposts). eexists. split; [done|].
      simpl. by rewrite <-app_assoc.
Qed.

Lemma set_power_state_returns_prior_witness :
  ∃ w', set_power_state r640 "Off" (scripted [power "On"] [no_content])
        = (Ok (Some (JStr "On")), w') ∧
        requests w' = [ GET (system_uri r640) true;
                        POST (reset_uri r640) (reset_payload "ForceOff") ].
Proof.
  destruct (set_power_state_returns_prior r640 "Off"
              (scripted [power "On"] [no_content])
              {| status := 200;
                 payload := Some (JObj [("Id", JStr "System.Embedded.1");
                                        ("PowerState", JStr "On")]) |}
              [("Id", JStr "System.Embedded.1"); ("PowerState", JStr "On")]
              (JStr "On"))
    as [_ Hreturns]; [by right | reflexivity..|].
  apply Hreturns; [reflexivity|].
  eexists. split; [reflexivity|]. right. by left.
Defined.

End PowerState.

Section Polling.

Lemma polled_succ_r uri n w : polled uri (S n) w = polled uri n (log_get uri true w).
Proof. unfold polled. by rewrite Nat.iter_succ_r. Qed.

End Polling.

Section ResetType.

Lemma contains_str_array (key : string) (types : list string) :
  Py.contains key (JArr (JStr <$> types)) = Ok (bool_decide (key ∈ types)).
Proof.
  simpl. f_equal. induction types as [|t ts IH]; [done|].
  cbn [fmap list_fmap existsb Py.eq_str].
  - rewrite IH. destruct (decide (t = key)) as [->|Hne].
    + rewrite bool_decide_true by done. simpl. symmetry.
      apply bool_decide_eq_true. apply list_elem_of_here.
    + rewrite (bool_decide_false (t = key)) by done. simpl.
      apply bool_decide_ext. rewrite elem_of_cons.
      split; [by right|]. intros [Heq|Hin]; [by subst | done].
Qed.

Lemma default_last_cons {A} (x y : A) (l : list A) :
  default x (last (y :: l)) = default y (last l).
Proof. rewrite last_cons. by destruct (last l). Qed.

(** The loop without [break] ends on the last advertised restart type. *)
Lemma scan_reset_types_last (types : list string) (reset_type : string) :
  scan_reset_types (JStr <$> types) reset_type
  = Ok (default reset_type (last (filter is_restart types))).
Proof.
  revert reset_type. induction types as [|t ts IH]; intros reset_type; [done|].
  cbn [fmap list_fmap scan_reset_types]. rewrite filter_cons.
  fold (is_restart t). destruct (is_restart t) eqn:Ht.
  - rewrite decide_True by done. rewrite default_last_cons. apply IH.
  - rewrite decide_False by (by intros []). apply IH.
Qed.

Lemma select_reset_type_array (preferred : string) (types : list string) :
  select_reset_type preferred (JArr (JStr <$> types))
  = Ok (if bool_decide (preferred ∈ types) then preferred
        else default preferred (last (filter is_restart types))).
Proof.
  unfold select_reset_type. rewrite contains_str_array. munfold.
  destruct (bool_decide (preferred ∈ types)); [done|].
  cbn [negb Py.iter]. apply scan_reset_types_last.
Qed.

(** The reset type chosen is never "ForceOff". *)
Lemma select_reset_type_not_ForceOff (types : json) (rt : string) :
  select_reset_type "GracefulRestart" types = Ok rt → rt ≠ "ForceOff".
Proof.
  unfold select_reset_type. munfold.
  destruct (Py.contains "GracefulRestart" types) as [[|]|e]; simpl; [by intros [= <-] | | done].
  destruct (Py.iter types) as [items|e]; [|done].
  assert (H : ∀ cur, cur ≠ "ForceOff" →
            scan_reset_types items cur = Ok rt → rt ≠ "ForceOff").
  { induction items as [|v items IH]; intros cur Hcur; simpl; [by intros [= <-]|].
    destruct v as [| | |t| |]; try done.
    destruct (PyStr.contains "restart" (PyStr.lower t)) eqn:Ht; [|by apply IH].
    apply IH. intros ->. by vm_compute in Ht. }
  by apply H.
Qed.

End ResetType.

Section Reboot.

Context (self : Badfish).

Let sys := system_uri self.

Lemma bind_ok {A B} (m : M A) (k : A → M B) (w w' : World) (a : A) :
  m w = (Ok a, w') → (m ≫= k) w = k a w'.
Proof. intros H. unfold mbind, M_bind. by rewrite H. Qed.

Lemma bind_raise {A B} (m : M A) (k : A → M B) (w w' : World) (e : exn) :
  m w = (Raise e, w') → (m ≫= k) w = (Raise e, w').
Proof. intros H. unfold mbind, M_bind. by rewrite H. Qed.

Lemma bind_assoc {A B C} (m : M A) (k : A → M B) (h : B → M C) (w : World) :
  ((m ≫= k) ≫= h) w = (m ≫= λ a, k a ≫= h) w.
Proof. unfold mbind, M_bind. by destruct (m w) as [[a|e] w']. Qed.

Lemma resets_sent_log_get uri c w : resets_sent (log_get uri c w) = resets_sent w.
Proof. unfold resets_sent. simpl. rewrite omap_app. simpl. by rewrite app_nil_r. Qed.

Lemma resets_sent_log_post uri reset_type w :
  resets_sent (log_post uri (reset_payload reset_type) w) = resets_sent w ++ [reset_type].
Proof. unfold resets_sent. simpl. by rewrite omap_app. Qed.

Lemma resets_sent_polled uri n w : resets_sent (polled uri n w) = resets_sent w.
Proof.
  induction n as [|n IH]; [done|]. simpl.
  change (Nat.iter n (log_get uri true) w) with (polled uri n w).
  by rewrite resets_sent_log_get.
Qed.

Lemma get_power_state_run w :
  get_power_state self w
  = (read_power_state (get_replies w (gets w)), log_get sys true w).
Proof.
  unfold get_power_state, get_request. munfold.
  by destruct (get_replies w (gets w)).
Qed.

(** A poll of the power state: one tolerant request, then the lowered
    state or the exception. *)
Lemma observe_run {B} (k : string → M B) w :
  (get_power_state self ≫= λ power_state, lift (Py.lower power_state) ≫= k) w
  = match observed (get_replies w (gets w)) with
    | Ok current => k current (log_get sys true w)
    | Raise e => (Raise e, log_get sys true w)
    end.
Proof.
  unfold mbind at 1. unfold M_bind at 1. rewrite get_power_state_run.
  unfold observed. munfold.
  destruct (read_power_state (get_replies w (gets w))) as [v|e]; [|done].
  by destruct (Py.lower v).
Qed.

Lemma get_reset_types_run w r :
  get_replies w (gets w) = Some r →
  get_reset_types self false w
  = (read_reset_types "#ComputerSystem.Reset" (Some r), log_get sys false w).
Proof.
  intros Hr. unfold get_reset_types, get_request. munfold. by rewrite Hr.
Qed.

Lemma polling_loop_step state equals n w :
  polling_loop self state equals (S n) w
  = match observed (get_replies w (gets w)) with
    | Ok current =>
        if wanted state equals current then (Ok true, log_get sys true w)
        else polling_loop self state equals n (log_get sys true w)
    | Raise e => (Raise e, log_get sys true w)
    end.
Proof.
  cbn [polling_loop]. rewrite observe_run.
  destruct (observed (get_replies w (gets w))) as [current|e]; [|done].
  by destruct (wanted state equals current).
Qed.

(** Whatever a poll sees, it only issues tolerant requests for the system
    resource. *)
Lemma polling_loop_polls state equals n w :
  ∃ out k, polling_loop self state equals n w = (out, polled sys k w).
Proof.
  revert w. induction n as [|n IH]; intros w.
  - by exists (Ok false), O.
  - rewrite polling_loop_step.
    destruct (observed (get_replies w (gets w))) as [current|e].
    + destruct (wanted state equals current).
      * by exists (Ok true), 1%nat.
      * destruct (IH (log_get sys true w)) as (out & k & ->).
        exists out, (S k). by rewrite polled_succ_r.
    + by exists (Raise e), 1%nat.
Qed.

Lemma send_reset_sent reset_type w :
  ∃ out, send_reset self reset_type w
         = (out, log_post (reset_uri self) (reset_payload reset_type) w).
Proof.
  destruct (send_reset_run self reset_type w) as [Hacc Hrej].
  destruct (accepted_dec (post_replies w (posts w))) as [Ha|Hn].
  - exists (Ok ()). by apply Hacc.
  - destruct (Hrej Hn) as [e ->]. by exists (Raise e).
Qed.

(** The start of a graceful reboot of a host that is on: the two
    requests, then the rest of the method from the first reset on. *)
Lemma reboot_server_start w r types rt :
  get_replies w (gets w) = Some r →
  read_reset_types "#ComputerSystem.Reset" (Some r) = Ok types →
  select_reset_type "GracefulRestart" types = Ok rt →
  observed (get_replies w (gets w + 1)) = Ok "on" →
  reboot_server self true w
  = ((send_reset self rt;;
      host_down ← polling_host_state self "Off" true;
      if negb host_down then send_reset self "ForceOff" else mret ());;
     host_not_down ← polling_host_state self "Down" false;
     (if host_not_down : bool then send_reset self "On" else mret ());;
     mret true) (log_get sys true (log_get sys false w)).
Proof.
  intros Hr Htypes Hsel Hon. unfold reboot_server.
  rewrite (bind_ok _ _ w (log_get sys false w) types)
    by (by rewrite (get_reset_types_run w r Hr), Htypes).
  rewrite (bind_ok _ _ _ (log_get sys false w) rt)
    by (unfold lift; by rewrite Hsel).
  rewrite observe_run.
  replace (gets (log_get sys false w)) with (gets w + 1)%nat by (simpl; lia).
  cbn [get_replies log_get]. rewrite Hon. done.
Qed.

(** Second phase in general: at most the reset "On" is posted. *)
Lemma power_on_phase_sent w :
  ∃ out w',
    (host_not_down ← polling_host_state self "Down" false;
     (if host_not_down : bool then send_reset self "On" else mret ());;
     mret true) w = (out, w') ∧
    (resets_sent w' = resets_sent w ∨ resets_sent w' = resets_sent w ++ ["On"]).
Proof.
  unfold polling_host_state.
  destruct (polling_loop_polls "Down" false (Z.to_nat (retries self)) w)
    as ([[|]|e] & k & Hpoll).
  - rewrite (bind_ok _ _ _ _ _ Hpoll).
    destruct (send_reset_sent "On" (polled sys k w)) as [[[]|e] Hsend].
    + rewrite (bind_ok _ _ _ _ _ Hsend). eexists _, _. split; [done|].
      right. by rewrite resets_sent_log_post, resets_sent_polled.
    + rewrite (bind_raise _ _ _ _ _ Hsend). eexists _, _. split; [done|].
      right. by rewrite resets_sent_log_post, resets_sent_polled.
  - rewrite (bind_ok _ _ _ _ _ Hpoll). eexists _, _. split; [done|].
    left. by rewrite resets_sent_polled.
  - rewrite (bind_raise _ _ _ _ _ Hpoll). eexists _, _. split; [done|].
    left. by rewrite resets_sent_polled.
Qed.

End Reboot.

Section ResetSelection.

Context (self : Badfish).

Lemma grows_bind {A B} (m : M A) (k : A → M B) :
  grows m → (∀ a, grows (k a)) → grows (m ≫= k).
Proof.
  intros Hm Hk w. unfold mbind, M_bind.
  destruct (Hm w) as [rest1 H1]. destruct (m w) as [[a|e] w1]; simpl in *.
  - destruct (Hk a w1) as [rest2 H2]. exists (rest1 ++ rest2).
    by rewrite H2, H1, app_assoc.
  - by exists rest1.
Qed.

Lemma grows_mret {A} (a : A) : grows (mret a).
Proof. intros w. exists []. by rewrite app_nil_r. Qed.

Lemma grows_send_reset reset_type : grows (send_reset self reset_type).
Proof.
  intros w. destruct (send_reset_sent self reset_type w) as [out ->].
  exists [reset_type]. apply resets_sent_log_post.
Qed.

Lemma grows_polling_host_state state equals :
  grows (polling_host_state self state equals).
Proof.
  intros w. unfold polling_host_state.
  destruct (polling_loop_polls self state equals (Z.to_nat (retries self)) w)
    as (out & k & ->).
  exists []. simpl. by rewrite resets_sent_polled, app_nil_r.
Qed.

(** C7, as amended.  When the advertised reset types do not contain
    GracefulRestart, the graceful reboot path selects the last advertised
    type whose lowered name contains "restart" (GracefulRestart itself when
    there is none), and this is the first reset it posts for a host that
    is on. *)
Theorem reboot_server_selects_last_restart
    (w : World) (r : Response) (types : list string)
    (Hreply : get_replies w (gets w) = Some r)
    (Htypes : read_reset_types "#ComputerSystem.Reset" (Some r)
              = Ok (JArr (JStr <$> types)))
    (Hnot : "GracefulRestart" ∉ types)
    (Hon : observed (get_replies w (gets w + 1)) = Ok "on") :
  let rt := default "GracefulRestart" (last (filter is_restart types)) in
  select_reset_type "GracefulRestart" (JArr (JStr <$> types)) = Ok rt ∧
  ∃ out w' rest, reboot_server self true w = (out, w') ∧
                 resets_sent w' = resets_sent w ++ rt :: rest.
Proof.
  intros rt.
  assert (Hsel : select_reset_type "GracefulRestart" (JArr (JStr <$> types)) = Ok rt).
  { rewrite select_reset_type_array. by rewrite bool_decide_false. }
  split; [exact Hsel|].
  rewrite (reboot_server_start self w r _ rt Hreply Htypes Hsel Hon).
  set (w2 := log_get (system_uri self) true (log_get (system_uri self) false w)).
  set (tail :=
    (host_down ← polling_host_state self "Off" true;
     if negb host_down then send_reset self "ForceOff" else mret ());;
    host_not_down ← polling_host_state self "Down" false;
    (if host_not_down : bool then send_reset self "On" else mret ());;
    mret true).
  assert (Htail : grows tail).
  { unfold tail. apply grows_bind.
    - apply grows_bind; [apply grows_polling_host_state|].
      intros [|]; [apply grows_mret | apply grows_send_reset].
    - intros _. apply grows_bind; [apply grows_polling_host_state|].
      intros host_not_down. apply grows_bind; [|intros _; apply grows_mret].
      destruct host_not_down; [apply grows_send_reset | apply grows_mret]. }
  assert (Hsent2 : resets_sent w2 = resets_sent w).
  { unfold w2. by rewrite !resets_sent_log_get. }
  destruct (send_reset_sent self rt w2) as [[[]|e] Hsend].
  - destruct (Htail (log_post (reset_uri self) (reset_payload rt) w2)) as [rest Hrest].
    exists (tail (log_post (reset_uri self) (reset_payload rt) w2)).1,
           (tail (log_post (reset_uri self) (reset_payload rt) w2)).2, rest.
    split.
    + rewrite bind_assoc, (bind_ok _ _ _ _ _ Hsend). apply surjective_pairing.
    + rewrite Hrest, resets_sent_log_post, Hsent2. by rewrite <-app_assoc.
  - eexists (Raise e), _, []. split.
    + unfold mbind, M_bind. by rewrite Hsend.
    + by rewrite resets_sent_log_post, Hsent2.
Qed.

End ResetSelection.

Section ResetSelectionExamples.

Lemma reboot_server_selects_last_restart_witness :
  select_reset_type "GracefulRestart" (JArr (JStr <$> two_restarts))
    = Ok "PowerCycleRestart" ∧
  ∃ out w' rest, reboot_server r640 true reboot_two_restarts = (out, w') ∧
                 resets_sent w' = "PowerCycleRestart" :: rest.
Proof.
  assert (Hnot : "GracefulRestart" ∉ two_restarts).
  { apply (bool_decide_unpack _). vm_compute. exact I. }
  exact (reboot_server_selects_last_restart r640 reboot_two_restarts _ two_restarts
           eq_refl eq_refl Hnot eq_refl).
Defined.

(** C7, as stated, fails: with ForceRestart and PowerCycleRestart
    advertised in that order and no GracefulRestart, the reset posted is
    the second of them, not the first. *)
Lemma reboot_server_not_first_restart :
  ("GracefulRestart" ∉ two_restarts) ∧
  filter is_restart two_restarts = ["ForceRestart"; "PowerCycleRestart"] ∧
  spec_select_reset_type "GracefulRestart" two_restarts = "ForceRestart" ∧
  select_reset_type "GracefulRestart" (JArr (JStr <$> two_restarts))
    = Ok "PowerCycleRestart" ∧
  resets_sent (reboot_server r640 true reboot_two_restarts).2
    = ["PowerCycleRestart"; "ForceOff"; "On"] ∧
  select_reset_type "GracefulRestart" (JArr (JStr <$> two_restarts))
    ≠ Ok (spec_select_reset_type "GracefulRestart" two_restarts).
Proof.
  split_and!; [ apply (bool_decide_unpack _); vm_compute; exact I
              | vm_compute; reflexivity.. | vm_compute; discriminate ].
Qed.

End ResetSelectionExamples.

Section Orchestrator.

Lemma length_finish tasks slots i :
  length (finish tasks slots i) = length slots.
Proof. unfold finish. destruct (tasks !! i); [apply length_insert | done]. Qed.

Lemma foldl_finish_lookup tasks finished slots i :
  length slots = length tasks →
  foldl (finish tasks) slots finished !! i
  = if decide (i ∈ finished) then (Some ∘ task_entry) <$> tasks !! i else slots !! i.
Proof.
  revert slots. induction finished as [|j finished IH]; intros slots Hlen; simpl.
  - done.
  - rewrite IH by (by rewrite length_finish).
    destruct (decide (i ∈ finished)) as [Hin|Hnin].
    + rewrite decide_True; [done | by right].
    + unfold finish. destruct (decide (i = j)) as [->|Hne].
      * rewrite decide_True by left.
        destruct (tasks !! j) as [t|] eqn:Ht; simpl.
        -- apply list_lookup_insert_eq. rewrite Hlen. by eapply lookup_lt_Some.
        -- apply lookup_ge_None. rewrite Hlen. by apply lookup_ge_None.
      * rewrite decide_False by (intros [?|?]%elem_of_cons; done).
        destruct (tasks !! j); [by apply list_lookup_insert_ne | done].
Qed.

Lemma gather_complete tasks finished :
  (∀ i, (i < length tasks)%nat → i ∈ finished) →
  gather tasks finished = (Some ∘ task_entry) <$> tasks.
Proof.
  intros Hall. apply list_eq. intros i. unfold gather.
  rewrite foldl_finish_lookup by apply length_replicate.
  rewrite list_lookup_fmap.
  destruct (decide (i ∈ finished)) as [|Hnin]; [done|].
  destruct (tasks !! i) as [t|] eqn:Ht.
  - exfalso. apply Hnin, Hall. by eapply lookup_lt_Some.
  - simpl. apply lookup_ge_None. rewrite length_replicate. by apply lookup_ge_None.
Qed.

Lemma task_entry_outcome (t : Task) :
  (session_outcome t = Ok () → task_entry t = Returned (task_host t) true) ∧
  (session_outcome t = Raise BadfishException →
   task_entry t = Returned (task_host t) false) ∧
  (∀ e, e ≠ BadfishException → session_outcome t = Raise e →
   task_entry t = Exception e).
Proof.
  unfold session_outcome, task_entry, execute_badfish.
  destruct (task_session t (task_world t)) as [[[]|e] w']; simpl.
  - split_and!; [done | done | by intros e _ [=]].
  - split_and!; [done | by intros [= ->] |].
    intros e' Hne [= ->]. by destruct e'.
Qed.




(** The loop of [main] over such a result does not get past the
    exception. *)
Example report_stops_at_exception :
  report [ Returned "rack1-u1-b01-640" true; Exception AttributeError;
           Returned "rack1-u3-b03-640" true ] true
  = Raise TypeError.
Proof. reflexivity. Qed.

End Orchestrator.

Section Permits.

Import Pool.

Lemma step_balanced run run' :
  step run run' → Forall balanced run →
  Forall balanced run' ∧ length run' = length run.
Proof.
  intros Hstep Hbal. destruct Hstep as [run i s Hs Hpos | run i s Hs Hpos].
  - split; [|apply length_insert]. apply Forall_insert; [done|].
    pose proof (Forall_lookup_1 _ _ _ _ Hbal Hs) as Hb.
    unfold balanced, enter in *. simpl. lia.
  - split; [|apply length_insert]. apply Forall_insert; [done|].
    pose proof (Forall_lookup_1 _ _ _ _ Hbal Hs) as Hb.
    unfold balanced, leave in *. simpl. lia.
Qed.

Lemma reachable_balanced hosts run :
  reachable hosts run → Forall balanced run ∧ length run = hosts.
Proof.
  unfold reachable. intros Hreach.
  eapply (rtc_ind_r (λ run, Forall balanced run ∧ length run = hosts));
    [| |exact Hreach].
  - split; [|apply length_replicate]. by apply Forall_replicate.
  - intros run1 run2 _ Hstep [Hbal Hlen].
    destruct (step_balanced _ _ Hstep Hbal) as [Hbal' Hlen']. split; [done|lia].
Qed.

Lemma sum_list_bounded (bound : nat) (l : list nat) :
  Forall (λ x, (x ≤ bound)%nat) l → (sum_list l ≤ bound * length l)%nat.
Proof. induction 1 as [|x l Hx _ IH]; simpl; lia. Qed.

(** C3, as amended.  Every session of a run has its own pool of 50
    permits.  In every state the run can reach, each session has at most
    50 requests in flight, its permits and its requests in flight add up
    to 50, and the requests in flight across the run are at most 50 times
    the number of sessions. *)
Theorem permits_are_per_session (hosts : nat) (run : list Session)
    (Hreach : reachable hosts run) :
  length run = hosts ∧
  Forall (λ s, (in_flight s ≤ 50)%nat ∧ (semaphore s + in_flight s = 50)%nat) run ∧
  (total_in_flight run ≤ 50 * hosts)%nat.
Proof.
  destruct (reachable_balanced hosts run Hreach) as [Hbal Hlen].
  split_and!; [done | |].
  - eapply Forall_impl; [exact Hbal|]. unfold balanced. intros s Hs. lia.
  - unfold total_in_flight. rewrite <-Hlen, <-(length_fmap in_flight run).
    apply sum_list_bounded. apply Forall_fmap.
    eapply Forall_impl; [exact Hbal|]. unfold balanced. intros s Hs. simpl. lia.
Qed.

Lemma permits_are_per_session_witness :
  reachable 2 [busy; init] ∧ (total_in_flight [busy; init] ≤ 50 * 2)%nat.
Proof.
  assert (Hreach : reachable 2 [busy; init]).
  { unfold reachable. eapply rtc_l; [|apply rtc_refl].
    refine (step_enter (start 2) 0 init eq_refl _). simpl. lia. }
  split; [exact Hreach|].
  exact (proj2 (proj2 (permits_are_per_session 2 [busy; init] Hreach))).
Defined.

Lemma reachable_all_busy (waiting started : nat) :
  rtc step (replicate started busy ++ replicate waiting init)
           (replicate (started + waiting) busy).
Proof.
  revert started. induction waiting as [|waiting IH]; intros started.
  - rewrite app_nil_r, Nat.add_0_r. apply rtc_refl.
  - eapply rtc_l.
    + apply (step_enter _ started init); [|simpl; lia].
      rewrite lookup_app_r by (by rewrite length_replicate).
      by rewrite length_replicate, Nat.sub_diag.
    + rewrite insert_app_r_alt by (by rewrite length_replicate).
      rewrite length_replicate, Nat.sub_diag. simpl.
      replace (started + S waiting)%nat with (S started + waiting)%nat by lia.
      fold busy. rewrite cons_middle, app_assoc.
      replace (replicate started busy ++ [busy]) with (replicate (S started) busy)
        by (by rewrite replicate_S_end).
      apply IH.
Qed.

(** C3, as stated, fails: with 200 hosts the run reaches a state in which
    every session has one request in flight, 200 in all, and no session
    has used more than one of its own 50 permits. *)
Lemma two_hundred_in_flight :
  reachable 200 (replicate 200 busy) ∧
  total_in_flight (replicate 200 busy) = 200%nat ∧
  ¬ (∀ run, reachable 200 run → (total_in_flight run ≤ 50)%nat).
Proof.
  assert (Hreach : reachable 200 (replicate 200 busy))
    by apply (reachable_all_busy 200 0).
  assert (Htotal : total_in_flight (replicate 200 busy) = 200%nat)
    by (vm_compute; reflexivity).
  split_and!; [done..|].
  intros Hbound. specialize (Hbound _ Hreach). rewrite Htotal in Hbound. lia.
Qed.

End Permits.

(* ================================================================== *)
(** * Further properties of the code *)
(* ================================================================== *)

Section InterfacesLookupMore.

Lemma split_not_nil sep s : PyStr.split sep s ≠ [].
Proof.
  destruct s as [|c s]; simpl; [done|].
  destruct (Ascii.eqb c sep); [done|]. by destruct (PyStr.split sep s).
Qed.

Lemma string_app_cons c (a b : string) : String c a +:+ b = String c (a +:+ b).
Proof. reflexivity. Qed.

(** Joining the pieces of a split with the separator gives the string
    back. *)
Lemma join_split sep s :
  PyStr.join (String sep EmptyString) (PyStr.split sep s) = s.
Proof.
  induction s as [|c s IH]; [done|]. cbn [PyStr.split].
  pose proof (split_not_nil sep s) as Hne.
  destruct (Ascii.eqb c sep) eqn:Hc.
  - apply Ascii.eqb_eq in Hc as ->.
    destruct (PyStr.split sep s) as [|piece rest]; [done|].
    change (PyStr.join (String sep "") ("" :: piece :: rest))
      with (String sep (PyStr.join (String sep "") (piece :: rest))).
    by rewrite IH.
  - destruct (PyStr.split sep s) as [|piece rest]; [done|].
    destruct rest as [|piece' rest].
    + simpl in *. by rewrite IH.
    + change (PyStr.join (String sep "") (String c piece :: piece' :: rest))
        with (String c (PyStr.join (String sep "") (piece :: piece' :: rest))).
      by rewrite IH.
Qed.

Lemma interfaces_loop_Ok n definitions prefix host_model tried0 devices tried :
  interfaces_loop n definitions prefix host_model tried0 = (Ok devices, tried) →
  ∃ key v, last tried = Some key ∧ definitions !! key = Some v ∧
           PyStr.truthy v = true ∧ devices = PyStr.split "," v.
Proof.
  revert prefix tried0. induction n as [|n IH]; intros prefix tried0; simpl; [done|].
  destruct (definitions !! interfaces_key prefix host_model) as [v|] eqn:Hv;
    [|by apply IH].
  destruct (PyStr.truthy v) eqn:Ht; [|by apply IH].
  intros [= <- <-]. exists (interfaces_key prefix host_model), v.
  by rewrite last_snoc.
Qed.

(** X1.  A host whose short name has fewer than four dash-separated
    components makes [get_interfaces_by_type] raise IndexError before any
    key is looked up; the error is not a BadfishException. *)
Theorem get_interfaces_by_type_short_name
    (host host_type : string) (definitions : gmap string string)
    (Hshort : (length (host_components host) < 4)%nat) :
  get_interfaces_by_type host host_type definitions = (Raise IndexError, []).
Proof.
  unfold get_interfaces_by_type.
  destruct (host_components host) as [|a [|b [|c [|d rest]]]];
    simpl in Hshort; try lia; reflexivity.
Qed.

Lemma get_interfaces_by_type_short_name_witness :
  get_interfaces_by_type "mgmt-r640.example.com" "foreman" two_types
  = (Raise IndexError, []).
Proof.
  apply get_interfaces_by_type_short_name. vm_compute. lia.
Defined.

(** X2.  Whenever [get_interfaces_by_type] returns a device list, the list
    is not empty, and joined with commas it is the value that the mapping
    holds under the last key looked up. *)
Theorem get_interfaces_by_type_returns_stored_value
    (host host_type : string) (definitions : gmap string string)
    (devices tried : list string)
    (Hfound : get_interfaces_by_type host host_type definitions = (Ok devices, tried)) :
  devices ≠ [] ∧
  ∃ key, last tried = Some key ∧
         definitions !! key = Some (PyStr.join "," devices).
Proof.
  unfold get_interfaces_by_type in Hfound.
  destruct (index_from_end (host_components host) 1) as [host_model|]; [|done].
  destruct (index_from_end (host_components host) 2) as [host_blade|]; [|done].
  destruct (index_from_end (host_components host) 3) as [uloc|]; [|done].
  destruct (index_from_end (host_components host) 4) as [rack|]; [|done].
  apply interfaces_loop_Ok in Hfound as (key & v & Hlast & Hv & _ & ->).
  split; [apply split_not_nil|].
  exists key. split; [done|]. by rewrite join_split.
Qed.

Lemma get_interfaces_by_type_returns_stored_value_witness :
  ∃ key, last [ "foreman_rack1_u2_640_b03_interfaces";
                "foreman_rack1_640_b03_interfaces" ] = Some key ∧
         two_types !! key
         = Some (PyStr.join "," ["NIC.Integrated.1-1-1"; "NIC.Slot.4-1-1"]).
Proof.
  refine (proj2 (get_interfaces_by_type_returns_stored_value
                   "rack1-u2-b03-640.example.com" "foreman" two_types _ _ _)).
  vm_compute. reflexivity.
Defined.

End InterfacesLookupMore.

Section HostTypes.

(** X3.  [get_host_types_from_yaml] returns the host types of the keys of
    the mapping (the text of each key before its first underscore), each
    of them once, in ascending order. *)
Theorem get_host_types_from_yaml_sorted_set (definitions : gmap string string) :
  StronglySorted String.le (get_host_types_from_yaml definitions) ∧
  NoDup (get_host_types_from_yaml definitions) ∧
  ∀ host_type,
    host_type ∈ get_host_types_from_yaml definitions ↔
    ∃ key, is_Some (definitions !! key) ∧ key_host_type key = host_type.
Proof.
  unfold get_host_types_from_yaml. split_and!.
  - apply StronglySorted_merge_sort; apply _.
  - rewrite merge_sort_Permutation. apply NoDup_elements.
  - intros host_type.
    rewrite merge_sort_Permutation, elem_of_elements, elem_of_list_to_set,
      list_elem_of_fmap.
    split.
    + intros (key & -> & Hkey). exists key. split; [|done].
      apply list_elem_of_fmap in Hkey as ([key' v] & -> & Hkv).
      apply elem_of_map_to_list in Hkv. by exists v.
    + intros (key & [v Hv] & <-). exists key. split; [done|].
      apply list_elem_of_fmap. exists (key, v). split; [done|].
      by apply elem_of_map_to_list.
Qed.

Example get_host_types_from_yaml_two_types :
  get_host_types_from_yaml two_types = ["director"; "foreman"].
Proof. vm_compute. reflexivity. Qed.

End HostTypes.

Section BootOrderMore.

Implicit Types (interfaces valid : list string) (devices : list BootDevice).

Lemma assign_index_Enabled interface i devices :
  Enabled <$> (assign_index interface i devices).1 = Enabled <$> devices.
Proof.
  induction devices as [|d ds IH]; simpl; [done|].
  destruct (decide (interface = Name d)).
  - by destruct (decide (Index d ≠ i)).
  - destruct (assign_index interface i ds) as [ds' c]; csimpl in *. by f_equal.
Qed.

Lemma assign_indices_Enabled valid i devices change :
  Enabled <$> (assign_indices valid i devices change).1 = Enabled <$> devices.
Proof.
  revert i devices change.
  induction valid as [|x xs IH]; intros i devices change; simpl; [done|].
  destruct (assign_index x i devices) as [devices1 c] eqn:H1.
  rewrite IH. by rewrite <-(assign_index_Enabled x i devices), H1.
Qed.

Lemma BootDevice_eq (d1 d2 : BootDevice) :
  Name d1 = Name d2 → Index d1 = Index d2 → Enabled d1 = Enabled d2 → d1 = d2.
Proof. destruct d1, d2; simpl. by intros -> -> ->. Qed.

(** X4.  [change_boot_order] never adds, drops, renames, enables or
    disables a device: the list it leaves has the length, the names and
    the enabled flags of the live list, position by position. *)
Theorem change_boot_order_keeps_devices interfaces devices :
  length (change_boot_order interfaces devices).1 = length devices ∧
  Name <$> (change_boot_order interfaces devices).1 = Name <$> devices ∧
  Enabled <$> (change_boot_order interfaces devices).1 = Enabled <$> devices.
Proof.
  assert (Hnames : Name <$> (change_boot_order interfaces devices).1 = Name <$> devices)
    by apply assign_indices_names.
  split_and!; [|done|apply assign_indices_Enabled].
  by rewrite <-(length_fmap Name), Hnames, length_fmap.
Qed.

(** X5.  When the valid entries of the template are pairwise distinct,
    [change_boot_order] leaves the first device called by the j-th valid
    entry with index j, and every device that is not the first of a
    template name exactly as it was. *)
Theorem change_boot_order_assigns_positions interfaces devices
    (Hdistinct : NoDup (valid_devices interfaces devices)) :
  (∀ (j : nat) name p,
     valid_devices interfaces devices !! j = Some name →
     first_named name devices = Some p →
     ∃ d, (change_boot_order interfaces devices).1 !! p = Some d ∧
          Name d = name ∧ Index d = Z.of_nat j) ∧
  (∀ p d, devices !! p = Some d → ¬ reordered interfaces devices p →
          (change_boot_order interfaces devices).1 !! p = Some d).
Proof.
  assert (Hlookup : ∀ p d, devices !! p = Some d →
            ∃ d', (change_boot_order interfaces devices).1 !! p = Some d').
  { intros p d Hd. apply lookup_lt_is_Some.
    rewrite (proj1 (change_boot_order_keeps_devices interfaces devices)).
    by eapply lookup_lt_Some. }
  split.
  - intros j name p Hj Hf.
    destruct (first_named_Some _ _ _ Hf) as (d0 & Hd0 & Hname0).
    destruct (Hlookup p d0 Hd0) as [d' Hd'].
    exists d'. split; [done|].
    destruct (assign_indices_lookup _ _ _ _ _ _ Hd')
      as (d & Hd & Hname & [[_ Hnone]|(j' & name' & Hj' & Hf' & Hidx)]).
    + exfalso. apply (Hnone name); [|done]. by eapply list_elem_of_lookup_2.
    + assert (name' = name) as -> by (by eapply first_named_inj).
      rewrite (NoDup_lookup _ j j' name Hdistinct Hj Hj').
      split; [congruence | lia].
  - intros p d Hd Hnot.
    destruct (Hlookup p d Hd) as [d' Hd']. rewrite Hd'. f_equal.
    destruct (assign_indices_lookup _ _ _ _ _ _ Hd')
      as (d0 & Hd0 & Hname & [[Hidx _]|(j' & name' & Hj' & Hf' & _)]).
    + assert (d0 = d) as -> by congruence.
      apply BootDevice_eq; [done..|].
      pose proof (assign_indices_Enabled (valid_devices interfaces devices)
                    0 devices false) as Hen.
      apply (f_equal (λ l, l !! p)) in Hen. rewrite !list_lookup_fmap in Hen.
      change (assign_indices (valid_devices interfaces devices) 0 devices false)
        with (change_boot_order interfaces devices) in Hen.
      rewrite Hd', Hd in Hen. by injection Hen.
    + exfalso. apply Hnot. exists name'. split; [|done].
      apply list_elem_of_lookup_2 in Hj'.
      by apply elem_of_valid_devices in Hj' as [? _].
Qed.

Lemma change_boot_order_assigns_positions_witness :
  ∃ d, (change_boot_order ["NIC.Slot.4-1-1"; "NIC.Integrated.1-1-1"] three_devices).1
         !! 0%nat = Some d ∧
       Name d = "NIC.Integrated.1-1-1" ∧ Index d = 1.
Proof.
  assert (Hd : NoDup (valid_devices ["NIC.Slot.4-1-1"; "NIC.Integrated.1-1-1"]
                        three_devices)).
  { apply (bool_decide_unpack _). vm_compute. exact I. }
  exact (proj1 (change_boot_order_assigns_positions _ _ Hd)
           1%nat "NIC.Integrated.1-1-1" 0%nat eq_refl eq_refl).
Defined.

Lemma assign_index_unchanged interface i devices :
  (assign_index interface i devices).2 = false →
  (assign_index interface i devices).1 = devices.
Proof.
  induction devices as [|d ds IH]; simpl; [done|].
  destruct (decide (interface = Name d)).
  - by destruct (decide (Index d ≠ i)).
  - destruct (assign_index interface i ds) as [ds' c]; simpl in *.
    intros Hc. by rewrite IH.
Qed.

Lemma assign_indices_flag_stays valid i devices :
  (assign_indices valid i devices true).2 = true.
Proof.
  revert i devices. induction valid as [|x xs IH]; intros i devices; simpl; [done|].
  destruct (assign_index x i devices) as [devices1 c]. apply IH.
Qed.

Lemma assign_indices_unchanged valid i devices change :
  (assign_indices valid i devices change).2 = false →
  (assign_indices valid i devices change).1 = devices.
Proof.
  revert i devices change.
  induction valid as [|x xs IH]; intros i devices change; simpl; [done|].
  destruct (assign_index x i devices) as [devices1 c] eqn:H1. intros Hflag.
  assert (Hc : c = false).
  { destruct c; [|done]. rewrite orb_true_r in Hflag.
    by rewrite assign_indices_flag_stays in Hflag. }
  rewrite (IH _ _ _ Hflag).
  pose proof (assign_index_unchanged x i devices) as Hx. rewrite H1 in Hx.
  by apply Hx.
Qed.

(** X6.  When [change_boot_order] issues no PATCH, it has not written any
    index either: the device list it leaves is the live list as it was,
    so the flag [change] never misses a write. *)
Theorem change_boot_order_untouched_without_patch interfaces devices
    (Hnone : boot_order_patch interfaces devices = None) :
  (change_boot_order interfaces devices).1 = devices.
Proof.
  unfold boot_order_patch in Hnone.
  destruct (change_boot_order interfaces devices) as [ordered change] eqn:Hrun.
  destruct change; [done|].
  pose proof (assign_indices_unchanged
                (valid_devices interfaces devices) 0 devices false) as H.
  change (assign_indices (valid_devices interfaces devices) 0 devices false)
    with (change_boot_order interfaces devices) in H.
  rewrite Hrun in H. by apply H.
Qed.

Lemma change_boot_order_untouched_without_patch_witness :
  (change_boot_order ["NIC.Integrated.1-1-1"; "NIC.Slot.4-1-1"] three_devices).1
  = three_devices.
Proof.
  by apply (change_boot_order_untouched_without_patch
              ["NIC.Integrated.1-1-1"; "NIC.Slot.4-1-1"] three_devices).
Defined.

End BootOrderMore.

Section HostTypeCheck.

Implicit Types (interfaces : list string) (devices : list BootDevice).

Lemma elem_of_insert_by_index d x sorted :
  x ∈ insert_by_index d sorted ↔ x = d ∨ x ∈ sorted.
Proof.
  induction sorted as [|y ys IH]; simpl.
  - rewrite list_elem_of_singleton. split; [by left | intros [?|?%elem_of_nil]; done].
  - destruct (Index y <? Index d); rewrite !elem_of_cons; [rewrite IH|]; tauto.
Qed.

Lemma elem_of_sorted_by_index x devices :
  x ∈ sorted_by_index devices ↔ x ∈ devices.
Proof.
  induction devices as [|d ds IH]; simpl; [done|].
  rewrite elem_of_insert_by_index, elem_of_cons, IH. done.
Qed.

Lemma match_loop_true interfaces devices :
  match_loop interfaces devices = Ok true ↔ Forall (in_place interfaces) devices.
Proof.
  induction devices as [|d ds IH]; simpl.
  - split; [constructor | done].
  - rewrite Forall_cons. unfold in_place at 1.
    destruct (py_index interfaces (Index d)) as [name|e];
      [|split; [done | by intros [? _]]].
    destruct (decide (Name d = name)) as [<-|Hne].
    + rewrite IH. tauto.
    + split; [done|]. intros [[= ?] _]. done.
Qed.

Lemma boot_order_matches_true interfaces devices :
  boot_order_matches interfaces devices = Ok true ↔
  Forall (in_place interfaces) (take (length interfaces) devices).
Proof.
  unfold boot_order_matches. rewrite match_loop_true, !Forall_forall.
  by setoid_rewrite elem_of_sorted_by_index.
Qed.

Lemma host_type_loop_Some host definitions devices host_types host_type :
  host_type_loop host definitions devices host_types = Ok (Some host_type) →
  host_type ∈ host_types ∧
  ∃ interfaces,
    (get_interfaces_by_type host host_type definitions).1 = Ok interfaces ∧
    boot_order_matches interfaces devices = Ok true.
Proof.
  induction host_types as [|t ts IH]; simpl; [done|].
  destruct (get_interfaces_by_type host t definitions).1 as [interfaces|e] eqn:Hi;
    [|done].
  destruct (boot_order_matches interfaces devices) as [[|]|e] eqn:Hm; [| |done].
  - intros [= <-]. split; [left|]. by exists interfaces.
  - intros H. destruct (IH H) as [Hin Hrest]. split; [by right | done].
Qed.

(** X7.  [get_host_type] answers a host type only if it is the host type
    of a key of the interfaces file, its template is found for this host,
    and each of the first [len(template)] boot devices carries the name
    that the template has at the device's index. *)
Theorem get_host_type_sound
    (host : string) (definitions : gmap string string) devices (host_type : string)
    (Hanswer : get_host_type host definitions devices = Ok (Some host_type)) :
  (∃ key, is_Some (definitions !! key) ∧ key_host_type key = host_type) ∧
  ∃ interfaces,
    (get_interfaces_by_type host host_type definitions).1 = Ok interfaces ∧
    ∀ d, d ∈ take (length interfaces) devices →
         py_index interfaces (Index d) = Ok (Name d).
Proof.
  apply host_type_loop_Some in Hanswer as (Hin & interfaces & Hi & Hm).
  split.
  - unfold get_host_types_from_yaml in Hin.
    rewrite merge_sort_Permutation, elem_of_elements, elem_of_list_to_set,
      list_elem_of_fmap in Hin.
    destruct Hin as (key & -> & Hkey). exists key. split; [|done].
    apply list_elem_of_fmap in Hkey as ([key' v] & -> & Hkv).
    apply elem_of_map_to_list in Hkv. by exists v.
  - exists interfaces. split; [done|].
    apply boot_order_matches_true in Hm. by apply Forall_forall.
Qed.

Lemma get_host_type_sound_witness :
  ∃ interfaces,
    (get_interfaces_by_type "rack1-u2-b03-640" "foreman" two_types).1 = Ok interfaces ∧
    ∀ d, d ∈ take (length interfaces) three_devices →
         py_index interfaces (Index d) = Ok (Name d).
Proof.
  refine (proj2 (get_host_type_sound "rack1-u2-b03-640" two_types three_devices
                   "foreman" _)).
  vm_compute. reflexivity.
Defined.

Lemma host_type_loop_raises host definitions devices before host_type after e :
  (∀ t, t ∈ before → ∃ interfaces,
     (get_interfaces_by_type host t definitions).1 = Ok interfaces ∧
     boot_order_matches interfaces devices = Ok false) →
  (get_interfaces_by_type host host_type definitions).1 = Raise e →
  host_type_loop host definitions devices (before ++ host_type :: after) = Raise e.
Proof.
  intros Hbefore Hraise. induction before as [|t ts IH]; simpl.
  - by rewrite Hraise.
  - destruct (Hbefore t) as (interfaces & -> & ->); [left|].
    apply IH. intros t' Ht'. apply Hbefore. by right.
Qed.

(** X8.  [get_host_type] does not answer when a host type of the file has
    no template for this host: if the host types in front of it do not
    match, the lookup of that type raises and [get_host_type] raises with
    it, whatever the types behind it would give. *)
Theorem get_host_type_raises_without_template
    (host : string) (definitions : gmap string string) devices
    (before after : list string) (host_type : string) (e : exn)
    (Htypes : get_host_types_from_yaml definitions = before ++ host_type :: after)
    (Hbefore : ∀ t, t ∈ before → ∃ interfaces,
       (get_interfaces_by_type host t definitions).1 = Ok interfaces ∧
       boot_order_matches interfaces devices = Ok false)
    (Hraise : (get_interfaces_by_type host host_type definitions).1 = Raise e) :
  get_host_type host definitions devices = Raise e.
Proof.
  unfold get_host_type. rewrite Htypes. by apply host_type_loop_raises.
Qed.

Lemma get_host_type_raises_without_template_witness :
  get_host_type "rack2-u2-b03-640" two_types three_devices = Raise BadfishException.
Proof.
  apply (get_host_type_raises_without_template
           "rack2-u2-b03-640" two_types three_devices ["director"] [] "foreman").
  - vm_compute. reflexivity.
  - intros t Ht. apply list_elem_of_singleton in Ht as ->.
    eexists. split; vm_compute; reflexivity.
  - vm_compute. reflexivity.
Defined.

Lemma filter_all {A} (P : A → Prop) `{∀ x, Decision (P x)} (l : list A) :
  Forall P l → filter P l = l.
Proof.
  induction 1 as [|x l Hx _ IH]; [done|].
  rewrite filter_cons, decide_True by done. by rewrite IH.
Qed.

Lemma first_named_NoDup devices p d :
  NoDup (Name <$> devices) → devices !! p = Some d →
  first_named (Name d) devices = Some p.
Proof.
  revert p. induction devices as [|x xs IH]; intros p Hnd Hp; [done|].
  csimpl in Hnd. apply NoDup_cons in Hnd as [Hx Hnd]. simpl.
  destruct p as [|p]; simpl in Hp.
  - injection Hp as ->. by rewrite decide_True.
  - rewrite decide_False.
    + by rewrite (IH p Hnd Hp).
    + intros Heq. apply Hx. rewrite <-Heq.
      apply list_elem_of_fmap. exists d. split; [done|].
      by eapply list_elem_of_lookup_2.
Qed.

Lemma py_index_lookup {A} (l : list A) (j : nat) (x : A) :
  l !! j = Some x → py_index l (Z.of_nat j) = Ok x.
Proof.
  intros Hj. pose proof (lookup_lt_Some _ _ _ Hj) as Hlt. unfold py_index.
  replace (0 <=? Z.of_nat j) with true by (symmetry; apply Z.leb_le; lia).
  replace (Z.of_nat j <? Z.of_nat (length l)) with true
    by (symmetry; apply Z.ltb_lt; lia).
  simpl. by rewrite Nat2Z.id, Hj.
Qed.

(** X9.  [change_boot_order] and [get_host_type] agree when the first
    [len(template)] live devices are the devices of the template, in any
    order, and no name is repeated: after the indices are assigned, the
    check of the boot order against the same template succeeds. *)
Theorem change_boot_order_then_matches interfaces devices
    (Hnodup : NoDup interfaces)
    (Hnames : NoDup (Name <$> devices))
    (Hfirst : Name <$> take (length interfaces) devices ≡ₚ interfaces) :
  boot_order_matches interfaces (change_boot_order interfaces devices).1 = Ok true.
Proof.
  apply boot_order_matches_true, Forall_lookup. intros p d' Hp.
  apply lookup_take_Some in Hp as [Hp Hlt].
  assert (Hvalid : valid_devices interfaces devices = interfaces).
  { apply filter_all, Forall_forall. intros name Hin.
    rewrite <-Hfirst in Hin.
    apply list_elem_of_fmap in Hin as (d & -> & Hd).
    apply list_elem_of_fmap. exists d. split; [done|].
    by apply (subseteq_take (length interfaces) devices). }
  destruct (assign_indices_lookup _ _ _ _ _ _ Hp)
    as (d & Hd & Hname & [[_ Hnone]|(j & name & Hj & Hf & Hidx)]).
  - exfalso. apply (Hnone (Name d)).
    + rewrite Hvalid, <-Hfirst. apply list_elem_of_fmap. exists d. split; [done|].
      apply list_elem_of_lookup. exists p. by apply lookup_take_Some.
    + by apply first_named_NoDup.
  - destruct (first_named_Some _ _ _ Hf) as (d0 & Hd0 & Hname0).
    assert (d0 = d) as -> by congruence.
    rewrite Hvalid in Hj. unfold in_place.
    rewrite Hidx, Z.add_0_l, Hname, Hname0. by apply py_index_lookup.
Qed.

Lemma change_boot_order_then_matches_witness :
  boot_order_matches ["NIC.Slot.4-1-1"; "NIC.Integrated.1-1-1"]
    (change_boot_order ["NIC.Slot.4-1-1"; "NIC.Integrated.1-1-1"] three_devices).1
  = Ok true.
Proof.
  apply change_boot_order_then_matches.
  - apply (bool_decide_unpack _). vm_compute. exact I.
  - apply (bool_decide_unpack _). vm_compute. exact I.
  - simpl. apply Permutation_swap.
Defined.

End HostTypeCheck.

Section JobStatusMore.

Lemma eq_str_true (message : json) (s : string) :
  Py.eq_str message s = true → message = JStr s.
Proof.
  destruct message; simpl; try done.
  intros H. apply bool_decide_eq_true in H. by subst.
Qed.

Lemma getitem_Ok (data : json) (key : string) (v : json) :
  Py.getitem data key = Ok v →
  ∃ fields, data = JObj fields ∧ Py.lookup_field key fields = Some v.
Proof.
  destruct data as [| | | | |fields]; simpl; try done.
  destruct (Py.lookup_field key fields) as [v'|] eqn:Hv; [|done].
  intros [= <-]. by exists fields.
Qed.

End JobStatusMore.

Section PowerStateMore.

(** X12.  [set_power_state] posts at most one request, and only after the
    system resource was fetched with status 200 and a non-empty
    PowerState: the reset is then ForceOff for the target off and On for
    the target on, whatever the state that was read.  On every other
    path nothing is posted. *)
Theorem set_power_state_one_reset (self : Badfish) (state : string) (w : World) :
  let w' := (set_power_state self state w).2 in
  requests w' = requests w ∨
  requests w' = requests w ++ [GET (system_uri self) true] ∨
  (∃ r fields v,
     get_replies w (gets w) = Some r ∧ status r = 200 ∧
     payload r = Some (JObj fields) ∧
     Py.lookup_field "PowerState" fields = Some v ∧ Py.truthy v = true ∧
     requests w' = requests w ++
       [ GET (system_uri self) true;
         POST (reset_uri self)
           (reset_payload (if bool_decide (PyStr.lower state = "off")
                           then "ForceOff" else "On")) ]).
Proof.
  intros w'. subst w'.
  destruct (set_power_state self state w) as [out w'] eqn:Hrun. cbn [snd].
  unfold set_power_state in Hrun.
  destruct (bool_decide (PyStr.lower state ∈ ["on"; "off"])) eqn:Hvalid;
    cbn [negb] in Hrun; [|injection Hrun as _ <-; by left].
  apply bool_decide_eq_true in Hvalid.
  unfold get_request in Hrun at 1. unfold mbind in Hrun at 1. unfold M_bind in Hrun at 1.
  destruct (get_replies w (gets w)) as [r|] eqn:Hr; cycle 1.
  { destruct (bool_decide (PyStr.lower state = "off"));
      injection Hrun as _ <-; right; by left. }
  destruct (status r =? 200) eqn:Hs; [|injection Hrun as _ <-; right; by left].
  unfold loads, lift in Hrun. munfold.
  destruct (payload r) as [data|] eqn:Hp; [|injection Hrun as _ <-; right; by left].
  destruct (Py.get data "PowerState") as [v|e] eqn:Hget;
    [|injection Hrun as _ <-; right; by left].
  destruct (Py.truthy v) eqn:Hv; cbn [negb] in Hrun;
    [|injection Hrun as _ <-; right; by left].
  destruct data as [| | | | |fields]; try done.
  simpl in Hget. injection Hget as Hget.
  destruct (Py.lookup_field "PowerState" fields) as [v'|] eqn:Hf;
    simpl in Hget; subst; [|done].
  right. right. exists r, fields, v. split_and!; [done|lia|done..|].
  set (reset_type := if bool_decide (PyStr.lower state = "off")
                     then "ForceOff" else "On").
  assert (Hsame : (if bool_decide (PyStr.lower state = "off")
                   then send_reset self "ForceOff"
                   else if bool_decide (PyStr.lower state = "on")
                        then send_reset self "On" else λ w0, (Ok (), w0))
                  = send_reset self reset_type).
  { unfold reset_type. destruct (bool_decide (PyStr.lower state = "off")) eqn:Hoff; [done|].
    rewrite bool_decide_true; [done|].
    apply bool_decide_eq_false in Hoff.
    apply elem_of_cons in Hvalid as [?|Hvalid]; [done|].
    by apply list_elem_of_singleton in Hvalid. }
  rewrite Hsame in Hrun.
  destruct (send_reset_sent self reset_type (log_get (system_uri self) true w))
    as [sent Hsent].
  rewrite Hsent in Hrun.
  assert (w' = log_post (reset_uri self) (reset_payload reset_type)
                 (log_get (system_uri self) true w)) as ->.
  { destruct sent as [[]|e]; [|by injection Hrun as _ <-].
    simpl in Hrun. rewrite Hf in Hrun. by injection Hrun as _ <-. }
  simpl. by rewrite <-app_assoc.
Qed.

(** X13.  The paths of [set_power_state] that end before a state was
    read.  A target that lowers to neither "on" nor "off" raises
    BadfishException before any request.  When the controller does not
    answer, the target off returns [None] without a reset, and the target
    on ends in AttributeError, which is not a BadfishException.  A reply
    with a status other than 200 raises BadfishException. *)
Theorem set_power_state_early_exits (self : Badfish) (state : string) (w : World) :
  (PyStr.lower state ∉ ["on"; "off"] →
   set_power_state self state w = (Raise BadfishException, w)) ∧
  (get_replies w (gets w) = None →
   (PyStr.lower state = "off" →
    set_power_state self state w = (Ok None, log_get (system_uri self) true w)) ∧
   (PyStr.lower state = "on" →
    set_power_state self state w
    = (Raise AttributeError, log_get (system_uri self) true w))) ∧
  (∀ r, get_replies w (gets w) = Some r → status r ≠ 200 →
   PyStr.lower state ∈ ["on"; "off"] →
   set_power_state self state w
   = (Raise BadfishException, log_get (system_uri self) true w)).
Proof.
  unfold set_power_state. split_and!.
  - intros Hinvalid. by rewrite bool_decide_false.
  - intros Hr. split; intros Hs; rewrite Hs;
      (rewrite bool_decide_true by (by repeat constructor)); cbn [negb];
      unfold get_request; munfold; by rewrite Hr.
  - intros r Hr Hs Hvalid. rewrite bool_decide_true by done. cbn [negb].
    unfold get_request. munfold. rewrite Hr.
    by replace (status r =? 200) with false by (symmetry; by apply Z.eqb_neq).
Qed.

Lemma set_power_state_early_exits_witness :
  set_power_state r640 "cycle" (scripted [] []) = (Raise BadfishException, scripted [] []) ∧
  set_power_state r640 "Off" (scripted [timeout] [])
  = (Ok None, log_get (system_uri r640) true (scripted [timeout] [])) ∧
  set_power_state r640 "On" (scripted [timeout] [])
  = (Raise AttributeError, log_get (system_uri r640) true (scripted [timeout] [])) ∧
  set_power_state r640 "On" (scripted [not_found] [])
  = (Raise BadfishException, log_get (system_uri r640) true (scripted [not_found] [])).
Proof.
  split_and!.
  - apply (set_power_state_early_exits r640 "cycle" (scripted [] [])).
    vm_compute. intros H.
    apply elem_of_cons in H as [H|H]; [done|].
    by apply list_elem_of_singleton in H.
  - by apply (set_power_state_early_exits r640 "Off" (scripted [timeout] [])).
  - by apply (set_power_state_early_exits r640 "On" (scripted [timeout] [])).
  - destruct (set_power_state_early_exits r640 "On" (scripted [not_found] []))
      as (_ & _ & Hstatus).
    eapply Hstatus.
    + reflexivity.
    + vm_compute. done.
    + vm_compute. by repeat constructor.
Defined.

End PowerStateMore.

Section RebootMore.

Context (self : Badfish).

Let sys := system_uri self.

(** The head of [reboot_server]: the reset types are read and the power
    state is read once, then the method goes on with the lowered state. *)
Lemma reboot_server_head graceful w r types rt current :
  get_replies w (gets w) = Some r →
  read_reset_types "#ComputerSystem.Reset" (Some r) = Ok types →
  select_reset_type "GracefulRestart" types = Ok rt →
  observed (get_replies w (gets w + 1)) = Ok current →
  reboot_server self graceful w
  = (if bool_decide (current = "on") then
       (if graceful then
          send_reset self rt;;
          host_down ← polling_host_state self "Off" true;
          if negb host_down then send_reset self "ForceOff" else mret ()
        else send_reset self "ForceOff");;
       host_not_down ← polling_host_state self "Down" false;
       (if host_not_down : bool then send_reset self "On" else mret ());;
       mret true
     else if bool_decide (current = "off") then
       send_reset self "On";;
       mret true
     else mret true) (log_get sys true (log_get sys false w)).
Proof.
  intros Hr Htypes Hsel Hcur. unfold reboot_server.
  rewrite (bind_ok _ _ w (log_get sys false w) types)
    by (by rewrite (get_reset_types_run self w r Hr), Htypes).
  rewrite (bind_ok _ _ _ (log_get sys false w) rt)
    by (unfold lift; by rewrite Hsel).
  rewrite observe_run.
  replace (gets (log_get sys false w)) with (gets w + 1)%nat by (simpl; lia).
  cbn [get_replies log_get]. rewrite Hcur. done.
Qed.

(** X14.  Let [reboot_server] read the reset types and then find the host
    in a state other than On.  If the state is Off, the only request
    after the two reads is the reset On, without any polling.  In every
    other state, among them "Down", which stands for a controller that
    did not answer, the method returns True after the two reads and has
    posted nothing. *)
Theorem reboot_server_host_not_on
    (graceful : bool) (w : World) (r : Response) (types : json)
    (rt current : string)
    (Hreply : get_replies w (gets w) = Some r)
    (Htypes : read_reset_types "#ComputerSystem.Reset" (Some r) = Ok types)
    (Hsel : select_reset_type "GracefulRestart" types = Ok rt)
    (Hcur : observed (get_replies w (gets w + 1)) = Ok current)
    (Hnot_on : current ≠ "on") :
  let w2 := log_get sys true (log_get sys false w) in
  (current ≠ "off" → reboot_server self graceful w = (Ok true, w2)) ∧
  (current = "off" →
   ∃ out, reboot_server self graceful w
          = (out, log_post (reset_uri self) (reset_payload "On") w2) ∧
          (accepted (post_replies w (posts w)) → out = Ok true)).
Proof.
  intros w2.
  rewrite (reboot_server_head graceful w r types rt current Hreply Htypes Hsel Hcur).
  fold w2. rewrite (bool_decide_false (current = "on")) by done. split.
  - intros Hnot_off. by rewrite bool_decide_false.
  - intros Hoff. rewrite bool_decide_true by done.
    destruct (send_reset_run self "On" w2) as [Hacc Hrej].
    destruct (accepted_dec (post_replies w2 (posts w2))) as [Ha|Hn].
    + rewrite (bind_ok _ _ _ _ _ (Hacc Ha)). by exists (Ok true).
    + destruct (Hrej Hn) as [e He]. rewrite (bind_raise _ _ _ _ _ He).
      exists (Raise e). split; [done|]. intros Ha. by destruct Hn.
Qed.

(** X15.  A reboot that is not graceful, of a host that is on, posts
    ForceOff as its first reset, whatever reset types the controller
    advertises; the only reset that can follow is On, so the restart type
    that was selected is never sent.  If the controller refuses the
    ForceOff, the method raises with that single reset posted. *)
Theorem reboot_server_not_graceful
    (w : World) (r : Response) (types : json) (rt : string)
    (Hreply : get_replies w (gets w) = Some r)
    (Htypes : read_reset_types "#ComputerSystem.Reset" (Some r) = Ok types)
    (Hsel : select_reset_type "GracefulRestart" types = Ok rt)
    (Hon : observed (get_replies w (gets w + 1)) = Ok "on") :
  ∃ out w', reboot_server self false w = (out, w') ∧
    (resets_sent w' = resets_sent w ++ ["ForceOff"] ∨
     resets_sent w' = resets_sent w ++ ["ForceOff"; "On"]) ∧
    (¬ accepted (post_replies w (posts w)) →
     (∃ e, out = Raise e) ∧ resets_sent w' = resets_sent w ++ ["ForceOff"]).
Proof.
  rewrite (reboot_server_head false w r types rt "on" Hreply Htypes Hsel Hon).
  set (w2 := log_get sys true (log_get sys false w)).
  set (w3 := log_post (reset_uri self) (reset_payload "ForceOff") w2).
  assert (Hsent3 : resets_sent w3 = resets_sent w ++ ["ForceOff"]).
  { unfold w3, w2. by rewrite resets_sent_log_post, !resets_sent_log_get. }
  rewrite bool_decide_true by done.
  destruct (send_reset_run self "ForceOff" w2) as [Hacc Hrej]. fold w3 in Hacc, Hrej.
  destruct (accepted_dec (post_replies w2 (posts w2))) as [Ha|Hn].
  - rewrite (bind_ok _ _ _ _ _ (Hacc Ha)).
    destruct (power_on_phase_sent self w3) as (out & w' & -> & Hsent).
    exists out, w'. split_and!; [done| |by intros []].
    destruct Hsent as [-> | ->]; rewrite Hsent3; [by left|right].
    by rewrite <-app_assoc.
  - destruct (Hrej Hn) as [e He].
    rewrite (bind_raise _ _ _ _ _ He).
    exists (Raise e), w3. split_and!; [done|by left|].
    intros _. split; [by exists e|done].
Qed.

End RebootMore.

Section RebootMoreExamples.

Lemma reboot_server_host_not_on_witness :
  reboot_server r640 true reboot_unreachable
  = (Ok true, log_get (system_uri r640) true
                (log_get (system_uri r640) false reboot_unreachable)) ∧
  ∃ out, reboot_server r640 true reboot_from_off
         = (out, log_post (reset_uri r640) (reset_payload "On")
                   (log_get (system_uri r640) true
                      (log_get (system_uri r640) false reboot_from_off))) ∧
         (accepted (post_replies reboot_from_off (posts reboot_from_off)) →
          out = Ok true).
Proof.
  split.
  - eapply (reboot_server_host_not_on r640 true reboot_unreachable _ _
              "GracefulRestart" "down"); [reflexivity..|done|done].
  - eapply (reboot_server_host_not_on r640 true reboot_from_off _ _
              "GracefulRestart" "off"); [reflexivity..|done|done].
Defined.

Lemma reboot_server_not_graceful_witness :
  ∃ out w', reboot_server r640 false reboot_not_graceful = (out, w') ∧
    (resets_sent w' = resets_sent reboot_not_graceful ++ ["ForceOff"] ∨
     resets_sent w' = resets_sent reboot_not_graceful ++ ["ForceOff"; "On"]) ∧
    (¬ accepted (post_replies reboot_not_graceful (posts reboot_not_graceful)) →
     (∃ e, out = Raise e) ∧
     resets_sent w' = resets_sent reboot_not_graceful ++ ["ForceOff"]).
Proof.
  eapply (reboot_server_not_graceful r640 reboot_not_graceful _ _
            "GracefulRestart"); reflexivity.
Defined.

End RebootMoreExamples.

Section ControllerResets.

Lemma read_reset_types_without_values endpoint reply :
  reset_without_values endpoint reply →
  read_reset_types endpoint reply = Ok JNull.
Proof.
  intros (r & fields & actions & reset & -> & Hp & Ha & He & Hne & Hv).
  unfold read_reset_types, loads. munfold. rewrite Hp. simpl.
  rewrite Ha. rewrite bool_decide_true by done. simpl.
  rewrite He. simpl. destruct reset; [done|]. by rewrite Hv.
Qed.

(** X16.  When the reset action of the resource is a non-empty object
    that does not list ResetType@Redfish.AllowableValues,
    [get_reset_types] returns [None], and the membership test on it ends
    [reboot_server] and [reset_idrac] in TypeError, which is not a
    BadfishException, after the one GET and before anything is posted. *)
Theorem reset_types_not_listed (self : Badfish) (graceful : bool) (w : World) :
  (reset_without_values "#ComputerSystem.Reset" (get_replies w (gets w)) →
   reboot_server self graceful w
   = (Raise TypeError, log_get (system_uri self) false w)) ∧
  (reset_without_values "#Manager.Reset" (get_replies w (gets w)) →
   reset_idrac self w
   = (Raise TypeError, log_get (host_uri self +:+ manager_resource self) false w)).
Proof.
  split; intros Hreset.
  - pose proof (read_reset_types_without_values _ _ Hreset) as Hread.
    destruct Hreset as (r & ? & ? & ? & Hr & _).
    unfold reboot_server, get_reset_types, get_request. munfold.
    rewrite Hr in *. by rewrite Hread.
  - pose proof (read_reset_types_without_values _ _ Hreset) as Hread.
    destruct Hreset as (r & ? & ? & ? & Hr & _).
    unfold reset_idrac, get_reset_types, get_request. munfold.
    rewrite Hr in *. by rewrite Hread.
Qed.

Lemma reset_types_not_listed_witness :
  reboot_server r640 true
    (scripted [target_only "#ComputerSystem.Reset" "/redfish/v1/Systems/System.Embedded.1/Actions/ComputerSystem.Reset"] [])
  = (Raise TypeError,
     log_get (system_uri r640) false
       (scripted [target_only "#ComputerSystem.Reset" "/redfish/v1/Systems/System.Embedded.1/Actions/ComputerSystem.Reset"] [])) ∧
  reset_idrac r640
    (scripted [target_only "#Manager.Reset" "/redfish/v1/Managers/iDRAC.Embedded.1/Actions/Manager.Reset"] [])
  = (Raise TypeError,
     log_get (host_uri r640 +:+ manager_resource r640) false
       (scripted [target_only "#Manager.Reset" "/redfish/v1/Managers/iDRAC.Embedded.1/Actions/Manager.Reset"] [])).
Proof.
  split.
  - apply (reset_types_not_listed r640 true).
    eexists _, _, _, _. split_and!; reflexivity || done.
  - apply (reset_types_not_listed r640 true).
    eexists _, _, _, _. split_and!; reflexivity || done.
Defined.

(** X17.  Let the manager resource advertise the reset types [types].
    [reset_idrac] then posts one request, to the Manager.Reset action,
    with ForceRestart when it is advertised and otherwise the last
    advertised type whose lowered name contains "restart" (ForceRestart
    when there is none).  It returns True exactly when the reply has
    status 204; every other reply, status 200 included, and a failed
    transport give BadfishException. *)
Theorem reset_idrac_outcome
    (self : Badfish) (w : World) (r : Response) (types : list string)
    (Hreply : get_replies w (gets w) = Some r)
    (Htypes : read_reset_types "#Manager.Reset" (Some r) = Ok (JArr (JStr <$> types))) :
  let rt := if bool_decide ("ForceRestart" ∈ types) then "ForceRestart"
            else default "ForceRestart" (last (filter is_restart types)) in
  let w' := log_post (manager_reset_uri self) (reset_payload rt)
              (log_get (host_uri self +:+ manager_resource self) false w) in
  ∃ out, reset_idrac self w = (out, w') ∧
    (out = Ok true ↔ ∃ p, post_replies w (posts w) = Some p ∧ status p = 204) ∧
    (out ≠ Ok true → out = Raise BadfishException).
Proof.
  intros rt w'. unfold reset_idrac, get_reset_types, get_request. munfold.
  rewrite Hreply, Htypes, select_reset_type_array. fold rt.
  unfold post_request. cbn [posts post_replies log_get].
  destruct (post_replies w (posts w)) as [p|] eqn:Hp.
  - destruct (status p =? 204) eqn:Hs.
    + exists (Ok true). split_and!; [done| |done].
      split; [|done]. intros _. exists p. split; [done|lia].
    + exists (Raise BadfishException). split_and!; [done| |done].
      split; [done|]. intros (p' & [= <-] & Hs'). lia.
  - exists (Raise BadfishException). split_and!; [done| |done].
    split; [done|]. by intros (p' & ? & _).
Qed.

Lemma reset_idrac_outcome_witness :
  ∃ out,
    reset_idrac r640
      (scripted [manager_document ["GracefulRestart"]] [reply 200 (JObj [])])
    = (out,
       log_post (manager_reset_uri r640) (reset_payload "GracefulRestart")
         (log_get (host_uri r640 +:+ manager_resource r640) false
            (scripted [manager_document ["GracefulRestart"]] [reply 200 (JObj [])]))) ∧
    (out = Ok true ↔
     ∃ p, post_replies
            (scripted [manager_document ["GracefulRestart"]] [reply 200 (JObj [])]) 0
          = Some p ∧ status p = 204) ∧
    (out ≠ Ok true → out = Raise BadfishException).
Proof.
  eapply (reset_idrac_outcome r640
            (scripted [manager_document ["GracefulRestart"]] [reply 200 (JObj [])])
            _ ["GracefulRestart"]); reflexivity.
Defined.

(** X18.  [reset_bios] reads nothing: it posts one request with an empty
    object to the Bios.ResetBios action.  It returns True exactly when
    the reply has status 200 or 204, and raises BadfishException in every
    other case, without looking at the body of the reply. *)
Theorem reset_bios_outcome (self : Badfish) (w : World) :
  ∃ out, reset_bios self w = (out, log_post (bios_reset_uri self) (JObj []) w) ∧
    (out = Ok true ↔
     ∃ p, post_replies w (posts w) = Some p ∧ (status p = 200 ∨ status p = 204)) ∧
    (out ≠ Ok true → out = Raise BadfishException).
Proof.
  unfold reset_bios, post_request. munfold.
  destruct (post_replies w (posts w)) as [p|] eqn:Hp.
  - destruct ((status p =? 200) || (status p =? 204)) eqn:Hs.
    + exists (Ok true). split_and!; [done| |done].
      split; [|done]. intros _. exists p. split; [done|lia].
    + exists (Raise BadfishException). split_and!; [done| |done].
      split; [done|]. intros (p' & [= <-] & Hs'). lia.
  - exists (Raise BadfishException). split_and!; [done| |done].
    split; [done|]. by intros (p' & ? & _).
Qed.

End ControllerResets.

Section Discovery.

Lemma first_member_id_Ok (data members v : json) :
  Py.get data "Members" = Ok members →
  Py.truthy members = true →
  first_member_id data = Ok v →
  ∃ first rest, Py.iter members = Ok (first :: rest) ∧
                Py.getitem first "@odata.id" = Ok v.
Proof.
  intros Hget Htruthy. unfold first_member_id. munfold.
  destruct data as [| | | | |fields]; try done.
  simpl in *. injection Hget as Hget.
  destruct (Py.lookup_field "Members" fields) as [members'|]; simpl in Hget; subst;
    [|done].
  destruct members as [|b|n|s|items|items]; simpl in *; try done.
  - destruct s as [|c s]; [done|]. by simpl.
  - destruct items as [|first rest]; [done|]. intros Hv. by exists first, rest.
  - destruct items as [|[k x] rest]; [done|]. by simpl.
Qed.



(** X20.  Let [find_systems_resource] get as far as a second document
    whose Members is missing or empty.  The method then never returns:
    it raises BadfishException, except that it raises KeyError when the
    member @Message.ExtendedInfo of the error of that document is an
    object, because the index 0 is then looked up as a key and KeyError
    is not among the exceptions the method catches. *)
Theorem find_systems_resource_no_members
    (self : Badfish) (w : World) (r0 r1 : Response) (root link : json)
    (systems : string) (fields : list (string * json))
    (Hr0 : get_replies w (gets w) = Some r0) (Hs0 : status r0 ≠ 401)
    (Hp0 : payload r0 = Some root)
    (Hhas : Py.contains "Systems" root = Ok true)
    (Hlink : Py.getitem root "Systems" = Ok link)
    (Hsys : Py.getitem link "@odata.id" = Ok (JStr systems))
    (Hr1 : get_replies w (S (gets w)) = Some r1) (Hs1 : status r1 ≠ 401)
    (Hp1 : payload r1 = Some (JObj fields))
    (Hnone : Py.truthy (default JNull (Py.lookup_field "Members" fields)) = false) :
  let w' := log_get (host_uri self +:+ systems) false (log_get (root_uri self) false w) in
  let info_is_object :=
    ∃ error info, Py.lookup_field "error" fields = Some (JObj error) ∧
                  Py.lookup_field "@Message.ExtendedInfo" error = Some (JObj info) in
  (info_is_object → find_systems_resource self w = (Raise KeyError, w')) ∧
  (¬ info_is_object → find_systems_resource self w = (Raise BadfishException, w')).
Proof.
  intros w' info_is_object.
  assert (Hrun : find_systems_resource self w
                 = (match read_error_info (JObj fields) with
                    | Ok _ => Raise BadfishException
                    | Raise e => Raise e
                    end, w')).
  { unfold find_systems_resource, get_request, loads. munfold.
    rewrite Hr0. replace (status r0 =? 401) with false by (symmetry; by apply Z.eqb_neq).
    rewrite Hp0, Hhas. cbn [negb]. rewrite Hlink, Hsys. cbn [str_add].
    cbn [get_replies gets log_get]. rewrite Hr1.
    replace (status r1 =? 401) with false by (symmetry; by apply Z.eqb_neq).
    rewrite Hp1. cbn [Py.get]. rewrite Hnone.
    by destruct (read_error_info (JObj fields)) as [[]|e]. }
  rewrite Hrun. clear Hrun. unfold info_is_object. clear info_is_object.
  unfold read_error_info. munfold. cbn [Py.get].
  destruct (Py.lookup_field "error" fields) as [error|] eqn:He; cbn [default from_option id].
  2:{ split; [by intros (? & ? & ? & _)|done]. }
  destruct error as [| | | | |error];
    try (split; [by intros (? & ? & ? & _)|done]).
  cbn [Py.get].
  destruct (Py.lookup_field "@Message.ExtendedInfo" error) as [info|] eqn:Hi;
    cbn [default from_option id].
  2:{ split; [|done]. intros (? & ? & [= <-] & Hi'). by rewrite Hi in Hi'. }
  assert (Hnot : ∀ P : Prop, (∀ info', info ≠ JObj info') →
            ((∃ error0 info0, Some (JObj error) = Some (JObj error0) ∧
                Py.lookup_field "@Message.ExtendedInfo" error0 = Some (JObj info0)) → P)).
  { intros P Hne (? & info' & [= <-] & Hi'). rewrite Hi in Hi'.
    injection Hi' as ->. by destruct (Hne info'). }
  destruct info as [| | |s|items|info].
  - split; [by apply Hnot|done].
  - split; [by apply Hnot|done].
  - split; [by apply Hnot|done].
  - split; [by apply Hnot|]. intros _. cbn [Py.getitem_nat].
    by destruct (String.get 0 s).
  - split; [by apply Hnot|]. intros _. cbn [Py.getitem_nat].
    destruct (items !! 0%nat) as [first|]; [|done].
    by destruct first.
  - split; [done|]. intros []. by eexists _, _.
Qed.

Lemma find_systems_resource_no_members_witness :
  find_systems_resource r640
    (scripted [service_root; empty_collection (JObj [("Message", JStr "No systems.")])] [])
  = (Raise KeyError,
     log_get (host_uri r640 +:+ "/redfish/v1/Systems") false
       (log_get (root_uri r640) false
          (scripted [service_root;
                     empty_collection (JObj [("Message", JStr "No systems.")])] []))) ∧
  find_systems_resource r640
    (scripted [service_root; empty_collection (JArr [])] [])
  = (Raise BadfishException,
     log_get (host_uri r640 +:+ "/redfish/v1/Systems") false
       (log_get (root_uri r640) false
          (scripted [service_root; empty_collection (JArr [])] []))).
Proof.
  split.
  - eapply (find_systems_resource_no_members r640
              (scripted [service_root;
                         empty_collection (JObj [("Message", JStr "No systems.")])] []));
      [reflexivity|done|reflexivity|reflexivity|reflexivity|reflexivity
      |reflexivity|done|reflexivity|reflexivity|].
    by eexists _, _.
  - eapply (find_systems_resource_no_members r640
              (scripted [service_root; empty_collection (JArr [])] []));
      [reflexivity|done|reflexivity|reflexivity|reflexivity|reflexivity
      |reflexivity|done|reflexivity|reflexivity|].
    by intros (? & ? & [= <-] & [=]).
Defined.



(** X22.  [validate_credentials] issues one GET, of the Systems
    collection under the service root.  It returns exactly when the
    reply has status 200 or 201; a reply with any other status, 401
    among them, and a controller that does not answer give
    BadfishException. *)
Theorem validate_credentials_outcome (self : Badfish) (w : World) :
  ∃ out, validate_credentials self w
         = (out, log_get (root_uri self +:+ "/Systems") false w) ∧
    (out = Ok () ↔
     ∃ r, get_replies w (gets w) = Some r ∧ (status r = 200 ∨ status r = 201)) ∧
    (out ≠ Ok () → out = Raise BadfishException).
Proof.
  unfold validate_credentials, get_request. munfold.
  destruct (get_replies w (gets w)) as [r|] eqn:Hr.
  - destruct (status r =? 401) eqn:H401.
    { exists (Raise BadfishException). split_and!; [done| |done].
      split; [done|]. intros (r' & [= <-] & Hs). lia. }
    destruct ((status r =? 200) || (status r =? 201)) eqn:Hs; cbn [negb].
    + exists (Ok ()). split_and!; [done| |done].
      split; [|done]. intros _. exists r. split; [done|lia].
    + exists (Raise BadfishException). split_and!; [done| |done].
      split; [done|]. intros (r' & [= <-] & Hs'). lia.
  - exists (Raise BadfishException). split_and!; [done| |done].
    split; [done|]. by intros (r' & ? & _).
Qed.

End Discovery.

Section BootSeq.

Lemma boot_mode_field_getitem (data : json) :
  match (attributes ← Py.getitem data "Attributes";
         Py.getitem attributes "BootMode") with
  | Ok mode => boot_mode_field data = Some mode
  | Raise _ => boot_mode_field data = None
  end.
Proof.
  munfold. destruct data as [| | | | |fields]; try done. simpl.
  destruct (Py.lookup_field "Attributes" fields) as [attributes|]; [|done].
  destruct attributes as [| | | | |attributes]; try done. simpl.
  by destruct (Py.lookup_field "BootMode" attributes).
Qed.

(** X23.  Whenever [get_boot_seq] returns, one GET of the Bios resource
    was answered with a JSON document, and the value is "UefiBootSeq"
    when the BootMode attribute of that document is exactly the string
    "Uefi" and "BootSeq" in every other case: another spelling, another
    mode, or no such attribute. *)
Theorem get_boot_seq_two_valued
    (self : Badfish) (w w' : World) (seq : string)
    (Hrun : get_boot_seq self w = (Ok seq, w')) :
  ∃ r data,
    get_replies w (gets w) = Some r ∧ payload r = Some data ∧
    w' = log_get (host_uri self +:+ system_resource self +:+ "/Bios") false w ∧
    ((seq = "UefiBootSeq" ∧ boot_mode_field data = Some (JStr "Uefi")) ∨
     (seq = "BootSeq" ∧ boot_mode_field data ≠ Some (JStr "Uefi"))).
Proof.
  unfold get_boot_seq, get_bios_boot_mode, get_request in Hrun. munfold.
  destruct (get_replies w (gets w)) as [r|] eqn:Hr; [|done].
  destruct (payload r) as [data|] eqn:Hp; [|done].
  exists r, data. split_and!; [done..| |].
  - pose proof (boot_mode_field_getitem data) as Hfield. munfold.
    destruct (match Py.getitem data "Attributes" with
              | Ok a => Py.getitem a "BootMode"
              | Raise e => Raise e
              end) as [mode|e].
    + destruct (Py.eq_str mode "Uefi"); by injection Hrun as _ <-.
    + destruct e; try done; by injection Hrun as _ <-.
  - pose proof (boot_mode_field_getitem data) as Hfield. munfold.
    destruct (match Py.getitem data "Attributes" with
              | Ok a => Py.getitem a "BootMode"
              | Raise e => Raise e
              end) as [mode|e].
    + destruct (Py.eq_str mode "Uefi") eqn:He.
      * apply eq_str_true in He as ->. left. by injection Hrun as <- _.
      * right. injection Hrun as <- _. split; [done|]. rewrite Hfield.
        intros [= ->]. by vm_compute in He.
    + right. rewrite Hfield. destruct e; try done. by injection Hrun as <- _.
Qed.

Lemma get_boot_seq_two_valued_witness :
  ∃ r data,
    get_replies (bios_in_mode "Uefi") 0 = Some r ∧
    payload r = Some data ∧
    log_get (host_uri r640 +:+ system_resource r640 +:+ "/Bios") false
      (bios_in_mode "Uefi")
    = log_get (host_uri r640 +:+ system_resource r640 +:+ "/Bios") false
        (bios_in_mode "Uefi") ∧
    (("UefiBootSeq" = "UefiBootSeq" ∧ boot_mode_field data = Some (JStr "Uefi")) ∨
     ("UefiBootSeq" = "BootSeq" ∧ boot_mode_field data ≠ Some (JStr "Uefi"))).
Proof.
  exact (get_boot_seq_two_valued r640 (bios_in_mode "Uefi") _ "UefiBootSeq" eq_refl).
Defined.

End BootSeq.

Section ExitCode.

Lemma report_false results out : report results false = Ok out → out = false.
Proof.
  induction results as [|[h ok|e] results IH]; simpl; [by intros [= <-]| |done].
  by destruct ok.
Qed.

Lemma report_raises results all_ok :
  report results all_ok = Raise TypeError ↔ ∃ e, Exception e ∈ results.
Proof.
  revert all_ok. induction results as [|[h ok|e] results IH]; intros all_ok; simpl.
  - split; [done|]. intros [e He]. by apply elem_of_nil in He.
  - assert (Htail : (∃ e, Exception e ∈ Returned h ok :: results)
                    ↔ ∃ e, Exception e ∈ results).
    { split; intros [e He]; exists e.
      - by apply elem_of_cons in He as [?|?].
      - by apply list_elem_of_further. }
    rewrite Htail. destruct ok; apply IH.
  - split; [|done]. intros _. exists e. apply list_elem_of_here.
Qed.

(** X24.  The loop of [main] over the gathered results leaves the flag
    that becomes the exit code 0 set exactly when every entry is a pair
    whose second member is True, and it ends in TypeError exactly when
    some entry is an exception object, wherever in the list it stands
    and whatever the other hosts returned. *)
Theorem report_exit_code (results : list Entry) :
  (report results true = Ok true ↔
   Forall (λ entry, ∃ _host, entry = Returned _host true) results) ∧
  (report results true = Raise TypeError ↔ ∃ e, Exception e ∈ results).
Proof.
  split; [|apply report_raises].
  induction results as [|[h ok|e] results IH]; simpl.
  - split; [by constructor|done].
  - destruct ok.
    + rewrite IH. split.
      * intros Hall. constructor; [by exists h|done].
      * intros Hall. by apply Forall_cons in Hall as [_ ?].
    + split.
      * intros Hrun. by apply report_false in Hrun.
      * intros Hall. by apply Forall_cons in Hall as [[? [=]] _].
  - split; [done|]. intros Hall. by apply Forall_cons in Hall as [[? [=]] _].
Qed.

End ExitCode.

Section JobIds.

Lemma string_app_nil_r (s : string) : s +:+ "" = s.
Proof.
  induction s as [|c s IH]; [done|].
  change (String c s +:+ "") with (String c (s +:+ "")). by rewrite IH.
Qed.

Lemma length_app_string (a b : string) :
  String.length (a +:+ b) = (String.length a + String.length b)%nat.
Proof.
  induction a as [|x a IH]; [done|].
  change (S (String.length (a +:+ b)) = S (String.length a + String.length b)).
  by rewrite IH.
Qed.

(** [\d+] splits the text into a run of digits and the rest. *)
Lemma digits_split (s run rest : string) :
  PyRe.digits s = (run, rest) →
  s = run +:+ rest ∧ all_chars PyStr.is_digit run = true.
Proof.
  revert run rest. induction s as [|c s IH]; intros run rest; simpl.
  - by intros [= <- <-].
  - destruct (PyStr.is_digit c) eqn:Hc.
    + destruct (PyRe.digits s) as [run' rest'] eqn:Hd. intros [= <- <-].
      destruct (IH run' rest' eq_refl) as [-> Hall]. split; [done|].
      simpl. by rewrite Hc, Hall.
    + by intros [= <- <-].
Qed.

(** What [.+?\d+] matches behind its first character: characters other
    than the newline, none of them a digit, then a run of digits that is
    not empty. *)
Lemma lazy_digits_split (s found rest : string) :
  PyRe.lazy_digits s = Some (found, rest) →
  ∃ body d run,
    found = body +:+ String d run ∧ s = found +:+ rest ∧
    all_chars (λ c, negb (PyRe.is_newline c) && negb (PyStr.is_digit c)) body = true ∧
    all_chars PyStr.is_digit (String d run) = true.
Proof.
  revert found rest. induction s as [|c s IH]; intros found rest; [done|].
  cbn [PyRe.lazy_digits].
  destruct (PyStr.is_digit c) eqn:Hc.
  - intros [= Hd]. cbn [PyRe.digits] in Hd. rewrite Hc in Hd.
    destruct (PyRe.digits s) as [run rest'] eqn:Hrun. injection Hd as <- <-.
    destruct (digits_split s run rest' Hrun) as [-> Hall].
    exists "", c, run. split_and!; [done..|]. simpl. by rewrite Hc, Hall.
  - destruct (PyRe.is_newline c) eqn:Hn; [done|].
    destruct (PyRe.lazy_digits s) as [[found' rest']|] eqn:Hl; [|done].
    intros [= <- <-].
    destruct (IH found' rest' eq_refl) as (body & d & run & -> & -> & Hbody & Hrun).
    exists (String c body), d, run. split_and!; [done..| |done].
    simpl. by rewrite Hn, Hc, Hbody.
Qed.

Lemma all_chars_app (test : ascii → bool) (a b : string) :
  all_chars test (a +:+ b) = all_chars test a && all_chars test b.
Proof.
  induction a as [|x a IH]; [done|].
  change (test x && all_chars test (a +:+ b)
          = test x && all_chars test a && all_chars test b).
  rewrite IH. by destruct (test x).
Qed.

Lemma all_chars_impl (test1 test2 : ascii → bool) (s : string) :
  (∀ c, test1 c = true → test2 c = true) →
  all_chars test1 s = true → all_chars test2 s = true.
Proof.
  intros Himpl. induction s as [|c s IH]; [done|]. simpl.
  intros [Hc Hs]%andb_true_iff. rewrite (Himpl c Hc). by apply IH.
Qed.

(** A run of digits that is not empty ends in a digit. *)
Lemma digits_last (run : string) (d : ascii) :
  all_chars PyStr.is_digit (String d run) = true →
  ∃ run' d', String d run = run' +:+ String d' "" ∧ PyStr.is_digit d' = true ∧
             all_chars PyStr.is_digit run' = true.
Proof.
  revert d. induction run as [|c run IH]; intros d.
  - simpl. intros [Hd _]%andb_true_iff. by exists "", d.
  - intros [Hd Hrun]%andb_true_iff.
    destruct (IH c Hrun) as (run' & d' & Heq & Hd' & Hall).
    exists (String d run'), d'. split_and!; [|done|].
    + change (String d (String c run) = String d (run' +:+ String d' "")).
      by rewrite Heq.
    + simpl. by rewrite Hd, Hall.
Qed.

Lemma is_digit_not_newline (c : ascii) :
  PyStr.is_digit c = true → negb (PyRe.is_newline c) = true.
Proof.
  intros Hd. destruct (PyRe.is_newline c) eqn:Hn; [|done].
  apply Ascii.eqb_eq in Hn as ->. by vm_compute in Hd.
Qed.

Lemma match_here_split (s found rest : string) :
  PyRe.match_here s = Some (found, rest) →
  s = found +:+ rest ∧ job_id_shape found.
Proof.
  unfold PyRe.match_here.
  destruct s as [|c0 [|i [|d0 [|u [|c1 s']]]]]; try done.
  destruct ((Ascii.eqb c0 "J" || Ascii.eqb c0 "R") &&
            Ascii.eqb i "I" && Ascii.eqb d0 "D" && Ascii.eqb u "_" &&
            negb (PyRe.is_newline c1)) eqn:Hhead; [|done].
  apply andb_true_iff in Hhead as [Hhead Hc1].
  apply andb_true_iff in Hhead as [Hhead ->%Ascii.eqb_eq].
  apply andb_true_iff in Hhead as [Hhead ->%Ascii.eqb_eq].
  apply andb_true_iff in Hhead as [Hc0 ->%Ascii.eqb_eq].
  destruct (PyRe.lazy_digits s') as [[found' rest']|] eqn:Hl; [|done].
  intros [= <- <-].
  destruct (lazy_digits_split s' found' rest' Hl)
    as (body & d & run & -> & -> & Hbody & Hrun).
  split; [done|].
  destruct (digits_last run d Hrun) as (run' & d' & Heq & Hd' & Hall).
  exists c0, c1, (body +:+ run'), d'. split_and!.
  - rewrite Heq. by rewrite string_app_assoc.
  - apply orb_true_iff in Hc0 as [H|H]; apply Ascii.eqb_eq in H; [by left|by right].
  - done.
  - simpl. rewrite Hc1. simpl. rewrite all_chars_app. apply andb_true_iff. split.
    + eapply all_chars_impl; [|exact Hbody]. by intros c [? _]%andb_true_iff.
    + eapply all_chars_impl; [|exact Hall]. apply is_digit_not_newline.
Qed.

Lemma rstrip_last (c d : ascii) (s : string) :
  d ≠ c → rstrip c (s +:+ String d "") = s +:+ String d "".
Proof.
  intros Hne. induction s as [|a s IH].
  - simpl. by rewrite (proj2 (Ascii.eqb_neq d c) Hne).
  - change (rstrip c (String a (s +:+ String d "")) = String a (s +:+ String d "")).
    cbn [rstrip]. rewrite IH. by destruct s.
Qed.

(** [strip] leaves a job identifier alone when its character is neither
    J nor R nor a digit. *)
Lemma strip_job_id (c : ascii) (found : string) :
  job_id_shape found → c ≠ "J"%char → c ≠ "R"%char → PyStr.is_digit c = false →
  strip c found = found.
Proof.
  intros (c0 & c1 & tail & d & -> & Hc0 & Hd & _) HJ HR Hc.
  unfold strip.
  assert (Hfirst : Ascii.eqb c0 c = false).
  { apply Ascii.eqb_neq. by destruct Hc0 as [-> | ->]. }
  cbn [lstrip]. rewrite Hfirst.
  change (String c0 ("ID_" +:+ String c1 (tail +:+ String d "")))
    with (String c0 (String "I" (String "D" (String "_" (String c1 tail))))
          +:+ String d "").
  apply rstrip_last. intros ->. congruence.
Qed.

Lemma job_ids_findall (data : string) (n : nat) (s : string) :
  Forall job_id_shape (PyRe.findall_from n s).
Proof.
  revert s. induction n as [|n IH]; intros s; [constructor|].
  destruct s as [|c s']; [constructor|]. cbn [PyRe.findall_from].
  destruct (PyRe.match_here (String c s')) as [[found rest]|] eqn:Hm; [|apply IH].
  constructor; [|apply IH]. by apply match_here_split in Hm as [_ ?].
Qed.

Lemma findall_from_within (n : nat) (s job : string) :
  job ∈ PyRe.findall_from n s → ∃ before after, s = before +:+ job +:+ after.
Proof.
  revert s. induction n as [|n IH]; intros s; [by intros ?%elem_of_nil|].
  destruct s as [|c s']; [by intros ?%elem_of_nil|]. cbn [PyRe.findall_from].
  destruct (PyRe.match_here (String c s')) as [[found rest]|] eqn:Hm.
  - apply match_here_split in Hm as [Hs _].
    intros [->|Hin]%elem_of_cons.
    + by exists "", rest.
    + destruct (IH rest Hin) as (before & after & ->).
      exists (found +:+ before), after. rewrite Hs. by rewrite string_app_assoc.
  - intros Hin. destruct (IH s' Hin) as (before & after & ->).
    by exists (String c before), after.
Qed.

Lemma findall_from_enough (n m : nat) (s : string) :
  (String.length s ≤ n)%nat → (String.length s ≤ m)%nat →
  PyRe.findall_from n s = PyRe.findall_from m s.
Proof.
  revert m s. induction n as [|n IH]; intros m s Hn Hm.
  - destruct s; [|simpl in Hn; lia]. by destruct m.
  - destruct s as [|c s']; [by destruct m|].
    destruct m as [|m]; [simpl in Hm; lia|]. cbn [PyRe.findall_from].
    destruct (PyRe.match_here (String c s')) as [[found rest]|] eqn:Hmatch.
    + apply match_here_split in Hmatch as [Hs (c0 & ? & ? & ? & -> & _)].
      assert (String.length rest < String.length (String c s'))%nat.
      { rewrite Hs, length_app_string. simpl. lia. }
      f_equal. apply IH; lia.
    + simpl in Hn, Hm. apply IH; lia.
Qed.

(** X25.  Every job identifier that [get_job_queue] takes from the body
    of the reply is a piece of that body made of J or R, then "ID_", then
    at least one character, without a newline inside and with a digit at
    its end; so the three [strip] calls that follow the search never
    remove anything, and the list returned is the list of matches.  The
    search needs no more steps than the body has characters. *)
Theorem job_ids_are_matches (data : string) :
  job_ids data = PyRe.findall data ∧
  (∀ job, job ∈ job_ids data →
     job_id_shape job ∧ ∃ before after, data = before +:+ job +:+ after) ∧
  (∀ n, (String.length data ≤ n)%nat → PyRe.findall_from n data = PyRe.findall data).
Proof.
  assert (Hids : job_ids data = PyRe.findall data).
  { unfold job_ids, PyRe.findall.
    pose proof (job_ids_findall data (String.length data) data) as Hall.
    induction Hall as [|found founds Hshape Hall IH]; [done|].
    cbn [fmap list_fmap]. rewrite IH. f_equal.
    rewrite (strip_job_id "}" found) by done.
    rewrite (strip_job_id "034" found) by done.
    by rewrite (strip_job_id "'" found) by done. }
  split_and!; [done| |].
  - rewrite Hids. intros job Hin. split.
    + pose proof (job_ids_findall data (String.length data) data) as Hall.
      rewrite Forall_forall in Hall. by apply Hall.
    + by eapply findall_from_within.
  - intros n Hn. by apply findall_from_enough.
Qed.

Example job_ids_of_a_queue :
  job_ids "{'JID_498218641680': 'Pending', 'RID_498218641681': 'Reboot', 'JID_CLEARALL': '-'}"
  = ["JID_498218641680"; "RID_498218641681"].
Proof. reflexivity. Qed.

End JobIds.

Section PatchBootSeq.

Lemma patches_succ_r uri body c n s :
  patches uri body c (S n) s = patches uri body c n (log_patch uri body c s).
Proof. unfold patches. by rewrite Nat.iter_succ_r. Qed.

Lemma patches_patch_replies uri body c n s :
  patch_replies (patches uri body c n s) = patch_replies s.
Proof. induction n as [|n IH]; simpl; done. Qed.

Lemma patches_patched uri body c n s :
  patched (patches uri body c n s) = patched s ++ replicate n (uri, body, c).
Proof.
  induction n as [|n IH]; simpl; [by rewrite app_nil_r|].
  rewrite IH, <-app_assoc. by rewrite <-replicate_cons_app.
Qed.

Lemma patches_deleted uri body c n s :
  deleted (patches uri body c n s) = deleted s.
Proof. induction n as [|n IH]; simpl; done. Qed.

Lemma patches_world uri body c n s : world (patches uri body c n s) = world s.
Proof. induction n as [|n IH]; simpl; done. Qed.

Lemma patch_loop_done url body n response s :
  patch_loop url body n response 200 s = (Ok (response, 200), s).
Proof. by destruct n. Qed.

(** The loop of [patch_boot_seq] entered with a status other than 200: it
    sends [k] PATCHes, goes on after every reply but a 200, and ends with
    the last reply and, when there was one, its status. *)
Lemma patch_loop_run url body n s response code :
  code ≠ 200 →
  let reply k := patch_replies s (length (patched s) + k) in
  ∃ k response' code',
    (k ≤ n)%nat ∧
    patch_loop url body n response code s
    = (Ok (response', code'), patches url body true k s) ∧
    (∀ j r, (S j < k)%nat → reply j = Some r → status r ≠ 200) ∧
    ((k < n)%nat → code' = 200) ∧
    (k = O → response' = response ∧ code' = code) ∧
    (∀ j, k = S j →
       response' = reply j ∧
       (∀ r, reply j = Some r → code' = status r) ∧
       (reply j = None → code' ≠ 200)).
Proof.
  intros Hcode reply. subst reply. revert s response code Hcode.
  induction n as [|n IH]; intros s response code Hcode.
  - exists O, response, code. split_and!; [lia|done|intros; lia|lia|done|done].
  - cbn [patch_loop]. rewrite (proj2 (Z.eqb_neq code 200) Hcode). cbn [negb].
    unfold patch_request. unfold mbind at 1, W_bind at 1.
    destruct (patch_replies s (length (patched s))) as [r|] eqn:Hr.
    + destruct (decide (status r = 200)) as [H200|Hne].
      * rewrite H200, patch_loop_done.
        exists 1%nat, (Some r), 200. split_and!; [lia|done|intros; lia|done|done|].
        intros j [= <-]. rewrite Nat.add_0_r, Hr. split_and!; [done| |done].
        by intros r' [= <-].
      * destruct (IH (log_patch url body true s) (Some r) (status r) Hne)
          as (k & response' & code' & Hk & Hrun & Hbefore & Hearly & Hzero & Hlast).
        exists (S k), response', code'.
        split_and!; [lia|by rewrite patches_succ_r| |intros; apply Hearly; lia|done|].
        -- intros [|j] r' Hj Hrj.
           ++ rewrite Nat.add_0_r, Hr in Hrj. by injection Hrj as <-.
           ++ apply (Hbefore j r'); [lia|]. simpl. rewrite length_app. simpl.
              by replace (length (patched s) + 1 + j)%nat
                with (length (patched s) + S j)%nat by lia.
        -- intros j [= <-]. destruct k as [|k].
           ++ destruct Hzero as [-> ->]; [done|]. rewrite Nat.add_0_r, Hr.
              split_and!; [done| |done]. by intros r' [= <-].
           ++ destruct (Hlast k eq_refl) as (Hresp & Hcode' & Hnone).
              simpl in Hresp, Hcode', Hnone. rewrite length_app in Hresp, Hcode', Hnone.
              simpl in Hresp, Hcode', Hnone.
              by replace (length (patched s) + 1 + k)%nat
                with (length (patched s) + S k)%nat in Hresp, Hcode', Hnone by lia.
    + destruct (IH (log_patch url body true s) None code Hcode)
        as (k & response' & code' & Hk & Hrun & Hbefore & Hearly & Hzero & Hlast).
      exists (S k), response', code'.
      split_and!; [lia|by rewrite patches_succ_r| |intros; apply Hearly; lia|done|].
      * intros [|j] r' Hj Hrj.
        -- by rewrite Nat.add_0_r, Hr in Hrj.
        -- apply (Hbefore j r'); [lia|]. simpl. rewrite length_app. simpl.
           by replace (length (patched s) + 1 + j)%nat
             with (length (patched s) + S j)%nat by lia.
      * intros j [= <-]. destruct k as [|k].
        -- destruct Hzero as [-> ->]; [done|]. by rewrite Nat.add_0_r, Hr.
        -- destruct (Hlast k eq_refl) as (Hresp & Hcode' & Hnone).
           simpl in Hresp, Hcode', Hnone. rewrite length_app in Hresp, Hcode', Hnone.
           simpl in Hresp, Hcode', Hnone.
           by replace (length (patched s) + 1 + k)%nat
             with (length (patched s) + S k)%nat in Hresp, Hcode', Hnone by lia.
Qed.

(** X26.  Once the boot mode is read, [patch_boot_seq] sends the same
    PATCH at most [retries] times and stops before the budget is used
    only after a reply with status 200.  It returns normally not only
    when its last PATCH was answered with status 200, but also when its
    last PATCH got no answer and when the budget allows no PATCH at all;
    it raises only when the last PATCH was answered with another
    status. *)
Theorem patch_boot_seq_outcome
    (self : Badfish) (ordered_devices : json) (s : Wire)
    (_boot_seq : string) (w1 : World)
    (Hseq : get_boot_seq self (world s) = (Ok _boot_seq, w1)) :
  let url := boot_sources_settings_uri self in
  let body := boot_seq_payload _boot_seq ordered_devices in
  let reply k := patch_replies s (length (patched s) + k) in
  ∃ out n,
    (n ≤ Z.to_nat (retries self))%nat ∧
    patch_boot_seq self ordered_devices s
    = (out, patches url body true n (set_world w1 s)) ∧
    (∀ j r, (S j < n)%nat → reply j = Some r → status r ≠ 200) ∧
    ((n < Z.to_nat (retries self))%nat →
     ∃ j r, n = S j ∧ reply j = Some r ∧ status r = 200) ∧
    (out = Ok () ↔
     n = O ∨ ∃ j, n = S j ∧
       (reply j = None ∨ ∃ r, reply j = Some r ∧ status r = 200)).
Proof.
  intros url body reply.
  unfold patch_boot_seq. fold url.
  unfold mbind at 1, W_bind at 1. unfold via_world at 1. rewrite Hseq. fold body.
  destruct (patch_loop_run url body (Z.to_nat (retries self)) (set_world w1 s) None 400)
    as (k & response' & code' & Hk & Hrun & Hbefore & Hearly & Hzero & Hlast); [done|].
  cbn [patch_replies patched set_world] in Hbefore, Hlast. fold reply in Hbefore, Hlast.
  unfold mbind, W_bind. rewrite Hrun. cbn [fst snd].
  assert (Hearly' : (k < Z.to_nat (retries self))%nat →
            ∃ j r, k = S j ∧ reply j = Some r ∧ status r = 200).
  { intros Hlt. specialize (Hearly Hlt). subst code'.
    destruct k as [|j]; [by destruct Hzero as [_ ?]|].
    destruct (Hlast j eq_refl) as (Hresp & Hcode' & Hnone).
    destruct (reply j) as [r|] eqn:Hr; [|by destruct Hnone].
    exists j, r. split_and!; [done..|]. symmetry. by apply Hcode'. }
  destruct (code' =? 200) eqn:Hc.
  - exists (Ok ()), k. split_and!; [done..|].
    split; [|done]. intros _. apply Z.eqb_eq in Hc as ->.
    destruct k as [|j]; [by left|right]. exists j. split; [done|].
    destruct (Hlast j eq_refl) as (Hresp & Hcode' & Hnone).
    destruct (reply j) as [r|] eqn:Hr; [|by destruct Hnone].
    right. exists r. split; [done|]. symmetry. by apply Hcode'.
  - apply Z.eqb_neq in Hc. destruct response' as [r|].
    + unfold via_world.
      destruct (error_handler_raises r (world (patches url body true k (set_world w1 s))))
        as [e He].
      rewrite He. exists (Raise e), k. split_and!; [done| |done..|].
      { f_equal. destruct (patches url body true k (set_world w1 s)). done. }
      split; [done|]. intros [->|(j & -> & Hj)].
      * by destruct Hzero as [? _].
      * destruct (Hlast j eq_refl) as (Hresp & Hcode' & Hnone). unfold reply in Hj.
        destruct Hj as [Hj|(r' & Hj & H200)]; rewrite Hj in Hresp; [done|].
        injection Hresp as ->. destruct Hc. by rewrite (Hcode' r' Hj).
    + exists (Ok ()), k. split_and!; [done..|].
      split; [|done]. intros _.
      destruct k as [|j]; [by left|right]. exists j. split; [done|].
      destruct (Hlast j eq_refl) as (Hresp & _). left. unfold reply. by rewrite <-Hresp.
Qed.

Lemma patch_boot_seq_outcome_witness :
  ∃ out n,
    (n ≤ 3)%nat ∧
    patch_boot_seq r640 (JArr [])
      (wired (bios_in_mode "Uefi") [answer 503; answer 503; timeout] [])
    = (out,
       patches (boot_sources_settings_uri r640)
         (boot_seq_payload "UefiBootSeq" (JArr [])) true n
         (set_world
            (log_get (host_uri r640 +:+ system_resource r640 +:+ "/Bios") false
               (bios_in_mode "Uefi"))
            (wired (bios_in_mode "Uefi") [answer 503; answer 503; timeout] []))) ∧
    (∀ j r, (S j < n)%nat →
       default None ([answer 503; answer 503; timeout] !! (0 + j)%nat) = Some r →
       status r ≠ 200) ∧
    ((n < 3)%nat →
     ∃ j r, n = S j ∧
       default None ([answer 503; answer 503; timeout] !! (0 + j)%nat) = Some r ∧
       status r = 200) ∧
    (out = Ok () ↔
     n = O ∨ ∃ j, n = S j ∧
       (default None ([answer 503; answer 503; timeout] !! (0 + j)%nat) = None ∨
        ∃ r, default None ([answer 503; answer 503; timeout] !! (0 + j)%nat) = Some r ∧
             status r = 200)).
Proof.
  exact (patch_boot_seq_outcome r640 (JArr [])
           (wired (bios_in_mode "Uefi") [answer 503; answer 503; timeout] [])
           "UefiBootSeq" _ eq_refl).
Defined.

Example patch_boot_seq_silent :
  (patch_boot_seq r640 (JArr [])
     (wired (bios_in_mode "Uefi") [answer 503; answer 503; timeout] [])).1 = Ok ().
Proof. reflexivity. Qed.

End PatchBootSeq.

Section JobQueue.

Lemma deletions_app uris1 uris2 s :
  deletions (uris1 ++ uris2) s = deletions uris2 (deletions uris1 s).
Proof. unfold deletions. by rewrite foldl_app. Qed.

Lemma deletions_deleted uris s : deleted (deletions uris s) = deleted s ++ uris.
Proof.
  revert s. induction uris as [|uri uris IH]; intros s; simpl; [by rewrite app_nil_r|].
  rewrite IH. simpl. by rewrite <-app_assoc.
Qed.

Lemma deletions_delete_replies uris s :
  delete_replies (deletions uris s) = delete_replies s.
Proof. revert s. induction uris as [|uri uris IH]; intros s; simpl; [done|]. by rewrite IH. Qed.

Lemma deletions_patched uris s : patched (deletions uris s) = patched s.
Proof. revert s. induction uris as [|uri uris IH]; intros s; simpl; [done|]. by rewrite IH. Qed.

Lemma deletions_world uris s : world (deletions uris s) = world s.
Proof. revert s. induction uris as [|uri uris IH]; intros s; simpl; [done|]. by rewrite IH. Qed.

Lemma job_address_join (self : Badfish) (_job : string) :
  PyStr.join "/" [jobs_uri self; strip "'" _job] = job_address self _job.
Proof. done. Qed.

(** The loop of [clear_job_list] goes through the whole queue whatever
    the statuses of the replies are. *)
Lemma clear_job_loop_run (self : Badfish) (_job_queue : list string) (failed : bool) s :
  (∀ k, (k < length _job_queue)%nat →
     is_Some (delete_replies s (length (deleted s) + k))) →
  ∃ failed',
    clear_job_loop (jobs_uri self) _job_queue failed s
    = (Ok failed', deletions (job_address self <$> _job_queue) s) ∧
    (failed' = false ↔
     failed = false ∧
     ∀ k r, (k < length _job_queue)%nat →
       delete_replies s (length (deleted s) + k) = Some r → status r = 200).
Proof.
  revert s failed. induction _job_queue as [|_job rest IH]; intros s failed Hanswered.
  - exists failed. split; [done|]. split; [|by intros [? _]].
    intros ->. split; [done|]. intros k r Hk. simpl in Hk. lia.
  - cbn [clear_job_loop]. rewrite job_address_join.
    unfold delete_request. unfold mbind at 1, W_bind at 1.
    destruct (Hanswered O) as [r Hr]; [simpl; lia|].
    rewrite Nat.add_0_r in Hr. rewrite Hr.
    set (s1 := log_delete (job_address self _job) s).
    assert (Hshift : ∀ k, delete_replies s1 (length (deleted s1) + k)
                          = delete_replies s (length (deleted s) + S k)).
    { intros k. simpl. rewrite length_app. simpl. f_equal. lia. }
    assert (Hrest : ∀ k, (k < length rest)%nat →
              is_Some (delete_replies s1 (length (deleted s1) + k))).
    { intros k Hk. rewrite Hshift. apply Hanswered. simpl. lia. }
    destruct (decide (status r = 200)) as [H200|Hne].
    + rewrite H200. cbn [Z.eqb Pos.eqb negb].
      destruct (IH s1 failed Hrest) as (failed' & Hrun & Hiff).
      exists failed'. split; [done|]. rewrite Hiff. split.
      * intros [-> Hall]. split; [done|]. intros [|k] r' Hk Hrk.
        -- rewrite Nat.add_0_r, Hr in Hrk. by injection Hrk as <-.
        -- apply (Hall k r'); [simpl in Hk; lia|]. by rewrite Hshift.
      * intros [-> Hall]. split; [done|]. intros k r' Hk Hrk.
        apply (Hall (S k) r'); [simpl; lia|]. by rewrite <-Hshift.
    + rewrite (proj2 (Z.eqb_neq (status r) 200) Hne). cbn [negb].
      destruct (IH s1 true Hrest) as (failed' & Hrun & Hiff).
      exists failed'. split; [done|]. rewrite Hiff. split; [by intros [? _]|].
      intros [_ Hall]. destruct Hne. apply (Hall O r); [simpl; lia|].
      by rewrite Nat.add_0_r.
Qed.

Lemma clear_job_list_run (self : Badfish) (_job_queue : list string) s :
  (∀ k, (k < length _job_queue)%nat →
     is_Some (delete_replies s (length (deleted s) + k))) →
  ∃ out,
    clear_job_list self _job_queue s
    = (out, deletions (job_address self <$> _job_queue) s) ∧
    (out = Ok () ↔
     ∀ k r, (k < length _job_queue)%nat →
       delete_replies s (length (deleted s) + k) = Some r → status r = 200) ∧
    (out ≠ Ok () → out = Raise BadfishException).
Proof.
  intros Hanswered. unfold clear_job_list. unfold mbind, W_bind.
  destruct (clear_job_loop_run self _job_queue false s Hanswered)
    as (failed' & -> & Hiff).
  destruct failed'; cbn [negb].
  - exists (Raise BadfishException). split_and!; [done| |done].
    split; [done|]. intros Hall. by pose proof (proj2 Hiff (conj eq_refl Hall)).
  - exists (Ok ()). split_and!; [done| |done].
    split; [|done]. intros _. by apply Hiff.
Qed.

(** X27.  When every DELETE is answered, [clear_job_list] issues one
    DELETE per entry of the queue, in the order of the queue, and goes on
    after a reply that is not 200: no job is left out because an earlier
    one failed.  It returns when all replies have status 200 and raises
    BadfishException otherwise. *)
Theorem clear_job_list_outcome
    (self : Badfish) (_job_queue : list string) (s : Wire)
    (Hanswered : ∀ k, (k < length _job_queue)%nat →
       is_Some (delete_replies s (length (deleted s) + k))) :
  ∃ out s',
    clear_job_list self _job_queue s = (out, s') ∧
    deleted s' = deleted s ++ (job_address self <$> _job_queue) ∧
    patched s' = patched s ∧ world s' = world s ∧
    (out = Ok () ↔
     ∀ k r, (k < length _job_queue)%nat →
       delete_replies s (length (deleted s) + k) = Some r → status r = 200) ∧
    (out ≠ Ok () → out = Raise BadfishException).
Proof.
  destruct (clear_job_list_run self _job_queue s Hanswered) as (out & Hrun & Hiff & Hexn).
  exists out, (deletions (job_address self <$> _job_queue) s).
  split_and!; [done| | | |done..].
  - apply deletions_deleted.
  - apply deletions_patched.
  - apply deletions_world.
Qed.

Lemma clear_job_list_outcome_witness :
  ∃ out s',
    clear_job_list r640 ["JID_498218641680"; "JID_498218641681"]
      (wired (scripted [] []) [] [answer 404; answer 200]) = (out, s') ∧
    deleted s' = [] ++ (job_address r640 <$> ["JID_498218641680"; "JID_498218641681"]) ∧
    patched s' = [] ∧ world s' = scripted [] [] ∧
    (out = Ok () ↔
     ∀ k r, (k < 2)%nat →
       default None ([answer 404; answer 200] !! (0 + k)%nat) = Some r → status r = 200) ∧
    (out ≠ Ok () → out = Raise BadfishException).
Proof.
  apply (clear_job_list_outcome r640 ["JID_498218641680"; "JID_498218641681"]
           (wired (scripted [] []) [] [answer 404; answer 200])).
  intros [|[|k]] Hk; [by eexists..|simpl in Hk; lia].
Defined.

Lemma get_job_queue_run text (self : Badfish) w r0 :
  get_replies w (gets w) = Some r0 →
  get_job_queue text self w
  = (Ok (job_ids (text r0)), log_get (jobs_uri self) false w).
Proof. intros Hr. unfold get_job_queue, get_request. munfold. by rewrite Hr. Qed.

Lemma check_supported_idrac_version_run (self : Badfish) w r1 :
  get_replies w (gets w) = Some r1 →
  check_supported_idrac_version self w
  = (Ok (status r1 =? 200),
     log_get (root_uri self +:+ "/Dell/Managers/iDRAC.Embedded.1/DellJobService/")
       false w).
Proof.
  intros Hr. unfold check_supported_idrac_version, get_request. munfold. rewrite Hr.
  by destruct (status r1 =? 200).
Qed.

(** X28.  Let the job queue be not empty, the controller lack the
    DellJobService, and the DELETE of JID_CLEARALL_FORCE be answered with
    status 400, so that [clear_job_queue] deletes the jobs one by one.
    If one of these deletions is answered with another status than 200,
    the BadfishException it ends in is caught by the handler around the
    forced deletion, and every job of the queue is deleted a second
    time: the replies of the second pass alone decide whether the method
    returns or raises. *)
Theorem clear_job_queue_deletes_twice
    (text : Response → string) (self : Badfish) (force : bool) (s : Wire)
    (r0 r1 d : Response)
    (Hqueue : get_replies (world s) (gets (world s)) = Some r0)
    (Hnonempty : job_ids (text r0) ≠ [])
    (Hversion : get_replies (world s) (S (gets (world s))) = Some r1)
    (Hunsupported : status r1 ≠ 200)
    (Hforce : delete_replies s (length (deleted s)) = Some d)
    (H400 : status d = 400)
    (Hanswered : ∀ k, (k < 2 * length (job_ids (text r0)))%nat →
       is_Some (delete_replies s (length (deleted s) + 1 + k)))
    (Hfailed : ∃ k r, (k < length (job_ids (text r0)))%nat ∧
       delete_replies s (length (deleted s) + 1 + k) = Some r ∧ status r ≠ 200) :
  let _job_queue := job_ids (text r0) in
  ∃ out s',
    clear_job_queue text self force s = (out, s') ∧
    deleted s' = deleted s ++ [jobs_uri self +:+ "/JID_CLEARALL_FORCE"]
                   ++ (job_address self <$> _job_queue)
                   ++ (job_address self <$> _job_queue) ∧
    posts (world s') = posts (world s) ∧
    (out = Ok () ↔
     ∀ k r, (k < length _job_queue)%nat →
       delete_replies s (length (deleted s) + 1 + length _job_queue + k) = Some r →
       status r = 200) ∧
    (out ≠ Ok () → out = Raise BadfishException).
Proof.
  intros _job_queue.
  set (w1 := log_get (jobs_uri self) false (world s)).
  set (w2 := log_get (root_uri self +:+ "/Dell/Managers/iDRAC.Embedded.1/DellJobService/")
               false w1).
  set (s2 := set_world w2 (set_world w1 s)).
  set (s3 := log_delete (jobs_uri self +:+ "/JID_CLEARALL_FORCE") s2).
  set (s4 := deletions (job_address self <$> _job_queue) s3).
  assert (Hidx3 : ∀ k, delete_replies s3 (length (deleted s3) + k)
                       = delete_replies s (length (deleted s) + 1 + k)).
  { intros k. simpl. by rewrite length_app. }
  assert (Hidx4 : ∀ k, delete_replies s4 (length (deleted s4) + k)
                       = delete_replies s (length (deleted s) + 1 + length _job_queue + k)).
  { intros k. unfold s4. rewrite deletions_delete_replies, deletions_deleted.
    rewrite length_app, length_fmap. simpl. rewrite length_app. simpl.
    done. }
  destruct (clear_job_list_run self _job_queue s3) as (out1 & Hrun1 & Hiff1 & Hexn1).
  { intros k Hk. rewrite Hidx3. apply Hanswered. fold _job_queue. lia. }
  fold s4 in Hrun1.
  assert (Hout1 : out1 = Raise BadfishException).
  { apply Hexn1. intros Hok. destruct Hfailed as (k & r & Hk & Hr & Hne).
    destruct Hne. apply (proj1 Hiff1 Hok k r Hk). by rewrite Hidx3. }
  subst out1.
  destruct (clear_job_list_run self _job_queue s4) as (out2 & Hrun2 & Hiff2 & Hexn2).
  { intros k Hk. rewrite Hidx4.
    replace (length (deleted s) + 1 + length _job_queue + k)%nat
      with (length (deleted s) + 1 + (length _job_queue + k))%nat by lia.
    apply Hanswered. fold _job_queue. lia. }
  exists out2, (deletions (job_address self <$> _job_queue) s4).
  split_and!.
  - unfold clear_job_queue. unfold mbind at 1, W_bind at 1. unfold via_world at 1.
    rewrite (get_job_queue_run text self (world s) r0 Hqueue). fold _job_queue w1.
    destruct _job_queue as [|_job rest] eqn:Hq; [done|]. cbn [orb].
    unfold mbind at 1, W_bind at 1. unfold via_world at 1.
    cbn [world set_world].
    rewrite (check_supported_idrac_version_run self w1 r1 Hversion). fold w2.
    rewrite (proj2 (Z.eqb_neq (status r1) 200) Hunsupported).
    fold s2. unfold mbind at 1, W_bind at 1.
    unfold delete_job_queue_force, delete_request.
    change (delete_replies s2 (length (deleted s2)))
      with (delete_replies s (length (deleted s))).
    rewrite Hforce, H400. cbn [Z.eqb Pos.eqb]. fold s3.
    rewrite Hrun1. exact Hrun2.
  - rewrite deletions_deleted. unfold s4. rewrite deletions_deleted.
    simpl. by rewrite <-!app_assoc.
  - rewrite deletions_world. unfold s4. by rewrite deletions_world.
  - rewrite Hiff2. split; intros Hall k r Hk Hr.
    + apply (Hall k r Hk). by rewrite Hidx4.
    + apply (Hall k r Hk). by rewrite <-Hidx4.
  - done.
Qed.

Lemma clear_job_queue_deletes_twice_witness :
  ∃ out s',
    clear_job_queue (λ _, "{'JID_498218641680': 'Pending'}") r640 false
      (wired (scripted [answer 200; answer 404] [])
         [] [answer 400; answer 500; answer 200]) = (out, s') ∧
    deleted s' = [] ++ [jobs_uri r640 +:+ "/JID_CLEARALL_FORCE"]
                   ++ (job_address r640 <$> job_ids "{'JID_498218641680': 'Pending'}")
                   ++ (job_address r640 <$> job_ids "{'JID_498218641680': 'Pending'}") ∧
    posts (world s') = O ∧
    (out = Ok () ↔
     ∀ k r, (k < length (job_ids "{'JID_498218641680': 'Pending'}"))%nat →
       default None ([answer 400; answer 500; answer 200]
                       !! (0 + 1 + length (job_ids "{'JID_498218641680': 'Pending'}") + k)%nat)
       = Some r →
       status r = 200) ∧
    (out ≠ Ok () → out = Raise BadfishException).
Proof.
  eapply (clear_job_queue_deletes_twice (λ _, "{'JID_498218641680': 'Pending'}")
            r640 false
            (wired (scripted [answer 200; answer 404] [])
               [] [answer 400; answer 500; answer 200])).
  - reflexivity.
  - done.
  - reflexivity.
  - done.
  - reflexivity.
  - reflexivity.
  - intros [|[|k]] Hk; [by eexists..|]. vm_compute in Hk. lia.
  - exists O. eexists. split_and!; [vm_compute; lia|reflexivity|done].
Defined.

End JobQueue.

Section DellJobService.

(** X29.  [delete_job_queue_dell] posts one request to the
    DeleteJobQueue action, for JID_CLEARALL, or JID_CLEARALL_FORCE when
    forced, and returns exactly when the reply has status 200.  After
    any other status it reads the body before it raises: a body that is
    not JSON ends the method in ValueError, a JSON object without an
    error member in BadfishException. *)
Theorem delete_job_queue_dell_outcome
    (self : Badfish) (force : bool) (w : World) (p : Response)
    (Hreply : post_replies w (posts w) = Some p) :
  let job_id := if force then "JID_CLEARALL_FORCE" else "JID_CLEARALL" in
  ∃ out,
    delete_job_queue_dell self force w
    = (out, log_post (delete_job_queue_uri self) (JObj [("JobID", JStr job_id)]) w) ∧
    (out = Ok () ↔ status p = 200) ∧
    (status p ≠ 200 → payload p = None → out = Raise ValueError) ∧
    (status p ≠ 200 →
     ∀ fields, payload p = Some (JObj fields) →
       Py.lookup_field "error" fields = None → out = Raise BadfishException).
Proof.
  intros job_id. unfold delete_job_queue_dell, post_request, loads. munfold.
  rewrite Hreply.
  assert (Hid : (if force then "JID_CLEARALL" +:+ "_FORCE" else "JID_CLEARALL") = job_id)
    by (by destruct force).
  rewrite Hid.
  destruct (status p =? 200) eqn:Hs.
  - apply Z.eqb_eq in Hs. exists (Ok ()). split_and!; try done.
  - apply Z.eqb_neq in Hs.
    assert (Hleaf : ∀ (e : exn) (w' : World),
              (payload p = None → e = ValueError) →
              (∀ fields, payload p = Some (JObj fields) →
                 Py.lookup_field "error" fields = None → e = BadfishException) →
              ∃ out : result (), (Raise e, w') = (out, w') ∧
                (out = Ok () ↔ status p = 200) ∧
                (status p ≠ 200 → payload p = None → out = Raise ValueError) ∧
                (status p ≠ 200 →
                 ∀ fields, payload p = Some (JObj fields) →
                   Py.lookup_field "error" fields = None → out = Raise BadfishException)).
    { intros e w' Hnone Hobj. exists (Raise e). split_and!; [done|split; done| |].
      - intros _ Hp. by rewrite Hnone.
      - intros _ fields Hp Herror. by rewrite (Hobj fields Hp Herror). }
    destruct (payload p) as [data|] eqn:Hp; [|by apply Hleaf].
    assert (Hnull : ∀ fields error, Some data = Some (JObj fields) →
              Py.lookup_field "error" fields = None →
              Py.get data "error" = Ok error → Py.truthy error = false).
    { intros fields error [= ->] Herror. simpl. rewrite Herror. by intros [= <-]. }
    destruct (Py.get data "error") as [error|e] eqn:Hget; cycle 1.
    { apply Hleaf; [done|]. intros fields [= ->]. done. }
    destruct (Py.truthy error) eqn:Htruthy; cycle 1.
    { by apply Hleaf. }
    assert (Hnot : ∀ e, ∀ fields, Some data = Some (JObj fields) →
              Py.lookup_field "error" fields = None → e = BadfishException).
    { intros e fields Hd Herror. by rewrite (Hnull fields error Hd Herror eq_refl) in Htruthy. }
    destruct (Py.getitem data "error") as [error'|e];
      [|cbv beta iota; apply Hleaf; [done|apply Hnot]].
    destruct (Py.get error' "@Message.ExtendedInfo") as [info|e];
      [|cbv beta iota; apply Hleaf; [done|apply Hnot]].
    destruct (Py.truthy info); cbv beta iota; apply Hleaf; done || apply Hnot.
Qed.

Lemma delete_job_queue_dell_outcome_witness :
  ∃ out,
    delete_job_queue_dell r640 true (scripted [] [not_found])
    = (out, log_post (delete_job_queue_uri r640)
              (JObj [("JobID", JStr "JID_CLEARALL_FORCE")]) (scripted [] [not_found])) ∧
    (out = Ok () ↔ 404 = 200) ∧
    (404 ≠ 200 → @None json = None → out = Raise ValueError) ∧
    (404 ≠ 200 →
     ∀ fields, @None json = Some (JObj fields) →
       Py.lookup_field "error" fields = None → out = Raise BadfishException).
Proof.
  exact (delete_job_queue_dell_outcome r640 true (scripted [] [not_found])
           {| status := 404; payload := None |} eq_refl).
Defined.

End DellJobService.

Section OneTimeBoot.

Lemma one_time_boot_loop_unavailable text (self : Badfish) _url _payload rounds first s :
  (∀ i, i ∈ rounds → i - 1 ≠ retries self) →
  (∀ k, (k < length rounds)%nat →
     ∃ r, patch_replies s (length (patched s) + k) = Some r ∧ status r = 503) →
  one_time_boot_loop text self _url _payload rounds first s
  = (Ok (), patches _url _payload false (length rounds) s).
Proof.
  revert s. induction rounds as [|i rounds IH]; intros s Hrange Hbusy; [done|].
  cbn [one_time_boot_loop]. unfold patch_request. unfold mbind at 1, W_bind at 1.
  destruct (Hbusy O) as (r & Hr & Hs); [simpl; lia|].
  rewrite Nat.add_0_r in Hr. rewrite Hr, Hs. cbn [Z.eqb Pos.eqb andb].
  rewrite (proj2 (Z.eqb_neq (i - 1) (retries self)))
    by (apply Hrange, list_elem_of_here).
  cbn [negb]. cbn [length]. rewrite patches_succ_r. apply IH.
  - intros j Hj. by apply Hrange, list_elem_of_further.
  - intros k Hk. destruct (Hbusy (S k)) as (r' & Hr' & Hs'); [simpl; lia|].
    exists r'. split; [|done]. simpl. rewrite length_app. simpl.
    by replace (length (patched s) + 1 + k)%nat
      with (length (patched s) + S k)%nat by lia.
Qed.

Lemma elem_of_range (i n : Z) : i ∈ range n → 0 ≤ i < n.
Proof.
  unfold range. intros (k & -> & Hk)%list_elem_of_fmap.
  apply elem_of_seq in Hk. lia.
Qed.

(** X30.  The test [i - 1 != self.retries] in the loop of
    [send_one_time_boot] never fails, so a reply with status 503 is
    always retried; and when all [retries] attempts are answered with
    503 the loop just ends: the method returns normally after [retries]
    PATCHes, without the setting applied and without an exception. *)
Theorem send_one_time_boot_unavailable
    (text : Response → string) (self : Badfish) (device : string) (s : Wire)
    (Hbusy : ∀ k, (k < Z.to_nat (retries self))%nat →
       ∃ r, patch_replies s (length (patched s) + k) = Some r ∧ status r = 503) :
  send_one_time_boot text self device s
  = (Ok (), patches (root_uri self +:+ bios_uri self) (one_time_boot_payload device)
              false (Z.to_nat (retries self)) s).
Proof.
  unfold send_one_time_boot.
  assert (Hlen : length (range (retries self)) = Z.to_nat (retries self)).
  { unfold range. by rewrite length_fmap, length_seq. }
  rewrite <-Hlen. apply one_time_boot_loop_unavailable.
  - intros i Hi%elem_of_range. lia.
  - intros k Hk. apply Hbusy. by rewrite <-Hlen.
Qed.

Lemma send_one_time_boot_unavailable_witness :
  send_one_time_boot (λ _, "") r640 "NIC.Integrated.1-1-1"
    (wired (scripted [] []) [answer 503; answer 503; answer 503] [])
  = (Ok (), patches (root_uri r640 +:+ bios_uri r640)
              (one_time_boot_payload "NIC.Integrated.1-1-1") false 3
              (wired (scripted [] []) [answer 503; answer 503; answer 503] [])).
Proof.
  apply (send_one_time_boot_unavailable (λ _, "") r640 "NIC.Integrated.1-1-1"
           (wired (scripted [] []) [answer 503; answer 503; answer 503] [])).
  intros [|[|[|k]]] Hk; [by eexists..|]. vm_compute in Hk. lia.
Defined.

End OneTimeBoot.

(** * The methods under the memo of [get_request] *)

Section Memoized.

Variable cache_exceptions : bool.

Lemma memo_bind_ok {A B} (m : Memo.C A) (k : A → Memo.C B) s s' (a : A) :
  m s = (Ok a, s') → (m ≫= k) s = k a s'.
Proof. intros H. unfold mbind, Memo.C_bind. by rewrite H. Qed.

Lemma memo_bind_raise {A B} (m : Memo.C A) (k : A → Memo.C B) s s' (e : exn) :
  m s = (Raise e, s') → (m ≫= k) s = (Raise e, s').
Proof. intros H. unfold mbind, Memo.C_bind. by rewrite H. Qed.

(** A call that returns leaves its answer as the most recent entry. *)
Lemma get_request_settles uri c s _response s1 :
  Memo.get_request cache_exceptions uri c s = (Ok _response, s1) → Memo.settled (uri, c) _response s1.
Proof.
  unfold Memo.get_request, Memo.miss. cbn [fst snd].
  destruct (Memo.lookup (uri, c) (Memo.cache s)) as [[v|e]|].
  - intros [= <- <-]. by eexists.
  - destruct cache_exceptions; [done|].
    destruct (get_request uri c (Memo.behind s)) as [outcome w'].
    intros [= -> <-]. by eexists.
  - destruct (get_request uri c (Memo.behind s)) as [outcome w'].
    intros [= -> <-]. by eexists.
Qed.

(** A settled call is answered from the memo: nothing reaches the
    controller and the answer stays settled. *)
Lemma get_request_settled uri c s _response :
  Memo.settled (uri, c) _response s →
  Memo.get_request cache_exceptions uri c s = (Ok _response, Memo.hit (uri, c) (Ok _response) s).
Proof.
  intros [rest Hcache]. unfold Memo.get_request. rewrite Hcache. simpl.
  by rewrite decide_True.
Qed.

Lemma hit_settled key _response s :
  Memo.settled key _response (Memo.hit key (Ok _response) s).
Proof. by eexists. Qed.

(** A call sends at most one request. *)
Lemma get_request_wire uri c s :
  Memo.behind (Memo.get_request cache_exceptions uri c s).2 = Memo.behind s ∨
  Memo.behind (Memo.get_request cache_exceptions uri c s).2 = log_get uri c (Memo.behind s).
Proof.
  assert (Hmiss : Memo.behind (Memo.miss (uri, c) s).2 = log_get uri c (Memo.behind s)).
  { unfold Memo.miss, get_request. cbn [fst snd].
    destruct (get_replies (Memo.behind s) (gets (Memo.behind s))); [done|].
    by destruct c. }
  unfold Memo.get_request.
  destruct (Memo.lookup (uri, c) (Memo.cache s)) as [[v|e]|]; [by left| |by right].
  destruct cache_exceptions; [by left|by right].
Qed.

(** What a poll makes of the reply it is given. *)
Lemma get_power_state_settled (self : Badfish) s _response :
  Memo.settled (system_uri self, true) _response s →
  Memo.get_power_state cache_exceptions self s
  = (read_power_state _response,
     Memo.hit (system_uri self, true) (Ok _response) s).
Proof.
  intros Hs. unfold Memo.get_power_state. unfold mbind, Memo.C_bind.
  by rewrite (get_request_settled _ _ _ _ Hs).
Qed.

(** A poll: the request, then the lowered state or the exception. *)
Lemma observe_first {B} (self : Badfish) (k : string → Memo.C B) s :
  (Memo.get_power_state cache_exceptions self ≫= λ current_state,
     Memo.of_result (Py.lower current_state) ≫= k) s
  = match (Memo.get_request cache_exceptions (system_uri self) true s).1 with
    | Ok _response =>
        match observed _response with
        | Ok current =>
            k current (Memo.get_request cache_exceptions (system_uri self) true s).2
        | Raise e =>
            (Raise e, (Memo.get_request cache_exceptions (system_uri self) true s).2)
        end
    | Raise e =>
        (Raise e, (Memo.get_request cache_exceptions (system_uri self) true s).2)
    end.
Proof.
  unfold Memo.get_power_state, observed.
  unfold mbind, Memo.C_bind, result_bind, Memo.of_result.
  destruct (Memo.get_request cache_exceptions (system_uri self) true s)
    as [[_response|e] s1]; [|done]. cbn [fst snd].
  destruct (read_power_state _response) as [current_state|e]; [|done].
  by destruct (Py.lower current_state).
Qed.

(** A poll of a settled power state: no request, then the lowered state
    or the exception. *)
Lemma observe_settled {B} (self : Badfish) (k : string → Memo.C B) s _response :
  Memo.settled (system_uri self, true) _response s →
  (Memo.get_power_state cache_exceptions self ≫= λ current_state,
     Memo.of_result (Py.lower current_state) ≫= k) s
  = match observed _response with
    | Ok current => k current (Memo.hit (system_uri self, true) (Ok _response) s)
    | Raise e => (Raise e, Memo.hit (system_uri self, true) (Ok _response) s)
    end.
Proof.
  intros Hs. unfold mbind at 1, Memo.C_bind at 1.
  rewrite (get_power_state_settled self s _response Hs).
  unfold observed. unfold mbind, Memo.C_bind, result_bind, Memo.of_result.
  destruct (read_power_state _response) as [current_state|e]; [|done].
  by destruct (Py.lower current_state).
Qed.

(** Once the power state is settled, every poll of the loop sees the same
    reply: the loop sends nothing, and with a round left its result is
    the test on that one reply. *)
Lemma polling_loop_settled (self : Badfish) state equals n s _response :
  Memo.settled (system_uri self, true) _response s →
  ∃ s',
    Memo.polling_loop cache_exceptions self state equals n s
    = (match n with
       | O => Ok false
       | S _ =>
           match observed _response with
           | Ok current => Ok (wanted state equals current)
           | Raise e => Raise e
           end
       end, s') ∧
    Memo.behind s' = Memo.behind s ∧
    Memo.settled (system_uri self, true) _response s'.
Proof.
  revert s. induction n as [|n IH]; intros s Hs.
  - by exists s.
  - cbn [Memo.polling_loop]. rewrite (observe_settled self _ s _response Hs).
    set (s1 := Memo.hit (system_uri self, true) (Ok _response) s).
    assert (Hs1 : Memo.settled (system_uri self, true) _response s1)
      by apply hit_settled.
    destruct (observed _response) as [current|e] eqn:Hobs; [|by exists s1].
    destruct (wanted state equals current) eqn:Hw; [by exists s1|].
    destruct (IH s1 Hs1) as (s' & Hrun & Hb & Hset).
    exists s'. split_and!; [|done..]. rewrite Hrun. by destruct n.
Qed.


(** One round of [get_job_status] after its request was answered. *)
Lemma job_status_round uri n s _response s1 :
  Memo.get_request cache_exceptions uri true s = (Ok _response, s1) →
  Memo.job_status_loop cache_exceptions uri (S n) s
  = match _response with
    | None => Memo.job_status_loop cache_exceptions uri n s1
    | Some r =>
        ((if status r =? 200 then mret ()
          else Memo.on_wire (error_handler r));;
         data ← Memo.of_result (loads r);
         message ← Memo.of_result (Py.getitem data "Message");
         if Py.eq_str message "Task successfully scheduled." then mret ()
         else Memo.job_status_loop cache_exceptions uri n) s1
    end.
Proof.
  intros Hget. cbn [Memo.job_status_loop].
  rewrite (memo_bind_ok _ _ _ _ _ Hget). by destruct _response.
Qed.

(** Once the job is settled the loop sends nothing. *)
Lemma job_status_loop_quiet uri n s _response :
  Memo.settled (uri, true) _response s →
  Memo.behind (Memo.job_status_loop cache_exceptions uri n s).2 = Memo.behind s.
Proof.
  revert s. induction n as [|n IH]; intros s Hs; [done|].
  rewrite (job_status_round uri n s _response _ (get_request_settled uri true s _ Hs)).
  set (s1 := Memo.hit (uri, true) (Ok _response) s).
  assert (Hs1 : Memo.settled (uri, true) _response s1) by apply hit_settled.
  destruct _response as [r|]; [|by rewrite IH].
  unfold mbind, Memo.C_bind, mret, Memo.C_ret, Memo.of_result, Memo.on_wire.
  destruct (status r =? 200).
  - destruct (loads r) as [data|e]; [|done].
    destruct (Py.getitem data "Message") as [message|e]; [|done].
    destruct (Py.eq_str message "Task successfully scheduled."); [done|].
    by rewrite IH.
  - by destruct (error_handler_raises r (Memo.behind s1)) as [e ->].
Qed.

(** A settled pending reply uses the whole budget. *)
Lemma job_status_loop_pending uri n s _response :
  Memo.settled (uri, true) _response s →
  job_pending _response →
  (Memo.job_status_loop cache_exceptions uri n s).1 = Raise BadfishException.
Proof.
  intros Hs Hpending. revert s Hs. induction n as [|n IH]; intros s Hs; [done|].
  rewrite (job_status_round uri n s _response _ (get_request_settled uri true s _ Hs)).
  set (s1 := Memo.hit (uri, true) (Ok _response) s).
  assert (Hs1 : Memo.settled (uri, true) _response s1) by apply hit_settled.
  destruct Hpending as [->|(r & fields & message & -> & Hstatus & Hbody & Hm & Hne)];
    [by apply IH|].
  unfold mbind, Memo.C_bind, mret, Memo.C_ret, Memo.of_result, loads.
  rewrite Hstatus, Hbody. cbn [Z.eqb Pos.eqb Py.getitem]. rewrite Hm.
  destruct (Py.eq_str message "Task successfully scheduled.") eqn:Heq.
  - by apply eq_str_true in Heq.
  - by apply IH.
Qed.


Lemma on_wire_send_reset (self : Badfish) (reset_type : string) s :
  ∃ out,
    Memo.on_wire (send_reset self reset_type) s
    = (out, {| Memo.behind := log_post (reset_uri self) (reset_payload reset_type)
                                (Memo.behind s);
               Memo.cache := Memo.cache s |}) ∧
    (accepted (post_replies (Memo.behind s) (posts (Memo.behind s))) → out = Ok ()).
Proof.
  unfold Memo.on_wire.
  destruct (send_reset_run self reset_type (Memo.behind s)) as [Hacc Hrej].
  destruct (accepted_dec (post_replies (Memo.behind s) (posts (Memo.behind s))))
    as [Ha|Hn].
  - rewrite (Hacc Ha). by exists (Ok ()).
  - destruct (Hrej Hn) as [e ->]. exists (Raise e). split; [done|]. by intros ?.
Qed.

(** Under the memo a graceful reboot of a host that is on never sees the
    host go off: the polls after the graceful reset are answered with
    the reply that showed On, so ForceOff is posted next whenever the
    graceful reset is accepted, and the only reset after it is On. *)
Lemma reboot_server_forces_off
    (self : Badfish) (s s0 s1 : Memo.State)
    (reply0 reply1 : option Response) (types : json) (rt : string) :
  0 < retries self →
  Memo.get_request cache_exceptions (system_uri self) false s = (Ok reply0, s0) →
  read_reset_types "#ComputerSystem.Reset" reply0 = Ok types →
  select_reset_type "GracefulRestart" types = Ok rt →
  Memo.get_request cache_exceptions (system_uri self) true s0 = (Ok reply1, s1) →
  observed reply1 = Ok "on" →
  accepted (post_replies (Memo.behind s1) (posts (Memo.behind s1))) →
  ∃ out s' rest,
    Memo.reboot_server cache_exceptions self true s = (out, s') ∧
    resets_sent (Memo.behind s')
    = resets_sent (Memo.behind s1) ++ rt :: "ForceOff" :: rest ∧
    (rest = [] ∨ rest = ["On"]) ∧
    gets (Memo.behind s') = gets (Memo.behind s1).
Proof.
  intros Hbudget Hget0 Htypes Hsel Hget1 Hon Hacc.
  pose proof (get_request_settles _ _ _ _ _ Hget1) as Hs1.
  destruct (Z.to_nat (retries self)) as [|n] eqn:Hn; [lia|].
  unfold Memo.reboot_server.
  erewrite memo_bind_ok; cycle 1.
  { unfold Memo.get_reset_types.
    change (host_uri self +:+ system_resource self) with (system_uri self).
    rewrite (memo_bind_ok _ _ _ _ _ Hget0). unfold Memo.of_result. by rewrite Htypes. }
  erewrite memo_bind_ok; cycle 1.
  { unfold Memo.of_result. by rewrite Hsel. }
  rewrite observe_first, Hget1. cbn [fst snd]. rewrite Hon.
  rewrite bool_decide_true by done.
  destruct (on_wire_send_reset self rt s1) as (out1 & Hsend1 & Hok1).
  rewrite (Hok1 Hacc) in Hsend1.
  set (s2 := {| Memo.behind := log_post (reset_uri self) (reset_payload rt) (Memo.behind s1);
                Memo.cache := Memo.cache s1 |}) in *.
  assert (Hs2 : Memo.settled (system_uri self, true) reply1 s2) by exact Hs1.
  destruct (polling_loop_settled self "Off" true (S n) s2 reply1 Hs2)
    as (s3 & Hpoll3 & Hb3 & Hs3).
  rewrite Hon in Hpoll3.
  destruct (on_wire_send_reset self "ForceOff" s3) as (out4 & Hsend4 & _).
  set (s4 := {| Memo.behind := log_post (reset_uri self) (reset_payload "ForceOff")
                                 (Memo.behind s3);
                Memo.cache := Memo.cache s3 |}) in *.
  assert (Hs4 : Memo.settled (system_uri self, true) reply1 s4) by exact Hs3.
  assert (Hsent4 : resets_sent (Memo.behind s4)
                   = resets_sent (Memo.behind s1) ++ [rt; "ForceOff"]).
  { unfold s4. cbn [Memo.behind]. rewrite resets_sent_log_post, Hb3.
    unfold s2. cbn [Memo.behind]. rewrite resets_sent_log_post.
    by rewrite <-app_assoc. }
  assert (Hgets4 : gets (Memo.behind s4) = gets (Memo.behind s1)).
  { unfold s4. cbn [Memo.behind log_post gets]. rewrite Hb3. done. }
  assert (Hfirst : ((Memo.on_wire (send_reset self rt);;
                     host_down ← Memo.polling_host_state cache_exceptions self "Off" true;
                     if negb host_down then Memo.on_wire (send_reset self "ForceOff")
                     else mret ()) : Memo.C ()) s1 = (out4, s4)).
  { rewrite (memo_bind_ok _ _ _ _ _ Hsend1).
    unfold Memo.polling_host_state. rewrite Hn.
    by rewrite (memo_bind_ok _ _ _ _ _ Hpoll3). }
  destruct out4 as [[]|e]; cycle 1.
  { exists (Raise e), s4, []. split_and!; [|by rewrite Hsent4|by left|done].
    by rewrite (memo_bind_raise _ _ _ _ _ Hfirst). }
  rewrite (memo_bind_ok _ _ _ _ _ Hfirst).
  destruct (polling_loop_settled self "Down" false (S n) s4 reply1 Hs4)
    as (s5 & Hpoll5 & Hb5 & Hs5).
  rewrite Hon in Hpoll5.
  unfold Memo.polling_host_state. rewrite Hn.
  rewrite (memo_bind_ok _ _ _ _ _ Hpoll5).
  change (wanted "Down" false "on") with true. cbv beta iota.
  destruct (on_wire_send_reset self "On" s5) as (out6 & Hsend6 & _).
  set (s6 := {| Memo.behind := log_post (reset_uri self) (reset_payload "On")
                                 (Memo.behind s5);
                Memo.cache := Memo.cache s5 |}) in *.
  assert (Hsent6 : resets_sent (Memo.behind s6)
                   = resets_sent (Memo.behind s1) ++ [rt; "ForceOff"; "On"]).
  { unfold s6. cbn [Memo.behind]. rewrite resets_sent_log_post, Hb5, Hsent4.
    by rewrite <-app_assoc. }
  assert (Hgets6 : gets (Memo.behind s6) = gets (Memo.behind s1)).
  { unfold s6. cbn [Memo.behind log_post gets]. by rewrite Hb5. }
  destruct out6 as [[]|e].
  - rewrite (memo_bind_ok _ _ _ _ _ Hsend6).
    exists (Ok true), s6, ["On"]. split_and!; [done|done|by right|done].
  - rewrite (memo_bind_raise _ _ _ _ _ Hsend6).
    exists (Raise e), s6, ["On"]. split_and!; [done|done|by right|done].
Qed.

End Memoized.

Section MemoizedExamples.



(** C5.  The controller answers the first request for the job with
    status 200 and the Message "Task is scheduling.", and would answer
    the second with "Task successfully scheduled.".  [get_job_status]
    sends the first request only: the rounds that follow are answered
    from the memo of [get_request] with the first reply, the budget runs
    out and the call raises BadfishException, although the response that
    ends the poll with success was the next one. *)
Theorem get_job_status_misses_scheduled (cache_exceptions : bool) :
  job_pending (get_replies job_scheduled_second 0) ∧
  job_scheduled (get_replies job_scheduled_second 1) ∧
  (Memo.get_job_status cache_exceptions r640 "JID_471269252011"
     (Memo.fresh job_scheduled_second)).1 = Raise BadfishException ∧
  requests (Memo.behind
    (Memo.get_job_status cache_exceptions r640 "JID_471269252011"
       (Memo.fresh job_scheduled_second)).2)
  = [GET (job_uri r640 "JID_471269252011") true].
Proof.
  split_and!.
  - right. eexists _, _, _. split_and!; [reflexivity..|done].
  - eexists _, _. split_and!; reflexivity.
  - by destruct cache_exceptions.
  - by destruct cache_exceptions.
Qed.

(** C6.  The host is on when the graceful reboot starts and the
    controller reports Off at each of the three polls of the budget.
    [reboot_server] does not see it: after the graceful reset its polls
    are answered from the memo of [get_request] with the reply that
    showed On and reach no controller, so ForceOff is posted all the
    same, and then On. *)
Theorem reboot_server_forces_off_though_off (cache_exceptions : bool) :
  observed (get_replies reboot_goes_off 1) = Ok "on" ∧
  (∀ k, (2 ≤ k < 5)%nat → observed (get_replies reboot_goes_off k) = Ok "off") ∧
  (Memo.reboot_server cache_exceptions r640 true (Memo.fresh reboot_goes_off)).1
  = Ok true ∧
  requests (Memo.behind
    (Memo.reboot_server cache_exceptions r640 true (Memo.fresh reboot_goes_off)).2)
  = [ GET (system_uri r640) false; GET (system_uri r640) true;
      POST (reset_uri r640) (reset_payload "GracefulRestart");
      POST (reset_uri r640) (reset_payload "ForceOff");
      POST (reset_uri r640) (reset_payload "On") ].
Proof.
  split_and!.
  - reflexivity.
  - intros [|[|[|[|[|k]]]]] Hk; try lia; reflexivity.
  - by destruct cache_exceptions.
  - by destruct cache_exceptions.
Qed.

End MemoizedExamples.
